(** * Soft-tissue deformation kernel of the liver and nose simulators

    A shallow embedding of the physics kernel found in [src/liver.py]
    ([BioSimFinal]) and [src/nose.py] ([NoseSimFinal]): vertex
    extraction at mesh load, the per-frame [deform_mesh] step, [set_mode]
    and [restore_immediate].

    Scalars.  The Python code computes with floating-point numbers; here
    every scalar is a real number ([R]), so the statements below are
    about the formulas the code evaluates, not about rounding.

    Vectors.  Panda3D's [LVector3] is a record of three scalars with
    component-wise arithmetic.

    Absent values.  Python's [None] for the probe position [hit_p], the
    contact normal [hit_n] and the vertex data [vdata] is [option]'s
    [None]; a Panda3D vector is always truthy, so [if hit_p] tests
    presence only. *)

From Stdlib Require Import Reals Lra Lia String Ascii ZArith.
From stdpp Require Import base list strings gmap.

Open Scope R_scope.

(** ** Panda3D vectors *)

Module LVector3.

Record t : Type := mk { x : R; y : R; z : R }.

Definition zero : t := mk 0 0 0.

Definition add (a b : t) : t := mk (x a + x b) (y a + y b) (z a + z b).
Definition sub (a b : t) : t := mk (x a - x b) (y a - y b) (z a - z b).
Definition neg (a : t) : t := mk (- x a) (- y a) (- z a).
Definition scale (a : t) (k : R) : t := mk (x a * k) (y a * k) (z a * k).
Definition div (a : t) (k : R) : t := mk (x a / k) (y a / k) (z a / k).

Definition length_squared (a : t) : R := x a * x a + y a * y a + z a * z a.
Definition length (a : t) : R := sqrt (length_squared a).

(** [LVector3.normalized()]: a zero-length vector is returned as the
    zero vector, any other vector is divided by its length. *)
Definition normalized (a : t) : t :=
  if Req_dec_T (length_squared a) 0 then zero else div a (sqrt (length_squared a)).

End LVector3.

Abbreviation Vec3 := LVector3.t.
Abbreviation LVector3 := LVector3.mk.

Declare Scope vec_scope.
Delimit Scope vec_scope with V.
Infix "+" := LVector3.add : vec_scope.
Infix "-" := LVector3.sub : vec_scope.
Infix "*" := LVector3.scale : vec_scope.
Infix "/" := LVector3.div : vec_scope.
Notation "- a" := (LVector3.neg a) : vec_scope.

(** ** Python outcomes *)

(** The exceptions the modelled methods can raise: a list index out of
    range, a call on [None] that needs an object ([TypeError] for a
    [None] argument, [AttributeError] for a method of [None]). *)
Inductive exn : Type := IndexError | TypeError | AttributeError.

Inductive result (A : Type) : Type :=
| Ok (a : A)
| Err (e : exn).
Arguments Ok {A} a.
Arguments Err {A} e.

(** What a method hands back to its caller: [None] for a method without
    a [return] value, or a boolean. *)
Inductive pyval : Type := PyNone | PyBool (b : bool).

(** ** Panda3D geometry *)

(** The two columns of a [GeomVertexData] the simulators read: the
    ['vertex'] rows and the ['normal'] rows.  A reader over a column
    that is missing is at its end at once, which is the empty list. *)
Record GeomVertexData : Type := mkVData {
  vertex : list Vec3;
  normal : list Vec3
}.

(** A loaded model: [find('**/+GeomNode')] either yields the vertex data
    of its first geometry node or an empty (falsy) node path. *)
Record NodePath : Type := mkModel { geom_node : option GeomVertexData }.

(** [GeomVertexWriter.setData3] called once per element of [src],
    starting at row 0: rows are overwritten in order, and rows past the
    end are appended. *)
Definition write_rows (src rows : list Vec3) : list Vec3 :=
  src ++ drop (List.length src) rows.

Definition Rltb (a b : R) : bool := if Rlt_dec a b then true else false.

(** ** src/liver.py: BioSimFinal *)

Module Liver.
Import LVector3.

Record State : Type := mkState {
  liver_model : option NodePath;
  vdata : option GeomVertexData;
  original_verts : list Vec3;
  vertex_velocities : list Vec3;
  is_squeezing : bool;
  squeeze_mode : string;
  vr_mode_active : bool;
  user_force : R;
  recovery_speed : R
}.

(** [__init__]: the state variables and physics parameters. *)
Definition init : State :=
  mkState None None [] [] false "hard" false 60 8.

Definition set_mode (s : State) (mode : string) : State :=
  mkState (liver_model s) (vdata s) (original_verts s) (vertex_velocities s)
          (is_squeezing s) mode (vr_mode_active s) (user_force s)
          (recovery_speed s).

(** [extract_vertex_data]: reads the ['vertex'] column into
    [original_verts] and zeroes one velocity per vertex. *)
Fixpoint read_verts (reader : list Vec3) (original_verts : list Vec3)
  : list Vec3 :=
  match reader with
  | [] => original_verts
  | v :: reader' => read_verts reader' (original_verts ++ [v])
  end.

Definition extract_vertex_data (s : State) : result (State * pyval) :=
  match liver_model s with
  | None => Err AttributeError
  | Some m =>
    match geom_node m with
    | None => Ok (s, PyNone)
    | Some vd =>
      let verts := read_verts (vertex vd) [] in
      Ok (mkState (liver_model s) (Some vd) verts
                  (List.map (fun _ => LVector3 0 0 0) verts)
                  (is_squeezing s) (squeeze_mode s) (vr_mode_active s)
                  (user_force s) (recovery_speed s),
          PyNone)
    end
  end.

(** The constants set at the top of [deform_mesh]. *)
Definition mass : R := 1.
Definition damping (s : State) : R := 10.
Definition spring_k (s : State) : R := recovery_speed s * 5.

Definition active_interaction (s : State) : bool :=
  vr_mode_active s || is_squeezing s.

Definition interaction_radius (s : State) : R :=
  let r := if String.eqb (squeeze_mode s) "hard" then 2 else 4 in
  if vr_mode_active s then r + 1.5 else r.

(** The force calculation of the loop body, for a vertex whose rest
    position is [orig_pos]. *)
Definition ext_force (s : State) (hit_p hit_n : option Vec3)
    (orig_pos : Vec3) : Vec3 :=
  if active_interaction s then
    match hit_p with
    | None => LVector3 0 0 0
    | Some p =>
      let dist := length (orig_pos - p)%V in
      let r := interaction_radius s in
      if Rltb dist r then
        let influence := (1 - dist / r) ^ 3 in
        if vr_mode_active s then
          let push_dir := normalized (orig_pos - p)%V in
          (push_dir * (user_force s * 1.2) * influence)%V
        else
          match hit_n with
          | Some n => (n * (-1) * (user_force s * 1.2) * influence)%V
          | None => LVector3 0 0 0
          end
      else LVector3 0 0 0
    end
  else LVector3 0 0 0.

(** The physics integration of the loop body: the new velocity and the
    new position of one vertex. *)
Definition integrate (s : State) (dt : R) (ext_force cur_pos orig_pos velocity : Vec3)
  : Vec3 * Vec3 :=
  let displacement := (cur_pos - orig_pos)%V in
  let spring_force := (displacement * (- spring_k s))%V in
  let damping_force := (velocity * (- damping s))%V in
  let accel := ((ext_force + spring_force + damping_force) / mass)%V in
  let new_vel := (velocity + accel * dt)%V in
  let new_pos := (cur_pos + new_vel * dt)%V in
  (new_vel, new_pos).

(** The [while not rewriter.isAtEnd()] loop.  [rows] are the rows the
    rewriter has not visited yet, [written] the rows it has rewritten,
    [i] the loop counter and [vels] the list [vertex_velocities], which
    is updated in place. *)
Fixpoint deform_loop (s : State) (dt : R) (hit_p hit_n : option Vec3)
    (rows : list Vec3) (i : nat) (written vels : list Vec3)
  : result (list Vec3 * list Vec3) :=
  match rows with
  | [] => Ok (written, vels)
  | cur_pos :: rows' =>
    match original_verts s !! i with
    | None => Err IndexError
    | Some orig_pos =>
      match vels !! i with
      | None => Err IndexError
      | Some velocity =>
        let ext := ext_force s hit_p hit_n orig_pos in
        let '(new_vel, new_pos) := integrate s dt ext cur_pos orig_pos velocity in
        deform_loop s dt hit_p hit_n rows' (S i)
                    (written ++ [new_pos]) (<[i := new_vel]> vels)
      end
    end
  end.

Definition deform_mesh (s : State) (dt : R) (hit_p hit_n : option Vec3)
  : result (State * pyval) :=
  match vdata s with
  | None => Err TypeError
  | Some vd =>
    match deform_loop s dt hit_p hit_n (vertex vd) 0 [] (vertex_velocities s) with
    | Err e => Err e
    | Ok (rows, vels) =>
      Ok (mkState (liver_model s) (Some (mkVData rows (normal vd)))
                  (original_verts s) vels
                  (is_squeezing s) (squeeze_mode s) (vr_mode_active s)
                  (user_force s) (recovery_speed s),
          PyNone)
    end
  end.

(** The interaction source selection of [update_loop].  [hand] is the
    position of the VR hand in the liver's coordinate space and [pick]
    the nearest hit of the mouse ray, a surface point with its surface
    normal, when the ray hits.  The result is the pair [hit_p], [hit_n]
    handed to [deform_mesh]. *)
Definition interaction_source (s : State) (hand : Vec3)
    (pick : option (Vec3 * Vec3)) : option Vec3 * option Vec3 :=
  if vr_mode_active s then (Some hand, None)
  else if is_squeezing s then
    match pick with
    | Some (p, n) => (Some p, Some n)
    | None => (None, None)
    end
  else (None, None).

Definition restore_immediate (s : State) : State :=
  match vdata s with
  | None => s
  | Some vd =>
    mkState (liver_model s)
            (Some (mkVData (write_rows (original_verts s) (vertex vd)) (normal vd)))
            (original_verts s)
            (List.map (fun _ => LVector3 0 0 0) (original_verts s))
            (is_squeezing s) (squeeze_mode s) (vr_mode_active s)
            (user_force s) (recovery_speed s)
  end.

End Liver.

(** ** src/nose.py: NoseSimFinal *)

Module Nose.
Import LVector3.

Record State : Type := mkState {
  nose_model : option NodePath;
  vdata : option GeomVertexData;
  original_verts : list Vec3;
  original_normals : list Vec3;
  vertex_velocities : list Vec3;
  camera_locked : bool;
  is_squeezing : bool;
  squeeze_mode : string;
  vr_mode_active : bool;
  user_force : R;
  recovery_speed : R;
  damping_value : R
}.

(** [__init__]: the state variables and physics parameters. *)
Definition init : State :=
  mkState None None [] [] [] false false "soft" false 60 2 3.

Definition set_mode (s : State) (mode : string) : State :=
  let '(recovery, damp) :=
    if String.eqb mode "soft" then (2, 3) else (8, 10) in
  mkState (nose_model s) (vdata s) (original_verts s) (original_normals s)
          (vertex_velocities s) (camera_locked s) (is_squeezing s) mode
          (vr_mode_active s) (user_force s) recovery damp.

(** The reading loop of [extract_vertex_data]: [reader] walks the
    ['vertex'] column and drives the loop, [reader_normal] walks the
    ['normal'] column and is read only while it is not at its end. *)
Fixpoint read_loop (reader reader_normal : list Vec3)
    (original_verts original_normals : list Vec3)
  : list Vec3 * list Vec3 :=
  match reader with
  | [] => (original_verts, original_normals)
  | v :: reader' =>
    match reader_normal with
    | n :: reader_normal' =>
      read_loop reader' reader_normal'
                (original_verts ++ [v]) (original_normals ++ [n])
    | [] =>
      read_loop reader' []
                (original_verts ++ [v]) (original_normals ++ [LVector3 0 0 1])
    end
  end.

Definition extract_vertex_data (s : State) : result (State * pyval) :=
  match nose_model s with
  | None => Err AttributeError
  | Some m =>
    match geom_node m with
    | None => Ok (s, PyNone)
    | Some vd =>
      let '(verts, normals) := read_loop (vertex vd) (normal vd) [] [] in
      Ok (mkState (nose_model s) (Some vd) verts normals
                  (List.map (fun _ => LVector3 0 0 0) verts)
                  (camera_locked s) (is_squeezing s) (squeeze_mode s)
                  (vr_mode_active s) (user_force s) (recovery_speed s)
                  (damping_value s),
          PyNone)
    end
  end.

(** The constants set at the top of [deform_mesh]. *)
Definition mass : R := 1.
Definition damping (s : State) : R := damping_value s.
Definition spring_k (s : State) : R := recovery_speed s * 5.

Definition active_interaction (s : State) : bool :=
  vr_mode_active s || (is_squeezing s && camera_locked s).

Definition interaction_radius (s : State) : R :=
  let r := if String.eqb (squeeze_mode s) "hard" then 2 else 4 in
  if vr_mode_active s then r + 1.5 else r.

(** The force calculation of the loop body for vertex [i] with rest
    position [orig_pos]: the external force, and the contact flag
    [any_contact] as the body leaves it. *)
Definition ext_force (s : State) (hit_p : option Vec3) (i : nat)
    (orig_pos : Vec3) (any_contact : bool) : Vec3 * bool :=
  if active_interaction s then
    match hit_p with
    | None => (LVector3 0 0 0, any_contact)
    | Some p =>
      let dist := length (orig_pos - p)%V in
      let r := interaction_radius s in
      if Rltb dist r then
        let sigma := r / 3 in
        let influence := exp (- (dist * dist) / (2 * sigma * sigma)) in
        let push_dir :=
          match original_normals s !! i with
          | Some n => (- n)%V
          | None => (normalized (orig_pos - p) * (-1))%V
          end in
        ((push_dir * (user_force s * 1.5) * influence)%V, true)
      else (LVector3 0 0 0, any_contact)
    end
  else (LVector3 0 0 0, any_contact).

(** The physics integration of the loop body: the new velocity and the
    new position of one vertex. *)
Definition integrate (s : State) (dt : R) (ext_force cur_pos orig_pos velocity : Vec3)
  : Vec3 * Vec3 :=
  let displacement := (cur_pos - orig_pos)%V in
  let spring_force := (displacement * (- spring_k s))%V in
  let damping_force := (velocity * (- damping s))%V in
  let accel := ((ext_force + spring_force + damping_force) / mass)%V in
  let new_vel := (velocity + accel * dt)%V in
  let new_pos := (cur_pos + new_vel * dt)%V in
  (new_vel, new_pos).

(** The [while not rewriter.isAtEnd()] loop.  [rows] are the rows the
    rewriter has not visited yet, [written] the rows it has rewritten,
    [i] the loop counter, [vels] the list [vertex_velocities], which is
    updated in place, and [any_contact] the flag the method returns. *)
Fixpoint deform_loop (s : State) (dt : R) (hit_p : option Vec3)
    (rows : list Vec3) (i : nat) (written vels : list Vec3)
    (any_contact : bool)
  : result (list Vec3 * list Vec3 * bool) :=
  match rows with
  | [] => Ok (written, vels, any_contact)
  | cur_pos :: rows' =>
    match original_verts s !! i with
    | None => Err IndexError
    | Some orig_pos =>
      match vels !! i with
      | None => Err IndexError
      | Some velocity =>
        let '(ext, any_contact') := ext_force s hit_p i orig_pos any_contact in
        let '(new_vel, new_pos) := integrate s dt ext cur_pos orig_pos velocity in
        deform_loop s dt hit_p rows' (S i)
                    (written ++ [new_pos]) (<[i := new_vel]> vels) any_contact'
      end
    end
  end.

(** [hit_n] is a parameter of the method that its body never reads. *)
Definition deform_mesh (s : State) (dt : R) (hit_p hit_n : option Vec3)
  : result (State * pyval) :=
  match vdata s with
  | None => Err TypeError
  | Some vd =>
    match deform_loop s dt hit_p (vertex vd) 0 [] (vertex_velocities s) false with
    | Err e => Err e
    | Ok (rows, vels, any_contact) =>
      Ok (mkState (nose_model s) (Some (mkVData rows (normal vd)))
                  (original_verts s) (original_normals s) vels
                  (camera_locked s) (is_squeezing s) (squeeze_mode s)
                  (vr_mode_active s) (user_force s) (recovery_speed s)
                  (damping_value s),
          PyBool any_contact)
    end
  end.

(** The interaction source selection of [update_loop].  [hand] is the
    position of the VR hand in the nose's coordinate space and [pick]
    the nearest hit of the mouse ray, a surface point with its surface
    normal, when the ray hits.  The result is the pair [hit_p], [hit_n]
    handed to [deform_mesh]. *)
Definition interaction_source (s : State) (hand : Vec3)
    (pick : option (Vec3 * Vec3)) : option Vec3 * option Vec3 :=
  if vr_mode_active s then (Some hand, None)
  else if is_squeezing s && camera_locked s then
    match pick with
    | Some (p, n) => (Some p, Some n)
    | None => (None, None)
    end
  else (None, None).

Definition restore_immediate (s : State) : State :=
  match vdata s with
  | None => s
  | Some vd =>
    mkState (nose_model s)
            (Some (mkVData (write_rows (original_verts s) (vertex vd)) (normal vd)))
            (original_verts s) (original_normals s)
            (List.map (fun _ => LVector3 0 0 0) (original_verts s))
            (camera_locked s) (is_squeezing s) (squeeze_mode s)
            (vr_mode_active s) (user_force s) (recovery_speed s)
            (damping_value s)
  end.

End Nose.

(** ** VRHandEmulator (src/liver.py and src/nose.py, the same class) *)

Module VRHandEmulator.

(** The state of the emulated controller: the position of its root
    node, whether that node is hidden, the speed and the [active]
    flag. *)
Record t : Type := mkHand {
  root_pos : Vec3;
  hidden : bool;
  speed : R;
  active : bool
}.

(** [__init__]: the root starts at (0,-10,0), shown like any new node,
    and the hand is not active. *)
Definition init : t := mkHand (LVector3 0 (-10) 0) false 25 false.

(** [toggle]: flips [active], shows or hides the root accordingly and
    returns the new flag. *)
Definition toggle (h : t) : t * bool :=
  let a := negb (active h) in
  (mkHand (root_pos h) (if a then false else true) (speed h) a, a).

Definition addX (v : Vec3) (d : R) : Vec3 :=
  LVector3 (LVector3.x v + d) (LVector3.y v) (LVector3.z v).
Definition addY (v : Vec3) (d : R) : Vec3 :=
  LVector3 (LVector3.x v) (LVector3.y v + d) (LVector3.z v).
Definition addZ (v : Vec3) (d : R) : Vec3 :=
  LVector3 (LVector3.x v) (LVector3.y v) (LVector3.z v + d).

(** The vector [update] builds from the six keys. *)
Definition move_vec (is_pressed : string -> bool) : Vec3 :=
  let move_vec := LVector3 0 0 0 in
  let move_vec := if is_pressed "w" then addZ move_vec 1 else move_vec in
  let move_vec := if is_pressed "s" then addZ move_vec (-1) else move_vec in
  let move_vec := if is_pressed "a" then addX move_vec (-1) else move_vec in
  let move_vec := if is_pressed "d" then addX move_vec 1 else move_vec in
  let move_vec := if is_pressed "q" then addY move_vec 1 else move_vec in
  let move_vec := if is_pressed "e" then addY move_vec (-1) else move_vec in
  move_vec.

(** [update]: nothing while the hand is not active; otherwise the root
    moves by [move_vec * speed * dt]. *)
Definition update (h : t) (dt : R) (is_pressed : string -> bool) : t :=
  if negb (active h) then h
  else mkHand (root_pos h + move_vec is_pressed * speed h * dt)%V
              (hidden h) (speed h) (active h).

Definition get_pos (h : t) : Vec3 := root_pos h.

End VRHandEmulator.

(** ** The sound of the simulators *)

(** [squash_sfx] is [None] when the sound could not be loaded; a loaded
    sound is either playing or not. *)
Definition sound : Type := option bool.

(** ** src/liver.py: the application around the physics state *)

Module LiverApp.

Record t : Type := mkApp {
  sim : Liver.State;
  vr_hand : VRHandEmulator.t;
  keys_pressed : gset string;
  is_rotating : bool;
  last_mouse_x : R;
  last_mouse_y : R;
  model_h : R;
  model_p : R;
  squash_sfx : sound
}.

Definition with_sim (a : t) (s : Liver.State) : t :=
  mkApp s (vr_hand a) (keys_pressed a) (is_rotating a) (last_mouse_x a)
        (last_mouse_y a) (model_h a) (model_p a) (squash_sfx a).

Definition register_key (a : t) (key : string) (status : bool) : t :=
  mkApp (sim a) (vr_hand a)
        (if status then {[ key ]} ∪ keys_pressed a else keys_pressed a ∖ {[ key ]})
        (is_rotating a) (last_mouse_x a) (last_mouse_y a)
        (model_h a) (model_p a) (squash_sfx a).

Definition is_pressed (a : t) (key : string) : bool :=
  bool_decide (key ∈ keys_pressed a).

Definition update_force (a : t) (val : R) : t :=
  let s := sim a in
  with_sim a (Liver.mkState (Liver.liver_model s) (Liver.vdata s)
                (Liver.original_verts s) (Liver.vertex_velocities s)
                (Liver.is_squeezing s) (Liver.squeeze_mode s)
                (Liver.vr_mode_active s) val (Liver.recovery_speed s)).

Definition set_mode (a : t) (mode : string) : t :=
  with_sim a (Liver.set_mode (sim a) mode).

Definition toggle_vr_mode (a : t) : t :=
  let '(hand, active) := VRHandEmulator.toggle (vr_hand a) in
  let s := sim a in
  mkApp (Liver.mkState (Liver.liver_model s) (Liver.vdata s)
           (Liver.original_verts s) (Liver.vertex_velocities s)
           (Liver.is_squeezing s) (Liver.squeeze_mode s)
           active (Liver.user_force s) (Liver.recovery_speed s))
        hand (keys_pressed a) (is_rotating a) (last_mouse_x a)
        (last_mouse_y a) (model_h a) (model_p a) (squash_sfx a).

(** [set_squeeze]: stores the status, then starts the sound on a press
    unless it is playing, and stops it on a release. *)
Definition set_squeeze (a : t) (status : bool) : t :=
  let s := sim a in
  let s' := Liver.mkState (Liver.liver_model s) (Liver.vdata s)
              (Liver.original_verts s) (Liver.vertex_velocities s)
              status (Liver.squeeze_mode s)
              (Liver.vr_mode_active s) (Liver.user_force s)
              (Liver.recovery_speed s) in
  let sfx :=
    match squash_sfx a with
    | None => None
    | Some playing =>
      if status then (if negb playing then Some true else Some playing)
      else Some false
    end in
  mkApp s' (vr_hand a) (keys_pressed a) (is_rotating a) (last_mouse_x a)
        (last_mouse_y a) (model_h a) (model_p a) sfx.

(** [set_rotate]: [mouse] is the pointer position when the pointer is
    inside the window. *)
Definition set_rotate (a : t) (status : bool) (mouse : option (R * R)) : t :=
  let '(lx, ly) :=
    match mouse with
    | Some (mx, my) => (mx, my)
    | None => (last_mouse_x a, last_mouse_y a)
    end in
  mkApp (sim a) (vr_hand a) (keys_pressed a) status lx ly
        (model_h a) (model_p a) (squash_sfx a).


(** [update_loop], one frame.  The frame's inputs are the clock's
    [frame_dt], the pointer position [mouse] when the pointer is inside
    the window, the conversion [getRelativePoint] of a world point into
    the model's coordinate space under the model's heading and pitch,
    and [pick], the nearest hit of the mouse ray should it be cast. *)
Definition update_loop (a : t) (frame_dt : R) (mouse : option (R * R))
    (getRelativePoint : R -> R -> Vec3 -> Vec3)
    (pick : option (Vec3 * Vec3)) : result t :=
  let dt := Rmin frame_dt 0.05 in
  let hand := VRHandEmulator.update (vr_hand a) dt (is_pressed a) in
  match mouse with
  | None =>
    Ok (mkApp (sim a) hand (keys_pressed a) (is_rotating a)
              (last_mouse_x a) (last_mouse_y a) (model_h a) (model_p a)
              (squash_sfx a))
  | Some (mx, my) =>
    let s := sim a in
    let rotate :=
      is_rotating a && bool_decide (is_Some (Liver.liver_model s)) in
    let h := if rotate then model_h a + (mx - last_mouse_x a) * 150
             else model_h a in
    let p := if rotate then model_p a + (my - last_mouse_y a) * 150
             else model_p a in
    match Liver.liver_model s, Liver.vdata s with
    | Some _, Some _ =>
      let '(hit_p, hit_n) :=
        Liver.interaction_source
          s (getRelativePoint h p (VRHandEmulator.get_pos hand)) pick in
      match Liver.deform_mesh s dt hit_p hit_n with
      | Err e => Err e
      | Ok (s', _) =>
        Ok (mkApp s' hand (keys_pressed a) (is_rotating a) mx my h p
                  (squash_sfx a))
      end
    | _, _ =>
      Ok (mkApp s hand (keys_pressed a) (is_rotating a) mx my h p
                (squash_sfx a))
    end
  end.

End LiverApp.

(** ** src/nose.py: the application around the physics state *)

Module NoseApp.

Record t : Type := mkApp {
  sim : Nose.State;
  vr_hand : VRHandEmulator.t;
  keys_pressed : gset string;
  is_rotating : bool;
  last_mouse_x : R;
  last_mouse_y : R;
  model_h : R;
  model_p : R;
  squash_sfx : sound
}.

Definition with_sim (a : t) (s : Nose.State) : t :=
  mkApp s (vr_hand a) (keys_pressed a) (is_rotating a) (last_mouse_x a)
        (last_mouse_y a) (model_h a) (model_p a) (squash_sfx a).

(** The physics state with three of its flags replaced. *)
Definition with_flags (s : Nose.State) (locked squeezing vr : bool)
  : Nose.State :=
  Nose.mkState (Nose.nose_model s) (Nose.vdata s) (Nose.original_verts s)
               (Nose.original_normals s) (Nose.vertex_velocities s)
               locked squeezing (Nose.squeeze_mode s) vr
               (Nose.user_force s) (Nose.recovery_speed s)
               (Nose.damping_value s).

Definition register_key (a : t) (key : string) (status : bool) : t :=
  mkApp (sim a) (vr_hand a)
        (if status then {[ key ]} ∪ keys_pressed a else keys_pressed a ∖ {[ key ]})
        (is_rotating a) (last_mouse_x a) (last_mouse_y a)
        (model_h a) (model_p a) (squash_sfx a).

Definition is_pressed (a : t) (key : string) : bool :=
  bool_decide (key ∈ keys_pressed a).

Definition toggle_camera_lock (a : t) : t :=
  let s := sim a in
  with_sim a (with_flags s (negb (Nose.camera_locked s)) (Nose.is_squeezing s)
                         (Nose.vr_mode_active s)).

Definition set_mode (a : t) (mode : string) : t :=
  with_sim a (Nose.set_mode (sim a) mode).

Definition toggle_vr_mode (a : t) : t :=
  let '(hand, active) := VRHandEmulator.toggle (vr_hand a) in
  let s := sim a in
  mkApp (with_flags s (Nose.camera_locked s) (Nose.is_squeezing s) active)
        hand (keys_pressed a) (is_rotating a) (last_mouse_x a)
        (last_mouse_y a) (model_h a) (model_p a) (squash_sfx a).

(** [set_squeeze]: ignored unless the camera is locked. *)
Definition set_squeeze (a : t) (status : bool) : t :=
  let s := sim a in
  if negb (Nose.camera_locked s) then a
  else with_sim a (with_flags s (Nose.camera_locked s) status
                              (Nose.vr_mode_active s)).

(** [set_rotate]: ignored unless the camera is locked; [mouse] is the
    pointer position when the pointer is inside the window. *)
Definition set_rotate (a : t) (status : bool) (mouse : option (R * R)) : t :=
  if negb (Nose.camera_locked (sim a)) then a
  else
    let '(lx, ly) :=
      match mouse with
      | Some (mx, my) => (mx, my)
      | None => (last_mouse_x a, last_mouse_y a)
      end in
    mkApp (sim a) (vr_hand a) (keys_pressed a) status lx ly
          (model_h a) (model_p a) (squash_sfx a).


(** The audio update that ends [update_loop]: the sound is started on
    contact unless it is playing, and stopped without contact if it is
    playing. *)
Definition audio_update (sfx : sound) (contact_detected : bool) : sound :=
  match sfx with
  | None => None
  | Some playing =>
    if contact_detected then (if negb playing then Some true else Some playing)
    else (if playing then Some false else Some playing)
  end.

(** The truth value Python gives to what [deform_mesh] returned. *)
Definition truthy (v : pyval) : bool :=
  match v with
  | PyBool b => b
  | PyNone => false
  end.

(** [update_loop], one frame.  The frame's inputs are the clock's
    [frame_dt], the pointer position [mouse] when the pointer is inside
    the window, the conversion [getRelativePoint] of a world point into
    the model's coordinate space under the model's heading and pitch,
    and [pick], the nearest hit of the mouse ray should it be cast. *)
Definition update_loop (a : t) (frame_dt : R) (mouse : option (R * R))
    (getRelativePoint : R -> R -> Vec3 -> Vec3)
    (pick : option (Vec3 * Vec3)) : result t :=
  let dt := Rmin frame_dt 0.05 in
  let hand := VRHandEmulator.update (vr_hand a) dt (is_pressed a) in
  match mouse with
  | None =>
    Ok (mkApp (sim a) hand (keys_pressed a) (is_rotating a)
              (last_mouse_x a) (last_mouse_y a) (model_h a) (model_p a)
              (squash_sfx a))
  | Some (mx, my) =>
    let s := sim a in
    let rotate :=
      is_rotating a && bool_decide (is_Some (Nose.nose_model s))
      && Nose.camera_locked s in
    let h := if rotate then model_h a + (mx - last_mouse_x a) * 150
             else model_h a in
    let p := if rotate then model_p a + (my - last_mouse_y a) * 150
             else model_p a in
    match Nose.nose_model s, Nose.vdata s with
    | Some _, Some _ =>
      let '(hit_p, hit_n) :=
        Nose.interaction_source
          s (getRelativePoint h p (VRHandEmulator.get_pos hand)) pick in
      match Nose.deform_mesh s dt hit_p hit_n with
      | Err e => Err e
      | Ok (s', contact_detected) =>
        Ok (mkApp s' hand (keys_pressed a) (is_rotating a) mx my h p
                  (audio_update (squash_sfx a) (truthy contact_detected)))
      end
    | _, _ =>
      Ok (mkApp s hand (keys_pressed a) (is_rotating a) mx my h p
                (audio_update (squash_sfx a) false))
    end
  end.

End NoseApp.

(** ** load_asset: centring and scaling an imported model *)

Module LoadAsset.

(** Panda3D's [getTightBounds] over the vertices of a model: nothing for
    a model without vertices, else the component-wise minimum and
    maximum. *)
Definition vmin (a b : Vec3) : Vec3 :=
  LVector3 (Rmin (LVector3.x a) (LVector3.x b))
           (Rmin (LVector3.y a) (LVector3.y b))
           (Rmin (LVector3.z a) (LVector3.z b)).

Definition vmax (a b : Vec3) : Vec3 :=
  LVector3 (Rmax (LVector3.x a) (LVector3.x b))
           (Rmax (LVector3.y a) (LVector3.y b))
           (Rmax (LVector3.z a) (LVector3.z b)).

Fixpoint getTightBounds (vs : list Vec3) : option (Vec3 * Vec3) :=
  match vs with
  | [] => None
  | v :: vs' =>
    match getTightBounds vs' with
    | None => Some (v, v)
    | Some (lo, hi) => Some (vmin v lo, vmax v hi)
    end
  end.

(** What the block can end in: the vertices as [flattenLight] leaves
    them, or Python's error for the division [10.0 / max_dim]. *)
Inductive outcome : Type :=
| Flattened (vs : list Vec3)
| ZeroDivisionError.

(** The "Center and Scale" block of [load_asset] (the same in liver.py
    and nose.py).  [setScale] and [setPos] place a vertex [v] at
    [v * scale + pos], and [flattenLight] writes that into the vertex. *)
Definition center_and_scale (vs : list Vec3) : outcome :=
  match getTightBounds vs with
  | None => Flattened vs
  | Some (b0, b1) =>
    let dims := (b1 - b0)%V in
    let max_dim :=
      Rmax (LVector3.x dims) (Rmax (LVector3.y dims) (LVector3.z dims)) in
    if Req_dec_T max_dim 0 then ZeroDivisionError
    else
      let scale := 10 / max_dim in
      let center := ((b0 + b1) / 2)%V in
      let pos := (- center * scale)%V in
      Flattened (List.map (fun v => (v * scale + pos)%V) vs)
  end.

End LoadAsset.

(** ** src/cutting.py *)

Module Cutting.

(** The quads of [generate_cylinder_mesh], in the order the two loops
    append them.  [mesh_res] is a natural number here: a negative value
    makes [np.linspace] fail before the loops are reached. *)
Definition faces (mesh_res : nat) : list (list nat) :=
  flat_map
    (fun r =>
       List.map
         (fun c =>
            let p1 := (r * mesh_res + c)%nat in
            let p2 := (r * mesh_res + (c + 1))%nat in
            let p3 := ((r + 1) * mesh_res + (c + 1))%nat in
            let p4 := ((r + 1) * mesh_res + c)%nat in
            [p1; p2; p3; p4])
         (seq 0 (mesh_res - 1)))
    (seq 0 (mesh_res - 1)).

(** [np.linspace start stop num]: [num] evenly spaced samples, both ends
    included. *)
Definition linspace (start stop : R) (num : nat) : list R :=
  List.map (fun k => start + INR k * ((stop - start) / INR (num - 1)))
           (seq 0 num).

(** The vertices of [generate_cylinder_mesh].  [np.meshgrid] of the
    heights and the angles gives two [mesh_res] by [mesh_res] grids whose
    row [r] holds angle [r] against every height; flattened row by row
    and stacked, vertex [r * mesh_res + c] is the point at angle [r] and
    height [c]. *)
Definition points (radius height : R) (mesh_res : nat) : list Vec3 :=
  let z_grid := linspace 0 height mesh_res in
  let theta_grid := linspace 0 (2 * PI) mesh_res in
  flat_map
    (fun theta =>
       List.map (fun z => LVector3 (radius * cos theta) (radius * sin theta) z)
                z_grid)
    theta_grid.

(** The normal of one vertex: the vertex with its height zeroed, divided
    by its norm, where a zero norm is replaced by 1. *)
Definition normal_of (point : Vec3) : Vec3 :=
  let n := LVector3 (LVector3.x point) (LVector3.y point) 0 in
  let norm := LVector3.length n in
  let norm := if Req_dec_T norm 0 then 1 else norm in
  (n / norm)%V.

Definition generate_cylinder_mesh (radius height : R) (mesh_res : nat)
  : list Vec3 * list Vec3 * list (list nat) :=
  let pts := points radius height mesh_res in
  (pts, List.map normal_of pts, faces mesh_res).

(** The colours of [get_colors_based_on_depth]. *)
Definition skin : nat * nat * nat := (205, 160, 130)%nat.
Definition muscle : nat * nat * nat := (200, 20, 20)%nat.
Definition bone : nat * nat * nat := (240, 240, 240)%nat.

(** The loop of [get_colors_based_on_depth]: [colors] starts as zeros
    and entry [i] is assigned from intensity [i]. *)
Fixpoint colors_loop (intensities : list R) (i : nat)
    (colors : list (nat * nat * nat)) : list (nat * nat * nat) :=
  match intensities with
  | [] => colors
  | val :: rest =>
    let c :=
      if Rltb 0.6 val then bone
      else if Rltb 0.2 val then muscle
      else skin in
    colors_loop rest (S i) (<[i := c]> colors)
  end.

Definition get_colors_based_on_depth (intensities : list R)
  : list (nat * nat * nat) :=
  colors_loop intensities 0
              (replicate (List.length intensities) (0, 0, 0)%nat).

(** The loop of [deform_mesh].  [rest] are the points not yet visited,
    [i] the loop counter; [deformed_points] and [intensities] are
    updated in place.  Indexing [normals] past its end raises
    [IndexError]. *)
Fixpoint deform_loop (normals : list Vec3) (cutter_pos : Vec3)
    (cut_radius depth_factor : R) (rest : list Vec3) (i : nat)
    (deformed_points : list Vec3) (intensities : list R)
  : result (list Vec3 * list R) :=
  match rest with
  | [] => Ok (deformed_points, intensities)
  | point :: rest' =>
    let dist := LVector3.length (point - cutter_pos)%V in
    if Rltb dist cut_radius then
      let intensity := (cut_radius - dist) / cut_radius in
      let intensities' := <[i := intensity]> intensities in
      match normals !! i with
      | None => Err IndexError
      | Some n =>
        let push := (n * (-1) * intensity * depth_factor)%V in
        deform_loop normals cutter_pos cut_radius depth_factor rest' (S i)
                    (alter (fun d => (d + push)%V) i deformed_points)
                    intensities'
      end
    else
      deform_loop normals cutter_pos cut_radius depth_factor rest' (S i)
                  deformed_points intensities
  end.

Definition deform_mesh (points normals : list Vec3) (cutter_pos : Vec3)
    (cut_radius depth_factor : R) : result (list Vec3 * list R) :=
  deform_loop normals cutter_pos cut_radius depth_factor points 0
              points (replicate (List.length points) 0).

End Cutting.

(** ** hex_to_rgba (src/liver.py and src/nose.py, the same function) *)

Module HexColor.

(** A Python string is modelled as the list of its characters, each a
    code point below 256. *)
Definition code (c : ascii) : Z := Z.of_N (N_of_ascii c).

(** The characters [str.strip()] removes: Python's whitespace among the
    code points below 256. *)
Definition is_space (c : ascii) : bool :=
  let n := code c in
  ((9 <=? n) && (n <=? 13) || (28 <=? n) && (n <=? 32)
   || (n =? 133) || (n =? 160))%Z.

(** The characters [int()] skips around a number.  It keeps a code
    point below 127 as it is and then skips C whitespace only, so the
    separators 28 to 31 are not skipped, while the two spaces above 127
    are first turned into blanks. *)
Definition is_int_space (c : ascii) : bool :=
  let n := code c in
  ((9 <=? n) && (n <=? 13) || (n =? 32) || (n =? 133) || (n =? 160))%Z.

Definition is_hash (c : ascii) : bool := (code c =? 35)%Z.

Fixpoint lstrip (p : ascii -> bool) (s : list ascii) : list ascii :=
  match s with
  | [] => []
  | c :: s' => if p c then lstrip p s' else s
  end.

Definition rstrip (p : ascii -> bool) (s : list ascii) : list ascii :=
  rev (lstrip p (rev s)).

Definition strip (s : list ascii) : list ascii :=
  rstrip is_space (lstrip is_space s).

(** The value of a character as a digit in base 16, if it is one. *)
Definition digit_value (c : ascii) : option Z :=
  let n := code c in
  if ((48 <=? n) && (n <=? 57))%Z then Some (n - 48)%Z
  else if ((97 <=? n) && (n <=? 102))%Z then Some (n - 87)%Z
  else if ((65 <=? n) && (n <=? 70))%Z then Some (n - 55)%Z
  else None.

Definition is_underscore (c : ascii) : bool := (code c =? 95)%Z.

(** The digits of [int(s, 16)]: digits with single underscores between
    them.  [prev] tells whether the previous character was an
    underscore, [acc] is the value so far and [n] the number of digits
    read.  The scan stops at the first character that is neither; it
    fails on two underscores in a row and on an underscore at the end. *)
Fixpoint scan_digits (s : list ascii) (prev : bool) (acc : Z) (n : nat)
  : option (Z * nat * list ascii) :=
  match s with
  | [] => if prev then None else Some (acc, n, [])
  | c :: s' =>
    if is_underscore c then
      if prev then None else scan_digits s' true acc n
    else
      match digit_value c with
      | Some d => scan_digits s' false (acc * 16 + d)%Z (S n)
      | None => if prev then None else Some (acc, n, s)
      end
  end.

(** [int(s, 16)]: optional whitespace, an optional sign, an optional
    prefix [0x] or [0X] (after which one underscore may follow), at
    least one digit, optional whitespace, and nothing else.  [None] is
    Python's [ValueError]. *)
Definition int16 (s : list ascii) : option Z :=
  let s := lstrip is_int_space s in
  let '(negative, s) :=
    match s with
    | c :: s' =>
      if (code c =? 43)%Z then (false, s')
      else if (code c =? 45)%Z then (true, s')
      else (false, s)
    | [] => (false, s)
    end in
  let s :=
    match s with
    | c0 :: c1 :: s' =>
      if ((code c0 =? 48) && ((code c1 =? 120) || (code c1 =? 88)))%Z then
        match s' with
        | c2 :: s'' => if is_underscore c2 then s'' else s'
        | [] => s'
        end
      else s
    | _ => s
    end in
  match s with
  | c :: _ => if is_underscore c then None else
    match scan_digits s false 0 0 with
    | Some (v, n, rest) =>
      match n, lstrip is_int_space rest with
      | S _, [] => Some (if negative then (- v)%Z else v)
      | _, _ => None
      end
    | None => None
    end
  | [] => None
  end.

(** Python's slice [s[i:j]]. *)
Definition slice (i j : nat) (s : list ascii) : list ascii :=
  take (j - i) (drop i s).

Inductive outcome : Type :=
| Rgba (r g b a : R)
| ValueError.

Definition hex_to_rgba (hex_str : string) (alpha : R) : outcome :=
  let hex_str := lstrip is_hash (strip (list_ascii_of_string hex_str)) in
  let hex_str :=
    if Nat.eqb (List.length hex_str) 3
    then flat_map (fun c => [c; c]) hex_str
    else hex_str in
  match int16 (slice 0 2 hex_str) with
  | None => ValueError
  | Some r =>
    match int16 (slice 2 4 hex_str) with
    | None => ValueError
    | Some g =>
      match int16 (slice 4 6 hex_str) with
      | None => ValueError
      | Some b => Rgba (IZR r / 255) (IZR g / 255) (IZR b / 255) alpha
      end
    end
  end.

End HexColor.

(** * Specification-level definitions and scenarios *)

(** ** The integration step, in the words of the specification *)

(** One axis of one vertex: the update the specification writes down,
    with [mass] fixed at 1. *)
Definition spec_axis_step
    (springConstant dampingCoefficient dt : R)
    (externalForce currentPosition restPosition velocity : R) : R * R :=
  let mass := 1 in
  let displacement := currentPosition - restPosition in
  let springForce := - springConstant * displacement in
  let dampingForce := - dampingCoefficient * velocity in
  let acceleration := (externalForce + springForce + dampingForce) / mass in
  let velocity' := velocity + acceleration * dt in
  let currentPosition' := currentPosition + velocity' * dt in
  (velocity', currentPosition').

(** One vertex: the three axes, each stepped on its own. *)
Definition spec_vertex_step
    (springConstant dampingCoefficient dt : R)
    (externalForce currentPosition restPosition velocity : Vec3) : Vec3 * Vec3 :=
  let axis (p : Vec3 -> R) :=
    spec_axis_step springConstant dampingCoefficient dt
                   (p externalForce) (p currentPosition) (p restPosition)
                   (p velocity) in
  (LVector3 (fst (axis LVector3.x)) (fst (axis LVector3.y)) (fst (axis LVector3.z)),
   LVector3 (snd (axis LVector3.x)) (snd (axis LVector3.y)) (snd (axis LVector3.z))).

(** ** The interaction radius, in the words of the specification *)

(** The interaction radius in the words of the specification. *)
Definition spec_interaction_radius (hard volumetric : bool) : R :=
  (if hard then 2 else 4) + (if volumetric then 1.5 else 0).

(** ** One pass of the loop body *)

(** What the body of the liver loop computes for one vertex: the new
    velocity and the new position. *)
Definition liver_vertex_update (s : Liver.State) (dt : R)
    (hit_p hit_n : option Vec3) (cur orig vel : Vec3) : Vec3 * Vec3 :=
  Liver.integrate s dt (Liver.ext_force s hit_p hit_n orig) cur orig vel.

(** The same for vertex [i] of the nose loop. *)
Definition nose_vertex_update (s : Nose.State) (dt : R)
    (hit_p : option Vec3) (i : nat) (cur orig vel : Vec3) : Vec3 * Vec3 :=
  Nose.integrate s dt (fst (Nose.ext_force s hit_p i orig false)) cur orig vel.

(** The test that guards the force calculation: the interaction is
    active, the probe is present and the vertex is strictly inside the
    interaction radius. *)
Definition nose_touched (s : Nose.State) (hit_p : option Vec3) (orig : Vec3)
  : bool :=
  Nose.active_interaction s
  && match hit_p with
     | Some p => Rltb (LVector3.length (orig - p)%V) (Nose.interaction_radius s)
     | None => false
     end.

(** ** Loaded meshes *)

(** The live vertex positions, as the renderer sees them. *)
Definition positions (vdata : option GeomVertexData) : list Vec3 :=
  match vdata with
  | Some vd => vertex vd
  | None => []
  end.

(** A mesh is loaded when the vertex data is present and the rest and
    velocity lists have one entry per row. *)
Definition liver_loaded (s : Liver.State) (vd : GeomVertexData) : Prop :=
  Liver.vdata s = Some vd
  /\ List.length (vertex vd) = List.length (Liver.original_verts s)
  /\ List.length (Liver.vertex_velocities s) = List.length (Liver.original_verts s).

Definition nose_loaded (s : Nose.State) (vd : GeomVertexData) : Prop :=
  Nose.vdata s = Some vd
  /\ List.length (vertex vd) = List.length (Nose.original_verts s)
  /\ List.length (Nose.vertex_velocities s) = List.length (Nose.original_verts s).

(** [load_asset] and the placeholder loaders install the new model and
    then call [extract_vertex_data]. *)
Definition liver_install (s : Liver.State) (m : NodePath) : Liver.State :=
  Liver.mkState (Some m) (Liver.vdata s) (Liver.original_verts s)
                (Liver.vertex_velocities s) (Liver.is_squeezing s)
                (Liver.squeeze_mode s) (Liver.vr_mode_active s)
                (Liver.user_force s) (Liver.recovery_speed s).

Definition nose_install (s : Nose.State) (m : NodePath) : Nose.State :=
  Nose.mkState (Some m) (Nose.vdata s) (Nose.original_verts s)
               (Nose.original_normals s) (Nose.vertex_velocities s)
               (Nose.camera_locked s) (Nose.is_squeezing s)
               (Nose.squeeze_mode s) (Nose.vr_mode_active s)
               (Nose.user_force s) (Nose.recovery_speed s)
               (Nose.damping_value s).

(** The normals the nose reading loop collects: those the normal column
    supplies, then (0,0,1) for every vertex left without one. *)
Definition padded_normals (n : nat) (normals : list Vec3) : list Vec3 :=
  take n normals ++ replicate (n - List.length normals) (LVector3 0 0 1).

(** ** Scenarios *)

(** The end-to-end scenario of the specification: two vertices at rest
    at (0,0,0) and (10,0,0), both with normal (0,0,1). *)
Definition two_vertices : GeomVertexData :=
  mkVData [LVector3 0 0 0; LVector3 10 0 0] [LVector3 0 0 1; LVector3 0 0 1].

Definition liver_two : Liver.State :=
  Liver.mkState (Some (mkModel (Some two_vertices))) (Some two_vertices)
                [LVector3 0 0 0; LVector3 10 0 0]
                [LVector3 0 0 0; LVector3 0 0 0]
                true "hard" false 60 8.

Definition nose_two : Nose.State :=
  Nose.mkState (Some (mkModel (Some two_vertices))) (Some two_vertices)
               [LVector3 0 0 0; LVector3 10 0 0]
               [LVector3 0 0 1; LVector3 0 0 1]
               [LVector3 0 0 0; LVector3 0 0 0]
               true true "soft" false 60 2 3.

(** The two-vertex liver with the VR hand switched on. *)
Definition liver_two_vr : Liver.State :=
  Liver.mkState (Some (mkModel (Some two_vertices))) (Some two_vertices)
                [LVector3 0 0 0; LVector3 10 0 0]
                [LVector3 0 0 0; LVector3 0 0 0]
                false "hard" true 60 8.

(** A liver whose two vertices have been pushed away from rest and are
    moving. *)
Definition liver_two_moved : Liver.State :=
  Liver.mkState (Some (mkModel (Some two_vertices)))
                (Some (mkVData [LVector3 0 0 (-1); LVector3 10 1 0]
                               (normal two_vertices)))
                [LVector3 0 0 0; LVector3 10 0 0]
                [LVector3 0 0 (-3); LVector3 0 2 0]
                true "hard" false 60 8.

(** A mesh of two vertices whose normal column holds one normal only. *)
Definition one_normal_short : GeomVertexData :=
  mkVData [LVector3 0 0 0; LVector3 10 0 0] [LVector3 1 0 0].

(** ** Predicates the theorems are stated with *)

(** The liver step carries out the specified update at every vertex:
    spring constant [recovery_speed * 5], damping coefficient 10. *)
Definition liver_step_as_specified (s : Liver.State) (vd : GeomVertexData)
    (dt : R) (hit_p hit_n : option Vec3) : Prop :=
  exists s' : Liver.State,
    Liver.deform_mesh s dt hit_p hit_n = Ok (s', PyNone)
    /\ forall i currentPosition restPosition velocity,
         vertex vd !! i = Some currentPosition ->
         Liver.original_verts s !! i = Some restPosition ->
         Liver.vertex_velocities s !! i = Some velocity ->
         let externalForce := Liver.ext_force s hit_p hit_n restPosition in
         let step :=
           spec_vertex_step (Liver.recovery_speed s * 5) 10 dt
                            externalForce currentPosition restPosition velocity in
         Liver.vertex_velocities s' !! i = Some (fst step)
         /\ positions (Liver.vdata s') !! i = Some (snd step).

(** The nose step carries out the specified update at every vertex:
    spring constant [recovery_speed * 5], damping coefficient
    [damping_value]. *)
Definition nose_step_as_specified (s : Nose.State) (vd : GeomVertexData)
    (dt : R) (hit_p hit_n : option Vec3) : Prop :=
  exists (s' : Nose.State) (flag : bool),
    Nose.deform_mesh s dt hit_p hit_n = Ok (s', PyBool flag)
    /\ forall i currentPosition restPosition velocity,
         vertex vd !! i = Some currentPosition ->
         Nose.original_verts s !! i = Some restPosition ->
         Nose.vertex_velocities s !! i = Some velocity ->
         let externalForce := fst (Nose.ext_force s hit_p i restPosition false) in
         let step :=
           spec_vertex_step (Nose.recovery_speed s * 5) (Nose.damping_value s) dt
                            externalForce currentPosition restPosition velocity in
         Nose.vertex_velocities s' !! i = Some (fst step)
         /\ positions (Nose.vdata s') !! i = Some (snd step).

(** The vertex at [rest] is out of reach: the interaction is not active,
    or the probe position is absent, or the distance to the probe is at
    least [radius]. *)
Definition out_of_reach (active : bool) (hit_p : option Vec3) (radius : R)
    (rest : Vec3) : Prop :=
  active = false
  \/ hit_p = None
  \/ exists p, hit_p = Some p /\ radius <= LVector3.length (rest - p)%V.

(** Some vertex is strictly inside the interaction radius of a present
    probe under an active interaction. *)
Definition some_vertex_in_reach (active : bool) (hit_p : option Vec3)
    (radius : R) (original_verts : list Vec3) : Prop :=
  active = true
  /\ exists p, hit_p = Some p
     /\ exists (i : nat) (rest : Vec3),
          original_verts !! i = Some rest
          /\ LVector3.length (rest - p)%V < radius.

(** The rest pose holds at every vertex: each live position is the rest
    position and each velocity is the zero vector. *)
Definition at_rest (original_verts live velocities : list Vec3) : Prop :=
  forall (i : nat) (rest : Vec3),
    original_verts !! i = Some rest ->
    live !! i = Some rest /\ velocities !! i = Some (LVector3 0 0 0).

(** ** Runs of frames *)

(** [deform_mesh] called once per frame, each frame with its own time
    step, probe position and contact normal; the run stops at the first
    exception. *)
Fixpoint liver_frames (s : Liver.State)
    (frames : list (R * option Vec3 * option Vec3)) : result Liver.State :=
  match frames with
  | [] => Ok s
  | (dt, hit_p, hit_n) :: frames' =>
    match Liver.deform_mesh s dt hit_p hit_n with
    | Err e => Err e
    | Ok (s', _) => liver_frames s' frames'
    end
  end.

Fixpoint nose_frames (s : Nose.State)
    (frames : list (R * option Vec3 * option Vec3)) : result Nose.State :=
  match frames with
  | [] => Ok s
  | (dt, hit_p, hit_n) :: frames' =>
    match Nose.deform_mesh s dt hit_p hit_n with
    | Err e => Err e
    | Ok (s', _) => nose_frames s' frames'
    end
  end.

(** ** Applications around a physics state *)

(** An application as [__init__] leaves its own fields, around the
    physics state [s]: the hand at its start, no key pressed, no
    rotation, the model unrotated and the sound loaded but silent. *)
Definition liver_app (s : Liver.State) : LiverApp.t :=
  LiverApp.mkApp s VRHandEmulator.init ∅ false 0 0 0 0 (Some false).

Definition nose_app (s : Nose.State) : NoseApp.t :=
  NoseApp.mkApp s VRHandEmulator.init ∅ false 0 0 0 0 (Some false).

(** A conversion into model space for an unrotated model placed at the
    origin: the identity. *)
Definition same_space (h p : R) (v : Vec3) : Vec3 := v.

(** ** Boxes *)

(** [v] lies in the axis-aligned box from [lo] to [hi]. *)
Definition in_box (lo hi v : Vec3) : Prop :=
  LVector3.x lo <= LVector3.x v <= LVector3.x hi
  /\ LVector3.y lo <= LVector3.y v <= LVector3.y hi
  /\ LVector3.z lo <= LVector3.z v <= LVector3.z hi.

(** The largest of the three extents of the box from [lo] to [hi], as
    [load_asset] computes it. *)
Definition max_dim (lo hi : Vec3) : R :=
  Rmax (LVector3.x (hi - lo)%V)
       (Rmax (LVector3.y (hi - lo)%V) (LVector3.z (hi - lo)%V)).

(** ** Colours of the cut *)

(** The colour that the loop of [get_colors_based_on_depth] assigns to
    one intensity. *)
Definition color_of_intensity (val : R) : nat * nat * nat :=
  if Rltb 0.6 val then Cutting.bone
  else if Rltb 0.2 val then Cutting.muscle
  else Cutting.skin.

(** The colour of a vertex at distance [dist] from the cutter, for a cut
    of radius [cut_radius]: three bands by distance. *)
Definition color_of_distance (cut_radius dist : R) : nat * nat * nat :=
  if Rltb dist (0.4 * cut_radius) then Cutting.bone
  else if Rltb dist (0.8 * cut_radius) then Cutting.muscle
  else Cutting.skin.



(** ** Hexadecimal colours *)

Definition is_hex_digit (c : ascii) : bool :=
  match HexColor.digit_value c with
  | Some _ => true
  | None => false
  end.

(** The value of the two-digit number with digits [c0] and [c1]. *)
Definition two_digits (c0 c1 : ascii) : Z :=
  match HexColor.digit_value c0, HexColor.digit_value c1 with
  | Some d0, Some d1 => (d0 * 16 + d1)%Z
  | _, _ => 0%Z
  end.

(** [hex_str] with everything removed that [hex_to_rgba] removes before
    it looks at the digits. *)
Definition cleaned (hex_str : string) : list ascii :=
  HexColor.lstrip HexColor.is_hash
                  (HexColor.strip (list_ascii_of_string hex_str)).

(** * Properties *)

(** ** Vectors *)

Lemma vec_eq (a b : Vec3) :
  LVector3.x a = LVector3.x b -> LVector3.y a = LVector3.y b ->
  LVector3.z a = LVector3.z b -> a = b.
Proof. destruct a, b; simpl; intros; subst; reflexivity. Qed.

Lemma length_squared_nonneg (a : Vec3) : 0 <= LVector3.length_squared a.
Proof. unfold LVector3.length_squared. nra. Qed.

Lemma length_nonneg (a : Vec3) : 0 <= LVector3.length a.
Proof. apply sqrt_pos. Qed.

Lemma length_sub_self (a : Vec3) : LVector3.length (a - a)%V = 0.
Proof.
  unfold LVector3.length, LVector3.length_squared; simpl.
  replace (_ + _ + _) with 0 by ring. apply sqrt_0.
Qed.

Lemma length_zero_iff (a : Vec3) :
  LVector3.length a = 0 <-> LVector3.length_squared a = 0.
Proof.
  unfold LVector3.length. split; intros H.
  - apply sqrt_eq_0; [apply length_squared_nonneg | exact H].
  - rewrite H. apply sqrt_0.
Qed.

Lemma normalized_zero_length (a : Vec3) :
  LVector3.length a = 0 -> LVector3.normalized a = LVector3.zero.
Proof.
  intros H. apply length_zero_iff in H. unfold LVector3.normalized.
  destruct (Req_dec_T _ 0); [reflexivity | contradiction].
Qed.

Lemma normalized_pos_length (a : Vec3) :
  0 < LVector3.length a ->
  LVector3.normalized a = (a / LVector3.length a)%V.
Proof.
  intros H. unfold LVector3.normalized.
  destruct (Req_dec_T _ 0) as [E | _]; [| reflexivity].
  apply length_zero_iff in E. lra.
Qed.

(** A normalized vector of positive length is a unit vector. *)
Lemma normalized_unit (a : Vec3) :
  0 < LVector3.length a -> LVector3.length (LVector3.normalized a) = 1.
Proof.
  intros H. rewrite normalized_pos_length by exact H.
  unfold LVector3.length in *.
  pose proof (length_squared_nonneg a) as Hq.
  pose proof (sqrt_sqrt _ Hq) as Hs.
  remember (sqrt (LVector3.length_squared a)) as s eqn:Es.
  assert (E : LVector3.length_squared (a / s)%V = 1).
  { unfold LVector3.length_squared, LVector3.div in *; simpl.
    transitivity
      ((LVector3.x a * LVector3.x a + LVector3.y a * LVector3.y a
        + LVector3.z a * LVector3.z a) / (s * s)).
    - field. lra.
    - rewrite Hs. field. rewrite <- Hs. nra. }
  rewrite E. apply sqrt_1.
Qed.

Lemma Rltb_true (a b : R) : Rltb a b = true <-> a < b.
Proof. unfold Rltb. destruct (Rlt_dec a b); split; intros; try done. Qed.

Lemma Rltb_false (a b : R) : Rltb a b = false <-> b <= a.
Proof.
  unfold Rltb. destruct (Rlt_dec a b); split; intros; try done; lra.
Qed.

(** ** The integration step against the specification *)

Lemma liver_integrate_spec (s : Liver.State) (dt : R) (f cur orig vel : Vec3) :
  Liver.integrate s dt f cur orig vel
  = spec_vertex_step (Liver.recovery_speed s * 5) 10 dt f cur orig vel.
Proof.
  unfold Liver.integrate, spec_vertex_step, spec_axis_step, Liver.mass,
    Liver.spring_k, Liver.damping.
  f_equal; apply vec_eq; simpl; field.
Qed.

Lemma nose_integrate_spec (s : Nose.State) (dt : R) (f cur orig vel : Vec3) :
  Nose.integrate s dt f cur orig vel
  = spec_vertex_step (Nose.recovery_speed s * 5) (Nose.damping_value s)
                     dt f cur orig vel.
Proof.
  unfold Nose.integrate, spec_vertex_step, spec_axis_step, Nose.mass,
    Nose.spring_k, Nose.damping.
  f_equal; apply vec_eq; simpl; field.
Qed.

(** ** The vertex loop of the liver simulator *)

Section LiverLoop.
Variable s : Liver.State.
Variable dt : R.
Variables hit_p hit_n : option Vec3.

Let body := liver_vertex_update s dt hit_p hit_n.

Lemma liver_deform_loop_spec (rows : list Vec3) :
  forall (i : nat) (written vels : list Vec3),
    (i + List.length rows <= List.length (Liver.original_verts s))%nat ->
    (i + List.length rows <= List.length vels)%nat ->
    exists rows' vels' : list Vec3,
      Liver.deform_loop s dt hit_p hit_n rows i written vels = Ok (rows', vels')
      /\ List.length rows' = (List.length written + List.length rows)%nat
      /\ List.length vels' = List.length vels
      /\ (forall j, (j < List.length written)%nat -> rows' !! j = written !! j)
      /\ (forall j, (j < i)%nat -> vels' !! j = vels !! j)
      /\ (forall j, (i + List.length rows <= j)%nat -> vels' !! j = vels !! j)
      /\ (forall j cur orig vel,
            rows !! j = Some cur ->
            Liver.original_verts s !! (i + j)%nat = Some orig ->
            vels !! (i + j)%nat = Some vel ->
            vels' !! (i + j)%nat = Some (fst (body cur orig vel))
            /\ rows' !! (List.length written + j)%nat
               = Some (snd (body cur orig vel))).
Proof.
  induction rows as [| cur_pos rows' IH]; intros i written vels Ho Hv.
  - exists written, vels. simpl.
    repeat split; try done; try lia;
      intros j cur orig vel Hj; rewrite lookup_nil in Hj; discriminate.
  - simpl in Ho, Hv. cbn [Liver.deform_loop].
    destruct (lookup_lt_is_Some_2 (Liver.original_verts s) i) as [orig_pos Eo];
      [lia |].
    destruct (lookup_lt_is_Some_2 vels i) as [velocity Ev]; [lia |].
    rewrite Eo, Ev.
    destruct (Liver.integrate s dt (Liver.ext_force s hit_p hit_n orig_pos)
                cur_pos orig_pos velocity) as [new_vel new_pos] eqn:Eb.
    destruct (IH (S i) (written ++ [new_pos]) (<[i := new_vel]> vels))
      as (rs & vs & Hrun & Hlr & Hlv & Hpre & Hlow & Hhigh & Hat).
    { lia. }
    { rewrite length_insert. lia. }
    exists rs, vs. rewrite Hrun.
    rewrite length_app in Hlr, Hpre. rewrite length_insert in Hlv.
    simpl in Hlr, Hpre.
    split; [reflexivity |]. split; [simpl; lia |]. split; [exact Hlv |].
    split; [| split; [| split]].
    + intros j Hj. rewrite Hpre by lia. apply lookup_app_l; exact Hj.
    + intros j Hj. rewrite Hlow by lia.
      apply list_lookup_insert_ne; lia.
    + intros j Hj. simpl in Hj. rewrite Hhigh by lia.
      apply list_lookup_insert_ne; lia.
    + intros [| j] cur orig vel Hc Hor Hve.
      * simpl in Hc. injection Hc as <-.
        rewrite Nat.add_0_r in *.
        rewrite Eo in Hor; injection Hor as <-.
        rewrite Ev in Hve; injection Hve as <-.
        unfold body, liver_vertex_update. rewrite Eb. simpl. split.
        -- rewrite Hlow by lia. apply list_lookup_insert_eq.
           apply lookup_lt_Some in Ev; exact Ev.
        -- rewrite Hpre by lia.
           rewrite lookup_app_r by lia.
           replace (_ - _)%nat with 0%nat by lia. reflexivity.
      * simpl in Hc.
        replace (i + S j)%nat with (S i + j)%nat in * by lia.
        destruct (Hat j cur orig vel Hc Hor) as [Hv' Hr'].
        { rewrite list_lookup_insert_ne by lia. exact Hve. }
        split; [exact Hv' |].
        rewrite length_app in Hr'. simpl in Hr'.
        replace (List.length written + S j)%nat
          with (List.length written + 1 + j)%nat by lia.
        exact Hr'.
Qed.
End LiverLoop.

(** ** The vertex loop of the nose simulator *)

Lemma nose_ext_force_flag (s : Nose.State) hit_p i orig (c : bool) :
  snd (Nose.ext_force s hit_p i orig c) = c || nose_touched s hit_p orig.
Proof.
  unfold Nose.ext_force, nose_touched.
  destruct (Nose.active_interaction s), hit_p as [p |]; simpl;
    try (destruct c; reflexivity).
  destruct (Rltb _ _); simpl; destruct c; reflexivity.
Qed.

Lemma nose_ext_force_indep (s : Nose.State) hit_p i orig (c c' : bool) :
  fst (Nose.ext_force s hit_p i orig c) = fst (Nose.ext_force s hit_p i orig c').
Proof.
  unfold Nose.ext_force.
  destruct (Nose.active_interaction s), hit_p as [p |]; simpl; try reflexivity.
  destruct (Rltb _ _); reflexivity.
Qed.

Section NoseLoop.
Variable s : Nose.State.
Variable dt : R.
Variable hit_p : option Vec3.

Let body := nose_vertex_update s dt hit_p.

Lemma nose_deform_loop_spec (rows : list Vec3) :
  forall (i : nat) (written vels : list Vec3) (any_contact : bool),
    (i + List.length rows <= List.length (Nose.original_verts s))%nat ->
    (i + List.length rows <= List.length vels)%nat ->
    exists (rows' vels' : list Vec3) (flag : bool),
      Nose.deform_loop s dt hit_p rows i written vels any_contact
      = Ok (rows', vels', flag)
      /\ List.length rows' = (List.length written + List.length rows)%nat
      /\ List.length vels' = List.length vels
      /\ (forall j, (j < List.length written)%nat -> rows' !! j = written !! j)
      /\ (forall j, (j < i)%nat -> vels' !! j = vels !! j)
      /\ (forall j, (i + List.length rows <= j)%nat -> vels' !! j = vels !! j)
      /\ (forall j cur orig vel,
            rows !! j = Some cur ->
            Nose.original_verts s !! (i + j)%nat = Some orig ->
            vels !! (i + j)%nat = Some vel ->
            vels' !! (i + j)%nat = Some (fst (body (i + j) cur orig vel))
            /\ rows' !! (List.length written + j)%nat
               = Some (snd (body (i + j) cur orig vel)))
      /\ (flag = true <->
          any_contact = true
          \/ exists j orig,
               (j < List.length rows)%nat
               /\ Nose.original_verts s !! (i + j)%nat = Some orig
               /\ nose_touched s hit_p orig = true).
Proof.
  induction rows as [| cur_pos rows' IH]; intros i written vels c Ho Hv.
  - exists written, vels, c. simpl.
    repeat split; try done; try lia;
      try (intros j cur orig vel Hj; rewrite lookup_nil in Hj; discriminate).
    + intros H; left; exact H.
    + intros [H | (j & orig & Hj & _)]; [exact H | lia].
  - simpl in Ho, Hv. cbn [Nose.deform_loop].
    destruct (lookup_lt_is_Some_2 (Nose.original_verts s) i) as [orig_pos Eo];
      [lia |].
    destruct (lookup_lt_is_Some_2 vels i) as [velocity Ev]; [lia |].
    rewrite Eo, Ev.
    pose proof (nose_ext_force_flag s hit_p i orig_pos c) as Hflag.
    pose proof (nose_ext_force_indep s hit_p i orig_pos c false) as Hforce.
    destruct (Nose.ext_force s hit_p i orig_pos c) as [ext c'].
    simpl in Hflag, Hforce.
    destruct (Nose.integrate s dt ext cur_pos orig_pos velocity)
      as [new_vel new_pos] eqn:Eb.
    destruct (IH (S i) (written ++ [new_pos]) (<[i := new_vel]> vels) c')
      as (rs & vs & fl & Hrun & Hlr & Hlv & Hpre & Hlow & Hhigh & Hat & Hfl).
    { lia. }
    { rewrite length_insert. lia. }
    exists rs, vs, fl. rewrite Hrun.
    rewrite length_app in Hlr, Hpre. rewrite length_insert in Hlv.
    simpl in Hlr, Hpre.
    split; [reflexivity |]. split; [simpl; lia |]. split; [exact Hlv |].
    split; [| split; [| split; [| split]]].
    + intros j Hj. rewrite Hpre by lia. apply lookup_app_l; exact Hj.
    + intros j Hj. rewrite Hlow by lia.
      apply list_lookup_insert_ne; lia.
    + intros j Hj. simpl in Hj. rewrite Hhigh by lia.
      apply list_lookup_insert_ne; lia.
    + intros [| j] cur orig vel Hc Hor Hve.
      * simpl in Hc. injection Hc as <-.
        rewrite Nat.add_0_r in *.
        rewrite Eo in Hor; injection Hor as <-.
        rewrite Ev in Hve; injection Hve as <-.
        unfold body, nose_vertex_update. rewrite <- Hforce, Eb. simpl. split.
        -- rewrite Hlow by lia. apply list_lookup_insert_eq.
           apply lookup_lt_Some in Ev; exact Ev.
        -- rewrite Hpre by lia.
           rewrite lookup_app_r by lia.
           replace (_ - _)%nat with 0%nat by lia. reflexivity.
      * simpl in Hc.
        replace (i + S j)%nat with (S i + j)%nat in * by lia.
        destruct (Hat j cur orig vel Hc Hor) as [Hv' Hr'].
        { rewrite list_lookup_insert_ne by lia. exact Hve. }
        split; [exact Hv' |].
        rewrite length_app in Hr'. simpl in Hr'.
        replace (List.length written + S j)%nat
          with (List.length written + 1 + j)%nat by lia.
        exact Hr'.
    + rewrite Hfl, Hflag. rewrite orb_true_iff. split.
      * intros [[H | H] | (j & orig & Hj & Hor & Ht)].
        -- left; exact H.
        -- right. exists 0%nat, orig_pos. rewrite Nat.add_0_r.
           simpl. split; [lia |]. split; [exact Eo | exact H].
        -- right. exists (S j), orig.
           replace (i + S j)%nat with (S i + j)%nat by lia.
           simpl. split; [lia |]. split; [exact Hor | exact Ht].
      * intros [H | ([| j] & orig & Hj & Hor & Ht)].
        -- left; left; exact H.
        -- rewrite Nat.add_0_r in Hor. rewrite Eo in Hor.
           injection Hor as <-. left; right; exact Ht.
        -- right. exists j, orig.
           replace (S i + j)%nat with (i + S j)%nat by lia.
           simpl in Hj. split; [lia |]. split; [exact Hor | exact Ht].
Qed.
End NoseLoop.

(** ** The step on a loaded mesh *)

Lemma liver_two_loaded : liver_loaded liver_two two_vertices.
Proof. repeat split. Qed.

Lemma nose_two_loaded : nose_loaded nose_two two_vertices.
Proof. repeat split. Qed.

Lemma liver_deform_mesh_spec (s : Liver.State) (vd : GeomVertexData)
    (dt : R) (hit_p hit_n : option Vec3) :
  liver_loaded s vd ->
  exists s' : Liver.State,
    Liver.deform_mesh s dt hit_p hit_n = Ok (s', PyNone)
    /\ Liver.original_verts s' = Liver.original_verts s
    /\ List.length (positions (Liver.vdata s')) = List.length (vertex vd)
    /\ List.length (Liver.vertex_velocities s')
       = List.length (Liver.vertex_velocities s)
    /\ forall i cur rest vel,
         vertex vd !! i = Some cur ->
         Liver.original_verts s !! i = Some rest ->
         Liver.vertex_velocities s !! i = Some vel ->
         let step :=
           Liver.integrate s dt (Liver.ext_force s hit_p hit_n rest) cur rest vel in
         Liver.vertex_velocities s' !! i = Some (fst step)
         /\ positions (Liver.vdata s') !! i = Some (snd step).
Proof.
  intros (Hvd & Hlen & Hvel).
  destruct (liver_deform_loop_spec s dt hit_p hit_n (vertex vd) 0 []
              (Liver.vertex_velocities s))
    as (rs & vs & Hrun & Hlr & Hlv & _ & _ & _ & Hat); simpl; try lia.
  unfold Liver.deform_mesh. rewrite Hvd, Hrun.
  eexists. split; [reflexivity |]. simpl.
  split; [reflexivity |]. split; [exact Hlr |]. split; [exact Hlv |].
  intros i cur rest vel Hc Hr Hv. exact (Hat i cur rest vel Hc Hr Hv).
Qed.

Lemma nose_deform_mesh_spec (s : Nose.State) (vd : GeomVertexData)
    (dt : R) (hit_p hit_n : option Vec3) :
  nose_loaded s vd ->
  exists (s' : Nose.State) (flag : bool),
    Nose.deform_mesh s dt hit_p hit_n = Ok (s', PyBool flag)
    /\ Nose.original_verts s' = Nose.original_verts s
    /\ List.length (positions (Nose.vdata s')) = List.length (vertex vd)
    /\ List.length (Nose.vertex_velocities s')
       = List.length (Nose.vertex_velocities s)
    /\ (forall i cur rest vel,
         vertex vd !! i = Some cur ->
         Nose.original_verts s !! i = Some rest ->
         Nose.vertex_velocities s !! i = Some vel ->
         let step :=
           Nose.integrate s dt (fst (Nose.ext_force s hit_p i rest false))
                          cur rest vel in
         Nose.vertex_velocities s' !! i = Some (fst step)
         /\ positions (Nose.vdata s') !! i = Some (snd step))
    /\ (flag = true <->
        exists i rest,
          Nose.original_verts s !! i = Some rest
          /\ nose_touched s hit_p rest = true).
Proof.
  intros (Hvd & Hlen & Hvel).
  destruct (nose_deform_loop_spec s dt hit_p (vertex vd) 0 []
              (Nose.vertex_velocities s) false)
    as (rs & vs & fl & Hrun & Hlr & Hlv & _ & _ & _ & Hat & Hfl);
    simpl; try lia.
  unfold Nose.deform_mesh. rewrite Hvd, Hrun.
  eexists _, fl. split; [reflexivity |]. simpl.
  split; [reflexivity |]. split; [exact Hlr |]. split; [exact Hlv |].
  split.
  - intros i cur rest vel Hc Hr Hv. exact (Hat i cur rest vel Hc Hr Hv).
  - rewrite Hfl. split.
    + intros [H | (j & orig & _ & Hor & Ht)]; [discriminate |].
      exists j, orig. split; [exact Hor | exact Ht].
    + intros (i & rest & Hor & Ht). right. exists i, rest.
      split; [| split; [exact Hor | exact Ht]].
      apply lookup_lt_Some in Hor. lia.
Qed.

(** ** C1: the integration step *)

(** C1.  On a loaded mesh, one call of [deform_mesh] (liver and nose
    alike) returns, and for every vertex [i] the new velocity and the new
    position are those of the specified update: per axis,
    displacement = current - rest, springForce = -(recovery_speed * 5) *
    displacement, dampingForce = -damping * velocity, acceleration =
    (externalForce + springForce + dampingForce) / 1, velocity +=
    acceleration * dt, position += velocity * dt with the updated
    velocity.  The update of vertex [i] reads the state of vertex [i]
    only. *)
Theorem C1_integration_step
    (sl : Liver.State) (sn : Nose.State) (vdl vdn : GeomVertexData)
    (dt : R) (hit_p hit_n : option Vec3) :
  liver_loaded sl vdl ->
  nose_loaded sn vdn ->
  liver_step_as_specified sl vdl dt hit_p hit_n
  /\ nose_step_as_specified sn vdn dt hit_p hit_n.
Proof.
  intros Hl Hn. split.
  - destruct (liver_deform_mesh_spec sl vdl dt hit_p hit_n Hl)
      as (s' & Hrun & _ & _ & _ & Hat).
    exists s'. split; [exact Hrun |].
    intros i cur rest vel Hc Hr Hv. cbv zeta.
    rewrite <- liver_integrate_spec. exact (Hat i cur rest vel Hc Hr Hv).
  - destruct (nose_deform_mesh_spec sn vdn dt hit_p hit_n Hn)
      as (s' & flag & Hrun & _ & _ & _ & Hat & _).
    exists s', flag. split; [exact Hrun |].
    intros i cur rest vel Hc Hr Hv. cbv zeta.
    rewrite <- nose_integrate_spec. exact (Hat i cur rest vel Hc Hr Hv).
Qed.

Lemma C1_integration_step_witness :
  liver_step_as_specified liver_two two_vertices (1/100)
                          (Some (LVector3 0 0 0)) (Some (LVector3 0 0 1))
  /\ nose_step_as_specified nose_two two_vertices (1/100)
                            (Some (LVector3 0 0 0)) (Some (LVector3 0 0 1)).
Proof.
  apply (C1_integration_step liver_two nose_two two_vertices two_vertices);
    repeat split; reflexivity.
Defined.

(** ** The external force *)

Ltac force_cases :=
  repeat match goal with
         | H : _ = true |- _ => rewrite H
         | H : _ = false |- _ => rewrite H
         | H : _ < _ |- _ => apply Rltb_true in H
         | H : _ <= _ |- _ => apply Rltb_false in H
         end;
  cbn [orb andb].

(** Inside the radius, mouse picking: the contact normal, negated. *)
Lemma liver_ext_force_pick (s : Liver.State) (p rest : Vec3)
    (hit_n : option Vec3) :
  Liver.vr_mode_active s = false ->
  Liver.is_squeezing s = true ->
  LVector3.length (rest - p)%V < Liver.interaction_radius s ->
  Liver.ext_force s (Some p) hit_n rest
  = match hit_n with
    | Some n =>
      (n * (-1) * (Liver.user_force s * 1.2)
       * (1 - LVector3.length (rest - p)%V / Liver.interaction_radius s) ^ 3)%V
    | None => LVector3 0 0 0
    end.
Proof.
  intros Hvr Hsq Hd. unfold Liver.ext_force, Liver.active_interaction.
  force_cases. reflexivity.
Qed.

(** Inside the radius, VR hand: away from the probe centre. *)
Lemma liver_ext_force_radial (s : Liver.State) (p rest : Vec3)
    (hit_n : option Vec3) :
  Liver.vr_mode_active s = true ->
  LVector3.length (rest - p)%V < Liver.interaction_radius s ->
  Liver.ext_force s (Some p) hit_n rest
  = (LVector3.normalized (rest - p) * (Liver.user_force s * 1.2)
     * (1 - LVector3.length (rest - p)%V / Liver.interaction_radius s) ^ 3)%V.
Proof.
  intros Hvr Hd. unfold Liver.ext_force, Liver.active_interaction.
  force_cases. reflexivity.
Qed.

(** Inside the radius, nose: along the rest normal, negated, and the
    contact flag is raised. *)
Lemma nose_ext_force_normal (s : Nose.State) (p rest n : Vec3) (i : nat)
    (c : bool) :
  Nose.active_interaction s = true ->
  Nose.original_normals s !! i = Some n ->
  LVector3.length (rest - p)%V < Nose.interaction_radius s ->
  Nose.ext_force s (Some p) i rest c
  = ((- n * (Nose.user_force s * 1.5)
      * exp (- (LVector3.length (rest - p)%V * LVector3.length (rest - p)%V)
             / (2 * (Nose.interaction_radius s / 3)
                * (Nose.interaction_radius s / 3))))%V,
     true).
Proof.
  intros Ha Hn Hd. unfold Nose.ext_force.
  rewrite Hn. force_cases. reflexivity.
Qed.

Lemma liver_ext_force_zero (s : Liver.State) (hit_p hit_n : option Vec3)
    (rest : Vec3) :
  Liver.active_interaction s = false
  \/ hit_p = None
  \/ (exists p, hit_p = Some p
                /\ Liver.interaction_radius s <= LVector3.length (rest - p)%V) ->
  Liver.ext_force s hit_p hit_n rest = LVector3 0 0 0.
Proof.
  unfold Liver.ext_force.
  intros [Ha | [-> | (p & -> & Hd)]].
  - rewrite Ha. reflexivity.
  - destruct (Liver.active_interaction s); reflexivity.
  - apply Rltb_false in Hd. rewrite Hd.
    destruct (Liver.active_interaction s); reflexivity.
Qed.

Lemma nose_ext_force_zero (s : Nose.State) (hit_p : option Vec3) (i : nat)
    (rest : Vec3) (c : bool) :
  Nose.active_interaction s = false
  \/ hit_p = None
  \/ (exists p, hit_p = Some p
                /\ Nose.interaction_radius s <= LVector3.length (rest - p)%V) ->
  Nose.ext_force s hit_p i rest c = (LVector3 0 0 0, c).
Proof.
  unfold Nose.ext_force.
  intros [Ha | [-> | (p & -> & Hd)]].
  - rewrite Ha. reflexivity.
  - destruct (Nose.active_interaction s); reflexivity.
  - apply Rltb_false in Hd. rewrite Hd.
    destruct (Nose.active_interaction s); reflexivity.
Qed.

(** ** C2: the mouse-picking force of the liver simulator *)

(** C2.  Mouse picking in the liver simulator (VR hand off, squeezing):
    for every vertex [i] whose rest position lies at distance
    [d < interaction_radius] from the probe, the external force is the
    negated contact normal times [user_force * 1.2 * (1 - d/radius)^3]
    when a contact normal is supplied, and the zero vector when none
    is. *)
Theorem C2_surface_pick_force (s : Liver.State) (i : nat) (p rest : Vec3)
    (hit_n : option Vec3) :
  Liver.vr_mode_active s = false ->
  Liver.is_squeezing s = true ->
  Liver.original_verts s !! i = Some rest ->
  let d := LVector3.length (rest - p)%V in
  let interactionRadius := Liver.interaction_radius s in
  d < interactionRadius ->
  Liver.ext_force s (Some p) hit_n rest
  = match hit_n with
    | Some contactNormal =>
      (- contactNormal
       * (Liver.user_force s * 1.2 * (1 - d / interactionRadius) ^ 3))%V
    | None => LVector3 0 0 0
    end.
Proof.
  intros Hvr Hsq _ d r Hd.
  rewrite (liver_ext_force_pick s p rest hit_n Hvr Hsq Hd).
  destruct hit_n as [n |]; [| reflexivity].
  fold d r. apply vec_eq; simpl; ring.
Qed.

Lemma C2_surface_pick_force_witness :
  Liver.ext_force liver_two (Some (LVector3 10 0 0)) (Some (LVector3 0 0 1))
                  (LVector3 10 0 0)
  = (- LVector3 0 0 1
     * (Liver.user_force liver_two * 1.2
        * (1 - LVector3.length (LVector3 10 0 0 - LVector3 10 0 0)%V
               / Liver.interaction_radius liver_two) ^ 3))%V.
Proof.
  apply (C2_surface_pick_force liver_two 1 (LVector3 10 0 0) (LVector3 10 0 0)
                               (Some (LVector3 0 0 1)));
    try reflexivity.
  rewrite length_sub_self. unfold Liver.interaction_radius; simpl. lra.
Defined.

(** ** C3: the normal-driven force of the nose simulator *)

(** C3.  In the nose simulator, under an active interaction (the VR hand
    is one), for every vertex [i] that has a rest normal and whose rest
    position lies at distance [d < interaction_radius] from the probe,
    the external force is the negated rest normal times
    [user_force * 1.5 * exp (- d^2 / (2 * sigma^2))] with
    [sigma = interaction_radius / 3]. *)
Theorem C3_normal_driven_force (s : Nose.State) (i : nat)
    (p rest restNormal : Vec3) (any_contact : bool) :
  Nose.active_interaction s = true ->
  Nose.original_verts s !! i = Some rest ->
  Nose.original_normals s !! i = Some restNormal ->
  let d := LVector3.length (rest - p)%V in
  let interactionRadius := Nose.interaction_radius s in
  let sigma := interactionRadius / 3 in
  d < interactionRadius ->
  fst (Nose.ext_force s (Some p) i rest any_contact)
  = (- restNormal
     * (Nose.user_force s * 1.5 * exp (- d ^ 2 / (2 * sigma ^ 2))))%V.
Proof.
  intros Ha _ Hn d r sigma Hd.
  rewrite (nose_ext_force_normal s p rest restNormal i any_contact Ha Hn Hd).
  fold d r sigma. simpl fst.
  replace (- (d * d) / (2 * sigma * sigma)) with (- d ^ 2 / (2 * sigma ^ 2))
    by (simpl; f_equal; ring).
  apply vec_eq; simpl; ring.
Qed.

Lemma nose_vr_is_active (s : Nose.State) :
  Nose.vr_mode_active s = true -> Nose.active_interaction s = true.
Proof. unfold Nose.active_interaction. intros ->. reflexivity. Qed.

Lemma C3_normal_driven_force_witness :
  fst (Nose.ext_force nose_two (Some (LVector3 10 0 0)) 1 (LVector3 10 0 0) false)
  = (- LVector3 0 0 1
     * (Nose.user_force nose_two * 1.5
        * exp (- LVector3.length (LVector3 10 0 0 - LVector3 10 0 0)%V ^ 2
               / (2 * (Nose.interaction_radius nose_two / 3) ^ 2))))%V.
Proof.
  apply (C3_normal_driven_force nose_two 1 (LVector3 10 0 0) (LVector3 10 0 0)
                                (LVector3 0 0 1) false);
    try reflexivity.
  rewrite length_sub_self. unfold Nose.interaction_radius; simpl. lra.
Defined.

(** ** C4: the radial force of the liver simulator *)

Lemma scale_zero (k : R) : (LVector3.zero * k)%V = LVector3 0 0 0.
Proof. apply vec_eq; simpl; ring. Qed.

(** A vertex that sits exactly at the probe centre has no direction to
    be pushed in: the force is the zero vector. *)
Lemma liver_ext_force_radial_centre (s : Liver.State) (p rest : Vec3)
    (hit_n : option Vec3) :
  Liver.vr_mode_active s = true ->
  LVector3.length (rest - p)%V < Liver.interaction_radius s ->
  LVector3.length (rest - p)%V = 0 ->
  Liver.ext_force s (Some p) hit_n rest = LVector3 0 0 0.
Proof.
  intros Hvr Hd H0.
  rewrite (liver_ext_force_radial s p rest hit_n Hvr Hd).
  rewrite (normalized_zero_length _ H0).
  rewrite !scale_zero. apply vec_eq; simpl; ring.
Qed.

(** The specified force fails for the vertex at rest position (10,0,0)
    with the VR hand at (10,0,0), force 60, hard mode: the distance is
    0, inside the radius, yet the force is the zero vector and not a
    unit vector times 60 * 1.2 * 1. *)
Lemma C4_radial_force_counterexample :
  let s := liver_two_vr in
  let p := LVector3 10 0 0 in
  let rest := LVector3 10 0 0 in
  let d := LVector3.length (rest - p)%V in
  Liver.original_verts s !! 1%nat = Some rest
  /\ d < Liver.interaction_radius s
  /\ Liver.ext_force s (Some p) None rest = LVector3 0 0 0
  /\ ~ exists u : Vec3,
         LVector3.length u = 1
         /\ Liver.ext_force s (Some p) None rest
            = (u * (Liver.user_force s * 1.2
                    * (1 - d / Liver.interaction_radius s) ^ 3))%V.
Proof.
  cbv zeta.
  assert (Hd : LVector3.length (LVector3 10 0 0 - LVector3 10 0 0)%V
               < Liver.interaction_radius liver_two_vr).
  { rewrite length_sub_self. unfold Liver.interaction_radius; simpl. lra. }
  assert (Hf : Liver.ext_force liver_two_vr (Some (LVector3 10 0 0)) None
                               (LVector3 10 0 0) = LVector3 0 0 0).
  { apply liver_ext_force_radial_centre;
      [reflexivity | exact Hd | apply length_sub_self]. }
  split; [reflexivity |]. split; [exact Hd |]. split; [exact Hf |].
  intros (u & Hu & E). rewrite Hf in E. rewrite length_sub_self in E.
  unfold Liver.interaction_radius in E. simpl in E.
  injection E as Ex Ey Ez.
  assert (Hx : LVector3.x u = 0) by lra.
  assert (Hy : LVector3.y u = 0) by lra.
  assert (Hz : LVector3.z u = 0) by lra.
  unfold LVector3.length, LVector3.length_squared in Hu.
  rewrite Hx, Hy, Hz in Hu.
  replace (0 * 0 + 0 * 0 + 0 * 0) with 0 in Hu by ring.
  rewrite sqrt_0 in Hu. lra.
Qed.

(** C4, amended.  VR hand in the liver simulator: for every vertex [i]
    whose rest position lies at distance [d < interaction_radius] from
    the probe, when [0 < d] the external force is the unit vector from
    the probe to the rest position times
    [user_force * 1.2 * (1 - d/radius)^3]; when [d = 0] it is the zero
    vector. *)
Theorem C4_radial_force (s : Liver.State) (i : nat) (p rest : Vec3)
    (hit_n : option Vec3) :
  Liver.vr_mode_active s = true ->
  Liver.original_verts s !! i = Some rest ->
  let d := LVector3.length (rest - p)%V in
  let interactionRadius := Liver.interaction_radius s in
  d < interactionRadius ->
  (0 < d ->
   let u := ((rest - p) / d)%V in
   LVector3.length u = 1
   /\ Liver.ext_force s (Some p) hit_n rest
      = (u * (Liver.user_force s * 1.2 * (1 - d / interactionRadius) ^ 3))%V)
  /\ (d = 0 -> Liver.ext_force s (Some p) hit_n rest = LVector3 0 0 0).
Proof.
  intros Hvr _ d r Hd. split.
  - intros Hpos u. subst u d.
    rewrite <- (normalized_pos_length _ Hpos). split.
    + apply normalized_unit; exact Hpos.
    + rewrite (liver_ext_force_radial s p rest hit_n Hvr Hd).
      fold r. apply vec_eq; simpl; ring.
  - intros H0. apply liver_ext_force_radial_centre; assumption.
Qed.

Lemma length_unit_x : LVector3.length (LVector3 0 0 0 - LVector3 1 0 0)%V = 1.
Proof.
  unfold LVector3.length, LVector3.length_squared; simpl.
  replace (_ + _ + _) with 1 by ring. apply sqrt_1.
Qed.

Lemma C4_radial_force_witness :
  let s := liver_two_vr in
  let p := LVector3 1 0 0 in
  let rest := LVector3 0 0 0 in
  let d := LVector3.length (rest - p)%V in
  (0 < d ->
   LVector3.length ((rest - p) / d)%V = 1
   /\ Liver.ext_force s (Some p) None rest
      = ((rest - p) / d
         * (Liver.user_force s * 1.2
            * (1 - d / Liver.interaction_radius s) ^ 3))%V)
  /\ (d = 0 -> Liver.ext_force s (Some p) None rest = LVector3 0 0 0).
Proof.
  apply (C4_radial_force liver_two_vr 0 (LVector3 1 0 0) (LVector3 0 0 0) None);
    try reflexivity.
  rewrite length_unit_x. unfold Liver.interaction_radius; simpl. lra.
Defined.

(** ** C5: where the external force vanishes *)

Lemma liver_interaction_radius_spec (s : Liver.State) :
  Liver.interaction_radius s
  = spec_interaction_radius (String.eqb (Liver.squeeze_mode s) "hard")
                            (Liver.vr_mode_active s).
Proof.
  unfold Liver.interaction_radius, spec_interaction_radius.
  destruct (String.eqb _ _), (Liver.vr_mode_active s); lra.
Qed.

Lemma nose_interaction_radius_spec (s : Nose.State) :
  Nose.interaction_radius s
  = spec_interaction_radius (String.eqb (Nose.squeeze_mode s) "hard")
                            (Nose.vr_mode_active s).
Proof.
  unfold Nose.interaction_radius, spec_interaction_radius.
  destruct (String.eqb _ _), (Nose.vr_mode_active s); lra.
Qed.

(** C5.  In both simulators the external force of a vertex is the zero
    vector whenever the interaction is not active, or the probe position
    is absent, or the distance [d] from the rest position to the probe
    satisfies [d >= interaction_radius] (so [d = interaction_radius] is
    outside); and the interaction radius is 2 in mode "hard" and 4 in
    mode "soft", plus 1.5 when the VR hand is the probe. *)
Theorem C5_zero_force_out_of_reach
    (sl : Liver.State) (sn : Nose.State) (hit_p hit_n : option Vec3)
    (i : nat) (rest : Vec3) (any_contact : bool) :
  (out_of_reach (Liver.active_interaction sl) hit_p
                (Liver.interaction_radius sl) rest ->
   Liver.ext_force sl hit_p hit_n rest = LVector3 0 0 0)
  /\ (out_of_reach (Nose.active_interaction sn) hit_p
                   (Nose.interaction_radius sn) rest ->
      Nose.ext_force sn hit_p i rest any_contact = (LVector3 0 0 0, any_contact))
  /\ (forall mode : string,
        mode = "hard"%string \/ mode = "soft"%string ->
        Liver.interaction_radius (Liver.set_mode sl mode)
        = (if String.eqb mode "hard" then 2 else 4)
          + (if Liver.vr_mode_active sl then 1.5 else 0)
        /\ Nose.interaction_radius (Nose.set_mode sn mode)
           = (if String.eqb mode "hard" then 2 else 4)
             + (if Nose.vr_mode_active sn then 1.5 else 0)).
Proof.
  split; [| split].
  - apply liver_ext_force_zero.
  - apply nose_ext_force_zero.
  - intros mode _. split.
    + rewrite liver_interaction_radius_spec. reflexivity.
    + rewrite nose_interaction_radius_spec.
      unfold Nose.set_mode. destruct (String.eqb mode "soft"); reflexivity.
Qed.

Lemma length_ten_x : LVector3.length (LVector3 10 0 0 - LVector3 0 0 0)%V = 10.
Proof.
  unfold LVector3.length, LVector3.length_squared; simpl.
  replace (_ + _ + _) with (10 * 10) by ring. apply sqrt_square. lra.
Qed.

(** The boundary counts as outside: a vertex at distance exactly 2 from
    the probe, in hard mode with mouse picking. *)
Lemma length_two_x : LVector3.length (LVector3 2 0 0 - LVector3 0 0 0)%V = 2.
Proof.
  unfold LVector3.length, LVector3.length_squared; simpl.
  replace (_ + _ + _) with (2 * 2) by ring. apply sqrt_square. lra.
Qed.

Lemma C5_zero_force_out_of_reach_witness :
  Liver.ext_force liver_two (Some (LVector3 0 0 0)) (Some (LVector3 0 0 1))
                  (LVector3 2 0 0) = LVector3 0 0 0
  /\ Nose.ext_force nose_two (Some (LVector3 0 0 0)) 1 (LVector3 10 0 0) false
     = (LVector3 0 0 0, false)
  /\ Liver.interaction_radius (Liver.set_mode liver_two "soft") = 4 + 0
  /\ Nose.interaction_radius (Nose.set_mode nose_two "hard") = 2 + 0.
Proof.
  split; [| split; [| split]].
  - apply (proj1 (C5_zero_force_out_of_reach
                    liver_two nose_two (Some (LVector3 0 0 0))
                    (Some (LVector3 0 0 1)) 0 (LVector3 2 0 0) false)).
    right; right. exists (LVector3 0 0 0). split; [reflexivity |].
    rewrite length_two_x. unfold Liver.interaction_radius; simpl. lra.
  - apply (proj1 (proj2 (C5_zero_force_out_of_reach
                    liver_two nose_two (Some (LVector3 0 0 0))
                    (Some (LVector3 0 0 1)) 1 (LVector3 10 0 0) false))).
    right; right. exists (LVector3 0 0 0). split; [reflexivity |].
    rewrite length_ten_x. unfold Nose.interaction_radius; simpl. lra.
  - apply (proj2 (proj2 (C5_zero_force_out_of_reach
                    liver_two nose_two None None 0 (LVector3 0 0 0) false))
                 "soft"%string).
    right; reflexivity.
  - apply (proj2 (proj2 (C5_zero_force_out_of_reach
                    liver_two nose_two None None 0 (LVector3 0 0 0) false))
                 "hard"%string).
    left; reflexivity.
Defined.

(** ** C6: the contact flag *)

Lemma nose_touched_in_reach (s : Nose.State) (hit_p : option Vec3) :
  (exists i rest, Nose.original_verts s !! i = Some rest
                  /\ nose_touched s hit_p rest = true)
  <-> some_vertex_in_reach (Nose.active_interaction s) hit_p
                           (Nose.interaction_radius s) (Nose.original_verts s).
Proof.
  unfold some_vertex_in_reach, nose_touched. split.
  - intros (i & rest & Hr & Ht). apply andb_true_iff in Ht as [Ha Hp].
    split; [exact Ha |]. destruct hit_p as [p |]; [| discriminate].
    exists p. split; [reflexivity |]. exists i, rest.
    split; [exact Hr | apply Rltb_true; exact Hp].
  - intros (Ha & p & -> & i & rest & Hr & Hd).
    exists i, rest. split; [exact Hr |].
    rewrite Ha. apply Rltb_true in Hd. rewrite Hd. reflexivity.
Qed.

(** The specified flag fails for the liver simulator: with the probe
    on vertex 1 of the two-vertex liver, squeezing in hard mode, a vertex
    is in reach, yet [deform_mesh] returns [None] and no boolean. *)
Lemma C6_contact_flag_counterexample :
  some_vertex_in_reach (Liver.active_interaction liver_two)
                       (Some (LVector3 10 0 0))
                       (Liver.interaction_radius liver_two)
                       (Liver.original_verts liver_two)
  /\ (exists s', Liver.deform_mesh liver_two (1/100) (Some (LVector3 10 0 0))
                                   (Some (LVector3 0 0 1))
                 = Ok (s', PyNone))
  /\ (forall s', Liver.deform_mesh liver_two (1/100) (Some (LVector3 10 0 0))
                                   (Some (LVector3 0 0 1))
                 <> Ok (s', PyBool true)).
Proof.
  destruct (liver_deform_mesh_spec liver_two two_vertices (1/100)
              (Some (LVector3 10 0 0)) (Some (LVector3 0 0 1)) liver_two_loaded)
    as (s' & Hrun & _).
  split; [| split].
  - split; [reflexivity |]. exists (LVector3 10 0 0). split; [reflexivity |].
    exists 1%nat, (LVector3 10 0 0). split; [reflexivity |].
    rewrite length_sub_self. unfold Liver.interaction_radius; simpl. lra.
  - exists s'. exact Hrun.
  - intros s''. rewrite Hrun. discriminate.
Qed.

(** C6, amended.  On a loaded mesh the nose simulator's [deform_mesh]
    returns a boolean that is true if and only if, under an active
    interaction with a present probe, some vertex has its rest position
    at distance [d < interaction_radius] from the probe; the liver
    simulator's [deform_mesh] returns [None], whatever the contact. *)
Theorem C6_contact_flag
    (sn : Nose.State) (sl : Liver.State) (vdn vdl : GeomVertexData)
    (dt : R) (hit_p hit_n : option Vec3) :
  nose_loaded sn vdn ->
  liver_loaded sl vdl ->
  (exists (s' : Nose.State) (contact : bool),
     Nose.deform_mesh sn dt hit_p hit_n = Ok (s', PyBool contact)
     /\ (contact = true <->
         some_vertex_in_reach (Nose.active_interaction sn) hit_p
                              (Nose.interaction_radius sn)
                              (Nose.original_verts sn)))
  /\ (exists s' : Liver.State,
        Liver.deform_mesh sl dt hit_p hit_n = Ok (s', PyNone)).
Proof.
  intros Hn Hl. split.
  - destruct (nose_deform_mesh_spec sn vdn dt hit_p hit_n Hn)
      as (s' & flag & Hrun & _ & _ & _ & _ & Hflag).
    exists s', flag. split; [exact Hrun |].
    rewrite Hflag. apply nose_touched_in_reach.
  - destruct (liver_deform_mesh_spec sl vdl dt hit_p hit_n Hl)
      as (s' & Hrun & _).
    exists s'. exact Hrun.
Qed.

Lemma C6_contact_flag_witness :
  (exists (s' : Nose.State) (contact : bool),
     Nose.deform_mesh nose_two (1/100) (Some (LVector3 0 0 0)) None
     = Ok (s', PyBool contact)
     /\ (contact = true <->
         some_vertex_in_reach (Nose.active_interaction nose_two)
                              (Some (LVector3 0 0 0))
                              (Nose.interaction_radius nose_two)
                              (Nose.original_verts nose_two)))
  /\ (exists s' : Liver.State,
        Liver.deform_mesh liver_two (1/100) (Some (LVector3 0 0 0)) None
        = Ok (s', PyNone)).
Proof.
  apply (C6_contact_flag nose_two liver_two two_vertices two_vertices);
    repeat split; reflexivity.
Defined.

(** ** C7: hard mode against soft mode *)

(** The specified ordering fails for the liver simulator: from the initial
    state, hard and soft mode have the same spring constant (40) and the
    same damping coefficient (10); neither is strictly larger in hard
    mode. *)
Lemma C7_mode_symmetry_counterexample :
  Liver.spring_k (Liver.set_mode Liver.init "hard") = 40
  /\ Liver.spring_k (Liver.set_mode Liver.init "soft") = 40
  /\ Liver.damping (Liver.set_mode Liver.init "hard") = 10
  /\ Liver.damping (Liver.set_mode Liver.init "soft") = 10
  /\ ~ (Liver.spring_k (Liver.set_mode Liver.init "soft")
        < Liver.spring_k (Liver.set_mode Liver.init "hard"))
  /\ ~ (Liver.damping (Liver.set_mode Liver.init "soft")
        < Liver.damping (Liver.set_mode Liver.init "hard")).
Proof.
  unfold Liver.spring_k, Liver.damping; simpl.
  repeat split; lra.
Qed.

(** C7, amended.  From the same state, hard mode has a strictly smaller
    interaction radius than soft mode in both simulators.  In the nose
    simulator hard mode also has a strictly larger spring constant (40
    against 10) and damping coefficient (10 against 3).  In the liver
    simulator the mode selects the radius only: the spring constant and
    the damping coefficient are the same in both modes. *)
Theorem C7_mode_symmetry (sl : Liver.State) (sn : Nose.State) :
  let hard_l := Liver.set_mode sl "hard" in
  let soft_l := Liver.set_mode sl "soft" in
  let hard_n := Nose.set_mode sn "hard" in
  let soft_n := Nose.set_mode sn "soft" in
  Liver.interaction_radius hard_l < Liver.interaction_radius soft_l
  /\ Nose.interaction_radius hard_n < Nose.interaction_radius soft_n
  /\ Nose.spring_k hard_n = 40 /\ Nose.spring_k soft_n = 10
  /\ Nose.spring_k soft_n < Nose.spring_k hard_n
  /\ Nose.damping hard_n = 10 /\ Nose.damping soft_n = 3
  /\ Nose.damping soft_n < Nose.damping hard_n
  /\ Liver.spring_k hard_l = Liver.spring_k soft_l
  /\ Liver.damping hard_l = Liver.damping soft_l.
Proof.
  cbv zeta.
  unfold Liver.interaction_radius, Nose.interaction_radius, Nose.spring_k,
    Nose.damping, Liver.spring_k, Liver.damping; simpl.
  destruct (Liver.vr_mode_active sl), (Nose.vr_mode_active sn);
    repeat split; lra.
Qed.

(** ** Vertex extraction at mesh load *)

Lemma liver_read_verts_app (reader acc : list Vec3) :
  Liver.read_verts reader acc = acc ++ reader.
Proof.
  revert acc. induction reader as [| v reader IH]; intros acc; simpl.
  - rewrite app_nil_r. reflexivity.
  - rewrite IH, <- app_assoc. reflexivity.
Qed.

Lemma nose_read_loop_spec (reader : list Vec3) :
  forall reader_normal verts normals : list Vec3,
    Nose.read_loop reader reader_normal verts normals
    = (verts ++ reader,
       normals ++ padded_normals (List.length reader) reader_normal).
Proof.
  unfold padded_normals.
  induction reader as [| v reader IH]; intros rn verts normals; simpl.
  - rewrite !app_nil_r. reflexivity.
  - destruct rn as [| n rn]; rewrite IH; rewrite <- !app_assoc; simpl.
    + rewrite take_nil, Nat.sub_0_r. reflexivity.
    + reflexivity.
Qed.

Lemma length_padded_normals (n : nat) (normals : list Vec3) :
  List.length (padded_normals n normals) = n.
Proof.
  unfold padded_normals.
  rewrite length_app, length_take, length_replicate. lia.
Qed.

Lemma lookup_padded_normals_missing (n i : nat) (normals : list Vec3) :
  (List.length normals <= i < n)%nat ->
  padded_normals n normals !! i = Some (LVector3 0 0 1).
Proof.
  intros [Hlo Hhi]. unfold padded_normals.
  rewrite lookup_app_r by (rewrite length_take; lia).
  apply lookup_replicate_2. rewrite length_take. lia.
Qed.

Lemma lookup_padded_normals_supplied (n i : nat) (normals : list Vec3) :
  (i < n)%nat -> (i < List.length normals)%nat ->
  padded_normals n normals !! i = normals !! i.
Proof.
  intros Hn Hi. unfold padded_normals.
  rewrite lookup_app_l by (rewrite length_take; lia).
  apply lookup_take_lt; exact Hn.
Qed.

Lemma liver_extract_spec (s : Liver.State) (m : NodePath) (vd : GeomVertexData) :
  Liver.liver_model s = Some m ->
  geom_node m = Some vd ->
  exists s' : Liver.State,
    Liver.extract_vertex_data s = Ok (s', PyNone)
    /\ Liver.vdata s' = Some vd
    /\ Liver.original_verts s' = vertex vd
    /\ Liver.vertex_velocities s'
       = replicate (List.length (vertex vd)) (LVector3 0 0 0).
Proof.
  intros Hm Hg. unfold Liver.extract_vertex_data. rewrite Hm, Hg.
  eexists. split; [reflexivity |]. simpl.
  rewrite liver_read_verts_app. simpl.
  split; [reflexivity |]. split; [reflexivity |].
  induction (vertex vd) as [| v l IH]; simpl; [reflexivity |].
  rewrite IH. reflexivity.
Qed.

Lemma nose_extract_spec (s : Nose.State) (m : NodePath) (vd : GeomVertexData) :
  Nose.nose_model s = Some m ->
  geom_node m = Some vd ->
  exists s' : Nose.State,
    Nose.extract_vertex_data s = Ok (s', PyNone)
    /\ Nose.vdata s' = Some vd
    /\ Nose.original_verts s' = vertex vd
    /\ Nose.original_normals s'
       = padded_normals (List.length (vertex vd)) (normal vd)
    /\ Nose.vertex_velocities s'
       = replicate (List.length (vertex vd)) (LVector3 0 0 0)
    /\ Nose.active_interaction s' = Nose.active_interaction s
    /\ Nose.interaction_radius s' = Nose.interaction_radius s
    /\ Nose.user_force s' = Nose.user_force s.
Proof.
  intros Hm Hg. unfold Nose.extract_vertex_data. rewrite Hm, Hg.
  rewrite nose_read_loop_spec. simpl.
  eexists. split; [reflexivity |]. simpl.
  split; [reflexivity |]. split; [reflexivity |]. split; [reflexivity |].
  split; [| repeat split].
  induction (vertex vd) as [| v l IH]; simpl; [reflexivity |].
  rewrite IH. reflexivity.
Qed.

(** ** C8: loading a mesh *)

(** The specified failure does not occur: loading an empty mesh, or a mesh with
    one position and two normals, or one position and no normal, over
    the two-vertex nose raises nothing; the load succeeds and replaces
    the previous rest arrays. *)
Lemma C8_load_validation_counterexample :
  let v := LVector3 1 2 3 in
  let n := LVector3 1 0 0 in
  let load positions normals :=
    Nose.extract_vertex_data
      (nose_install nose_two (mkModel (Some (mkVData positions normals)))) in
  (exists s', load [] [] = Ok (s', PyNone)
              /\ Nose.original_verts s' = []
              /\ Nose.original_normals s' = []
              /\ Nose.vertex_velocities s' = [])
  /\ (exists s', load [v] [n; n] = Ok (s', PyNone)
                 /\ Nose.original_verts s' = [v]
                 /\ Nose.original_normals s' = [n])
  /\ (exists s', load [v] [] = Ok (s', PyNone)
                 /\ Nose.original_verts s' = [v]
                 /\ Nose.original_normals s' = [LVector3 0 0 1])
  /\ (exists s', Liver.extract_vertex_data
                   (liver_install liver_two (mkModel (Some (mkVData [] []))))
                 = Ok (s', PyNone)
                 /\ Liver.original_verts s' = [])
  /\ Nose.original_verts nose_two = [LVector3 0 0 0; LVector3 10 0 0].
Proof.
  cbv zeta.
  split; [| split; [| split; [| split]]];
    try (eexists; split; [reflexivity |]; repeat split).
  reflexivity.
Qed.

(** C8, amended.  Vertex extraction raises no error on a model that is
    installed.  When the model has a geometry node the load succeeds,
    whatever the lengths of the vertex and normal columns (empty columns
    included): the rest positions copy the vertex column, the live
    positions equal the rest positions, every velocity is the zero
    vector, and in the nose simulator the rest normals are the supplied
    normals, cut or padded with (0,0,1) to one per vertex.  When the
    model has no geometry node the method returns with the previous mesh
    state untouched. *)
Theorem C8_load_mesh
    (sl : Liver.State) (sn : Nose.State) (ml mn : NodePath) :
  Liver.liver_model sl = Some ml ->
  Nose.nose_model sn = Some mn ->
  match geom_node ml with
  | None => Liver.extract_vertex_data sl = Ok (sl, PyNone)
  | Some vd =>
    exists s' : Liver.State,
      Liver.extract_vertex_data sl = Ok (s', PyNone)
      /\ Liver.original_verts s' = vertex vd
      /\ positions (Liver.vdata s') = Liver.original_verts s'
      /\ Liver.vertex_velocities s'
         = replicate (List.length (vertex vd)) (LVector3 0 0 0)
  end
  /\ match geom_node mn with
     | None => Nose.extract_vertex_data sn = Ok (sn, PyNone)
     | Some vd =>
       exists s' : Nose.State,
         Nose.extract_vertex_data sn = Ok (s', PyNone)
         /\ Nose.original_verts s' = vertex vd
         /\ Nose.original_normals s'
            = padded_normals (List.length (vertex vd)) (normal vd)
         /\ positions (Nose.vdata s') = Nose.original_verts s'
         /\ Nose.vertex_velocities s'
            = replicate (List.length (vertex vd)) (LVector3 0 0 0)
     end.
Proof.
  intros Hl Hn. split.
  - destruct (geom_node ml) as [vd |] eqn:Hg.
    + destruct (liver_extract_spec sl ml vd Hl Hg)
        as (s' & Hrun & Hvd & Hov & Hvel).
      exists s'. rewrite Hvd, Hov. repeat split; assumption.
    + unfold Liver.extract_vertex_data. rewrite Hl, Hg. reflexivity.
  - destruct (geom_node mn) as [vd |] eqn:Hg.
    + destruct (nose_extract_spec sn mn vd Hn Hg)
        as (s' & Hrun & Hvd & Hov & Hon & Hvel & _).
      exists s'. rewrite Hvd, Hov. repeat split; assumption.
    + unfold Nose.extract_vertex_data. rewrite Hn, Hg. reflexivity.
Qed.

Lemma C8_load_mesh_witness :
  (exists s' : Liver.State,
     Liver.extract_vertex_data liver_two = Ok (s', PyNone)
     /\ Liver.original_verts s' = vertex two_vertices
     /\ positions (Liver.vdata s') = Liver.original_verts s'
     /\ Liver.vertex_velocities s' = replicate 2 (LVector3 0 0 0))
  /\ Nose.extract_vertex_data (nose_install nose_two (mkModel None))
     = Ok (nose_install nose_two (mkModel None), PyNone).
Proof.
  apply (C8_load_mesh liver_two (nose_install nose_two (mkModel None))
                      (mkModel (Some two_vertices)) (mkModel None));
    reflexivity.
Defined.

(** ** C9: restoring the rest pose *)

Lemma write_rows_lookup (src rows : list Vec3) (i : nat) (v : Vec3) :
  src !! i = Some v -> write_rows src rows !! i = Some v.
Proof. intros H. unfold write_rows. apply lookup_app_l_Some; exact H. Qed.

Lemma write_rows_idem (src rows : list Vec3) :
  write_rows src (write_rows src rows) = write_rows src rows.
Proof.
  unfold write_rows. rewrite drop_app_length. reflexivity.
Qed.

Lemma write_rows_same_length (src rows : list Vec3) :
  List.length rows = List.length src -> write_rows src rows = src.
Proof.
  intros H. unfold write_rows. rewrite <- H, drop_all, app_nil_r. reflexivity.
Qed.

Lemma lookup_zeroed (l : list Vec3) (i : nat) :
  (i < List.length l)%nat ->
  List.map (fun _ => LVector3 0 0 0) l !! i = Some (LVector3 0 0 0).
Proof.
  intros H. apply lookup_lt_is_Some_2 in H as [v Hv].
  change (List.map ?f l) with (f <$> l).
  rewrite list_lookup_fmap, Hv. reflexivity.
Qed.

Lemma liver_restore_idem (s : Liver.State) :
  Liver.restore_immediate (Liver.restore_immediate s)
  = Liver.restore_immediate s.
Proof.
  unfold Liver.restore_immediate.
  destruct (Liver.vdata s) as [vd |] eqn:E; simpl; [| rewrite E; reflexivity].
  rewrite write_rows_idem. reflexivity.
Qed.

Lemma nose_restore_idem (s : Nose.State) :
  Nose.restore_immediate (Nose.restore_immediate s)
  = Nose.restore_immediate s.
Proof.
  unfold Nose.restore_immediate.
  destruct (Nose.vdata s) as [vd |] eqn:E; simpl; [| rewrite E; reflexivity].
  rewrite write_rows_idem. reflexivity.
Qed.

(** C9.  With a mesh loaded, after [restore_immediate] every vertex [i]
    has its live position equal to its rest position and a zero
    velocity, whatever the positions and velocities were before; and
    restoring twice leaves the state that restoring once leaves.  This
    holds for the liver and the nose simulator. *)
Theorem C9_restore_to_rest
    (sl : Liver.State) (sn : Nose.State) (vdl vdn : GeomVertexData) :
  Liver.vdata sl = Some vdl ->
  Nose.vdata sn = Some vdn ->
  let sl' := Liver.restore_immediate sl in
  let sn' := Nose.restore_immediate sn in
  at_rest (Liver.original_verts sl') (positions (Liver.vdata sl'))
          (Liver.vertex_velocities sl')
  /\ Liver.original_verts sl' = Liver.original_verts sl
  /\ List.length (Liver.vertex_velocities sl')
     = List.length (Liver.original_verts sl)
  /\ Liver.restore_immediate sl' = sl'
  /\ at_rest (Nose.original_verts sn') (positions (Nose.vdata sn'))
             (Nose.vertex_velocities sn')
  /\ Nose.original_verts sn' = Nose.original_verts sn
  /\ List.length (Nose.vertex_velocities sn')
     = List.length (Nose.original_verts sn)
  /\ Nose.restore_immediate sn' = sn'.
Proof.
  intros Hl Hn sl' sn'. subst sl' sn'.
  split; [| split; [| split; [| split; [| split; [| split; [| split]]]]]].
  - unfold Liver.restore_immediate. rewrite Hl. simpl.
    intros i rest Hr. split.
    + apply write_rows_lookup; exact Hr.
    + apply lookup_zeroed. apply lookup_lt_Some in Hr; exact Hr.
  - unfold Liver.restore_immediate. rewrite Hl. reflexivity.
  - unfold Liver.restore_immediate. rewrite Hl. simpl.
    apply length_map.
  - apply liver_restore_idem.
  - unfold Nose.restore_immediate. rewrite Hn. simpl.
    intros i rest Hr. split.
    + apply write_rows_lookup; exact Hr.
    + apply lookup_zeroed. apply lookup_lt_Some in Hr; exact Hr.
  - unfold Nose.restore_immediate. rewrite Hn. reflexivity.
  - unfold Nose.restore_immediate. rewrite Hn. simpl.
    apply length_map.
  - apply nose_restore_idem.
Qed.

Lemma C9_restore_to_rest_witness :
  let sl' := Liver.restore_immediate liver_two_moved in
  let sn' := Nose.restore_immediate nose_two in
  at_rest (Liver.original_verts sl') (positions (Liver.vdata sl'))
          (Liver.vertex_velocities sl')
  /\ Liver.original_verts sl' = Liver.original_verts liver_two_moved
  /\ List.length (Liver.vertex_velocities sl')
     = List.length (Liver.original_verts liver_two_moved)
  /\ Liver.restore_immediate sl' = sl'
  /\ at_rest (Nose.original_verts sn') (positions (Nose.vdata sn'))
             (Nose.vertex_velocities sn')
  /\ Nose.original_verts sn' = Nose.original_verts nose_two
  /\ List.length (Nose.vertex_velocities sn')
     = List.length (Nose.original_verts nose_two)
  /\ Nose.restore_immediate sn' = sn'.
Proof.
  apply (C9_restore_to_rest liver_two_moved nose_two
           (mkVData [LVector3 0 0 (-1); LVector3 10 1 0] (normal two_vertices))
           two_vertices);
    reflexivity.
Defined.

(** On the moved liver the restored arrays are the rest arrays. *)
Example liver_two_moved_restored :
  positions (Liver.vdata (Liver.restore_immediate liver_two_moved))
  = [LVector3 0 0 0; LVector3 10 0 0]
  /\ Liver.vertex_velocities (Liver.restore_immediate liver_two_moved)
     = [LVector3 0 0 0; LVector3 0 0 0].
Proof. split; reflexivity. Qed.

(** ** C10: normals missing at mesh load *)

(** C10.  Vertex extraction in the nose simulator raises no error when
    the normal column is shorter than the vertex column: the rest
    normals end up one per vertex, each vertex [i] past the end of the
    normal column gets the normal (0,0,1), and the force that later
    pushes such a vertex points along (0,0,-1). *)
Theorem C10_missing_normals_default
    (s : Nose.State) (m : NodePath) (vd : GeomVertexData) :
  Nose.nose_model s = Some m ->
  geom_node m = Some vd ->
  exists s' : Nose.State,
    Nose.extract_vertex_data s = Ok (s', PyNone)
    /\ List.length (Nose.original_verts s') = List.length (vertex vd)
    /\ List.length (Nose.original_normals s')
       = List.length (Nose.original_verts s')
    /\ forall (i : nat) (rest : Vec3),
         Nose.original_verts s' !! i = Some rest ->
         (List.length (normal vd) <= i)%nat ->
         Nose.original_normals s' !! i = Some (LVector3 0 0 1)
         /\ forall (p : Vec3) (any_contact : bool),
              Nose.active_interaction s' = true ->
              let d := LVector3.length (rest - p)%V in
              let sigma := Nose.interaction_radius s' / 3 in
              d < Nose.interaction_radius s' ->
              fst (Nose.ext_force s' (Some p) i rest any_contact)
              = (LVector3 0 0 (-1)
                 * (Nose.user_force s' * 1.5
                    * exp (- d ^ 2 / (2 * sigma ^ 2))))%V.
Proof.
  intros Hm Hg.
  destruct (nose_extract_spec s m vd Hm Hg)
    as (s' & Hrun & _ & Hov & Hon & _).
  exists s'. split; [exact Hrun |].
  rewrite Hov, Hon, length_padded_normals.
  split; [reflexivity |]. split; [reflexivity |].
  intros i rest Hr Hi.
  assert (Hnormal : padded_normals (List.length (vertex vd)) (normal vd) !! i
                    = Some (LVector3 0 0 1)).
  { apply lookup_padded_normals_missing.
    apply lookup_lt_Some in Hr. lia. }
  split; [exact Hnormal |].
  intros p c Ha d sigma Hd.
  rewrite <- Hon in Hnormal.
  rewrite (nose_ext_force_normal s' p rest (LVector3 0 0 1) i c Ha Hnormal Hd).
  fold d. simpl fst.
  replace (- (d * d) / (2 * (Nose.interaction_radius s' / 3)
                        * (Nose.interaction_radius s' / 3)))
    with (- d ^ 2 / (2 * sigma ^ 2))
    by (unfold sigma; simpl; f_equal; ring).
  apply vec_eq; simpl; ring.
Qed.

Lemma C10_missing_normals_default_witness :
  exists s' : Nose.State,
    Nose.extract_vertex_data
      (nose_install nose_two (mkModel (Some one_normal_short)))
    = Ok (s', PyNone)
    /\ List.length (Nose.original_verts s')
       = List.length (vertex one_normal_short)
    /\ List.length (Nose.original_normals s')
       = List.length (Nose.original_verts s')
    /\ forall (i : nat) (rest : Vec3),
         Nose.original_verts s' !! i = Some rest ->
         (List.length (normal one_normal_short) <= i)%nat ->
         Nose.original_normals s' !! i = Some (LVector3 0 0 1)
         /\ forall (p : Vec3) (any_contact : bool),
              Nose.active_interaction s' = true ->
              LVector3.length (rest - p)%V < Nose.interaction_radius s' ->
              fst (Nose.ext_force s' (Some p) i rest any_contact)
              = (LVector3 0 0 (-1)
                 * (Nose.user_force s' * 1.5
                    * exp (- LVector3.length (rest - p)%V ^ 2
                           / (2 * (Nose.interaction_radius s' / 3) ^ 2))))%V.
Proof.
  apply (C10_missing_normals_default
           (nose_install nose_two (mkModel (Some one_normal_short)))
           (mkModel (Some one_normal_short)) one_normal_short);
    reflexivity.
Defined.

(** The rest normals read from that mesh: the supplied one, then the
    default. *)
Example one_normal_short_read :
  Nose.read_loop (vertex one_normal_short) (normal one_normal_short) [] []
  = ([LVector3 0 0 0; LVector3 10 0 0], [LVector3 1 0 0; LVector3 0 0 1]).
Proof. reflexivity. Qed.

(** ** Where the probe comes from *)

(** With the VR hand off, [update_loop] hands a probe position to
    [deform_mesh] only while squeezing, and then always together with a
    contact normal. *)
Lemma liver_picked_probe (s : Liver.State) (hand p : Vec3)
    (pick : option (Vec3 * Vec3)) (hit_n : option Vec3) :
  Liver.vr_mode_active s = false ->
  Liver.interaction_source s hand pick = (Some p, hit_n) ->
  Liver.is_squeezing s = true /\ exists n, hit_n = Some n.
Proof.
  unfold Liver.interaction_source. intros ->.
  destruct (Liver.is_squeezing s); [| discriminate].
  destruct pick as [[q n] |]; [| discriminate].
  intros [= _ <-]. split; [reflexivity | exists n; reflexivity].
Qed.

(** With the VR hand on, the probe is the hand and the interaction is
    active. *)
Lemma nose_hand_probe (s : Nose.State) (hand : Vec3)
    (pick : option (Vec3 * Vec3)) :
  Nose.vr_mode_active s = true ->
  Nose.interaction_source s hand pick = (Some hand, None)
  /\ Nose.active_interaction s = true.
Proof.
  unfold Nose.interaction_source, Nose.active_interaction. intros ->.
  split; reflexivity.
Qed.

(** ** Loaded meshes are what the methods produce and keep *)

Lemma liver_extract_loaded (s : Liver.State) (m : NodePath)
    (vd : GeomVertexData) :
  Liver.liver_model s = Some m ->
  geom_node m = Some vd ->
  exists s', Liver.extract_vertex_data s = Ok (s', PyNone)
             /\ liver_loaded s' vd.
Proof.
  intros Hm Hg.
  destruct (liver_extract_spec s m vd Hm Hg) as (s' & Hrun & Hvd & Hov & Hvel).
  exists s'. split; [exact Hrun |]. unfold liver_loaded.
  rewrite Hvd, Hov, Hvel, length_replicate. repeat split.
Qed.

Lemma nose_extract_loaded (s : Nose.State) (m : NodePath)
    (vd : GeomVertexData) :
  Nose.nose_model s = Some m ->
  geom_node m = Some vd ->
  exists s', Nose.extract_vertex_data s = Ok (s', PyNone)
             /\ nose_loaded s' vd
             /\ List.length (Nose.original_normals s')
                = List.length (Nose.original_verts s').
Proof.
  intros Hm Hg.
  destruct (nose_extract_spec s m vd Hm Hg)
    as (s' & Hrun & Hvd & Hov & Hon & Hvel & _).
  exists s'. split; [exact Hrun |]. unfold nose_loaded.
  rewrite Hvd, Hov, Hon, Hvel, length_replicate, length_padded_normals.
  repeat split.
Qed.

Lemma liver_deform_keeps_loaded (s : Liver.State) (vd : GeomVertexData)
    (dt : R) (hit_p hit_n : option Vec3) :
  liver_loaded s vd ->
  exists s' vd', Liver.deform_mesh s dt hit_p hit_n = Ok (s', PyNone)
                 /\ liver_loaded s' vd'.
Proof.
  intros Hl.
  destruct (liver_deform_mesh_spec s vd dt hit_p hit_n Hl)
    as (s' & Hrun & Hov & Hlp & Hlv & _).
  destruct Hl as (Hvd & Hlen & Hvel).
  pose proof Hrun as Hshape. unfold Liver.deform_mesh in Hshape.
  rewrite Hvd in Hshape.
  destruct (Liver.deform_loop _ _ _ _ _ _ _ _) as [[rows vels] | e];
    [| discriminate].
  injection Hshape as <-. simpl in *.
  eexists _, _. split; [exact Hrun |].
  unfold liver_loaded; simpl. split; [reflexivity |]. split; simpl; lia.
Qed.

Lemma nose_deform_keeps_loaded (s : Nose.State) (vd : GeomVertexData)
    (dt : R) (hit_p hit_n : option Vec3) :
  nose_loaded s vd ->
  exists s' vd' flag, Nose.deform_mesh s dt hit_p hit_n = Ok (s', PyBool flag)
                      /\ nose_loaded s' vd'.
Proof.
  intros Hl.
  destruct (nose_deform_mesh_spec s vd dt hit_p hit_n Hl)
    as (s' & flag & Hrun & Hov & Hlp & Hlv & _).
  destruct Hl as (Hvd & Hlen & Hvel).
  pose proof Hrun as Hshape. unfold Nose.deform_mesh in Hshape.
  rewrite Hvd in Hshape.
  destruct (Nose.deform_loop _ _ _ _ _ _ _ _) as [[[rows vels] fl] | e];
    [| discriminate].
  injection Hshape as <- <-. simpl in *.
  eexists _, _, _. split; [exact Hrun |].
  unfold nose_loaded; simpl. split; [reflexivity |]. split; simpl; lia.
Qed.

Lemma liver_restore_keeps_loaded (s : Liver.State) (vd : GeomVertexData) :
  liver_loaded s vd ->
  liver_loaded (Liver.restore_immediate s)
               (mkVData (Liver.original_verts s) (normal vd)).
Proof.
  intros (Hvd & Hlen & Hvel). unfold liver_loaded, Liver.restore_immediate.
  rewrite Hvd. simpl. rewrite (write_rows_same_length _ _ Hlen).
  split; [reflexivity |]. split; [reflexivity |]. apply length_map.
Qed.

(** ** The end-to-end scenario of the specification *)

(** Two vertices at rest at (0,0,0) and (10,0,0), the probe active at
    (0,0,0) with contact normal (0,0,1), force 60, hard mode, mouse
    picking, [dt] = 0.01.  Vertex 0 is pushed along (0,0,-1) with force
    60 * 1.2; vertex 1 is out of reach and stays at (10,0,0) with zero
    velocity. *)
Example liver_end_to_end :
  exists s' : Liver.State,
    Liver.deform_mesh liver_two (1/100) (Some (LVector3 0 0 0))
                      (Some (LVector3 0 0 1))
    = Ok (s', PyNone)
    /\ Liver.ext_force liver_two (Some (LVector3 0 0 0)) (Some (LVector3 0 0 1))
                       (LVector3 0 0 0)
       = LVector3 0 0 (- (60 * 1.2))
    /\ Liver.vertex_velocities s' !! 0%nat = Some (LVector3 0 0 (- 0.72))
    /\ positions (Liver.vdata s') !! 0%nat = Some (LVector3 0 0 (- 0.0072))
    /\ Liver.vertex_velocities s' !! 1%nat = Some (LVector3 0 0 0)
    /\ positions (Liver.vdata s') !! 1%nat = Some (LVector3 10 0 0).
Proof.
  destruct (liver_deform_mesh_spec liver_two two_vertices (1/100)
              (Some (LVector3 0 0 0)) (Some (LVector3 0 0 1)) liver_two_loaded)
    as (s' & Hrun & _ & _ & _ & Hat).
  assert (H0 : Liver.ext_force liver_two (Some (LVector3 0 0 0))
                 (Some (LVector3 0 0 1)) (LVector3 0 0 0)
               = LVector3 0 0 (- (60 * 1.2))).
  { rewrite liver_ext_force_pick; try reflexivity.
    - rewrite length_sub_self. unfold Liver.interaction_radius; simpl.
      apply vec_eq; simpl; field.
    - rewrite length_sub_self. unfold Liver.interaction_radius; simpl. lra. }
  assert (H1 : Liver.ext_force liver_two (Some (LVector3 0 0 0))
                 (Some (LVector3 0 0 1)) (LVector3 10 0 0)
               = LVector3 0 0 0).
  { apply liver_ext_force_zero. right; right.
    exists (LVector3 0 0 0). split; [reflexivity |].
    rewrite length_ten_x. unfold Liver.interaction_radius; simpl. lra. }
  exists s'. split; [exact Hrun |]. split; [exact H0 |].
  destruct (Hat 0%nat _ _ _ eq_refl eq_refl eq_refl) as [Hv0 Hp0].
  destruct (Hat 1%nat _ _ _ eq_refl eq_refl eq_refl) as [Hv1 Hp1].
  cbv zeta in Hv0, Hp0, Hv1, Hp1.
  rewrite Hv0, Hp0, Hv1, Hp1. simpl Liver.original_verts.
  rewrite H0, H1.
  unfold Liver.integrate, Liver.spring_k, Liver.damping, Liver.mass; simpl.
  repeat split; apply (f_equal Some); apply vec_eq; simpl; lra.
Qed.

(** * Further properties of the code *)

(** ** The rest pose is a fixed point of the step *)

Lemma liver_integrate_at_rest (s : Liver.State) (dt : R) (rest : Vec3) :
  Liver.integrate s dt (LVector3 0 0 0) rest rest (LVector3 0 0 0)
  = (LVector3 0 0 0, rest).
Proof.
  unfold Liver.integrate, Liver.mass. destruct rest as [a b c].
  f_equal; apply vec_eq; simpl; field.
Qed.

Lemma nose_integrate_at_rest (s : Nose.State) (dt : R) (rest : Vec3) :
  Nose.integrate s dt (LVector3 0 0 0) rest rest (LVector3 0 0 0)
  = (LVector3 0 0 0, rest).
Proof.
  unfold Nose.integrate, Nose.mass. destruct rest as [a b c].
  f_equal; apply vec_eq; simpl; field.
Qed.

Lemma Forall_zero_lookup (l : list Vec3) (i : nat) (v : Vec3) :
  Forall (fun v => v = LVector3 0 0 0) l -> l !! i = Some v -> v = LVector3 0 0 0.
Proof. intros H Hi. exact (Forall_lookup_1 _ _ _ _ H Hi). Qed.

Lemma liver_rest_fixed (s : Liver.State) (vd : GeomVertexData)
    (dt : R) (hit_p hit_n : option Vec3) :
  liver_loaded s vd ->
  vertex vd = Liver.original_verts s ->
  Forall (fun v => v = LVector3 0 0 0) (Liver.vertex_velocities s) ->
  (forall i rest,
     Liver.original_verts s !! i = Some rest ->
     out_of_reach (Liver.active_interaction s) hit_p
                  (Liver.interaction_radius s) rest) ->
  Liver.deform_mesh s dt hit_p hit_n = Ok (s, PyNone).
Proof.
  intros Hl Hpl Hvl Hol.
  destruct (liver_deform_mesh_spec s vd dt hit_p hit_n Hl)
    as (s' & Hrun & Hov & Hlp & Hlv & Hat).
  rewrite Hrun. f_equal. f_equal.
  destruct Hl as (Hvd & Hlen & Hvel).
  pose proof Hrun as Hshape. unfold Liver.deform_mesh in Hshape.
  rewrite Hvd in Hshape.
  destruct (Liver.deform_loop _ _ _ _ _ _ _ _) as [[rows vels] | e];
    [| discriminate].
  injection Hshape as <-. simpl in Hov, Hlp, Hlv.
  cbn [Liver.vertex_velocities Liver.vdata positions vertex] in Hat.
  assert (Hrows : rows = vertex vd).
  { apply list_eq. intros i.
    destruct (vertex vd !! i) as [cur |] eqn:Ec.
    - assert (Hr : Liver.original_verts s !! i = Some cur)
        by (rewrite <- Hpl; exact Ec).
      destruct (lookup_lt_is_Some_2 (Liver.vertex_velocities s) i)
        as [vel Ev].
      { apply lookup_lt_Some in Ec. lia. }
      destruct (Hat i cur cur vel Ec Hr Ev) as [_ Hp].
      rewrite Hp.
      rewrite (liver_ext_force_zero s hit_p hit_n cur (Hol i cur Hr)).
      rewrite (Forall_zero_lookup _ _ _ Hvl Ev).
      rewrite liver_integrate_at_rest. reflexivity.
    - apply lookup_ge_None. apply lookup_ge_None in Ec. lia. }
  assert (Hvels : vels = Liver.vertex_velocities s).
  { apply list_eq. intros i.
    destruct (Liver.vertex_velocities s !! i) as [vel |] eqn:Ev.
    - destruct (lookup_lt_is_Some_2 (vertex vd) i) as [cur Ec].
      { apply lookup_lt_Some in Ev. lia. }
      assert (Hr : Liver.original_verts s !! i = Some cur)
        by (rewrite <- Hpl; exact Ec).
      destruct (Hat i cur cur vel Ec Hr Ev) as [Hv _].
      rewrite Hv.
      rewrite (liver_ext_force_zero s hit_p hit_n cur (Hol i cur Hr)).
      rewrite (Forall_zero_lookup _ _ _ Hvl Ev).
      rewrite liver_integrate_at_rest. reflexivity.
    - apply lookup_ge_None. apply lookup_ge_None in Ev. lia. }
  rewrite Hrows, Hvels. destruct s as [m vd0 ov vv sq md vr uf rs].
  simpl in *. subst vd0. destruct vd. reflexivity.
Qed.

Lemma nose_rest_fixed (s : Nose.State) (vd : GeomVertexData)
    (dt : R) (hit_p hit_n : option Vec3) :
  nose_loaded s vd ->
  vertex vd = Nose.original_verts s ->
  Forall (fun v => v = LVector3 0 0 0) (Nose.vertex_velocities s) ->
  (forall i rest,
     Nose.original_verts s !! i = Some rest ->
     out_of_reach (Nose.active_interaction s) hit_p
                  (Nose.interaction_radius s) rest) ->
  Nose.deform_mesh s dt hit_p hit_n = Ok (s, PyBool false).
Proof.
  intros Hn Hpn Hvn Hon.
  destruct (nose_deform_mesh_spec s vd dt hit_p hit_n Hn)
    as (s' & flag & Hrun & Hov & Hlp & Hlv & Hat & Hflag).
  rewrite Hrun.
  assert (Hzero : forall i rest c,
             Nose.original_verts s !! i = Some rest ->
             Nose.ext_force s hit_p i rest c = (LVector3 0 0 0, c)).
  { intros i rest c Hr. apply nose_ext_force_zero. exact (Hon i rest Hr). }
  assert (Hfalse : flag = false).
  { destruct flag; [| reflexivity].
    destruct (proj1 Hflag eq_refl) as (i & rest & Hr & Ht).
    pose proof (nose_ext_force_flag s hit_p i rest false) as Hf.
    rewrite (Hzero i rest false Hr) in Hf. simpl in Hf.
    rewrite Ht in Hf. discriminate. }
  rewrite Hfalse. f_equal. f_equal.
  destruct Hn as (Hvd & Hlen & Hvel).
  pose proof Hrun as Hshape. unfold Nose.deform_mesh in Hshape.
  rewrite Hvd in Hshape.
  destruct (Nose.deform_loop _ _ _ _ _ _ _ _) as [[[rows vels] fl] | e];
    [| discriminate].
  injection Hshape as <- _. simpl in Hov, Hlp, Hlv.
  cbn [Nose.vertex_velocities Nose.vdata positions vertex] in Hat.
  assert (Hrows : rows = vertex vd).
  { apply list_eq. intros i.
    destruct (vertex vd !! i) as [cur |] eqn:Ec.
    - assert (Hr : Nose.original_verts s !! i = Some cur)
        by (rewrite <- Hpn; exact Ec).
      destruct (lookup_lt_is_Some_2 (Nose.vertex_velocities s) i)
        as [vel Ev].
      { apply lookup_lt_Some in Ec. lia. }
      destruct (Hat i cur cur vel Ec Hr Ev) as [_ Hp].
      rewrite Hp. rewrite (Hzero i cur false Hr). cbn [fst].
      rewrite (Forall_zero_lookup _ _ _ Hvn Ev).
      rewrite nose_integrate_at_rest. reflexivity.
    - apply lookup_ge_None. apply lookup_ge_None in Ec. lia. }
  assert (Hvels : vels = Nose.vertex_velocities s).
  { apply list_eq. intros i.
    destruct (Nose.vertex_velocities s !! i) as [vel |] eqn:Ev.
    - destruct (lookup_lt_is_Some_2 (vertex vd) i) as [cur Ec].
      { apply lookup_lt_Some in Ev. lia. }
      assert (Hr : Nose.original_verts s !! i = Some cur)
        by (rewrite <- Hpn; exact Ec).
      destruct (Hat i cur cur vel Ec Hr Ev) as [Hv _].
      rewrite Hv. rewrite (Hzero i cur false Hr). cbn [fst].
      rewrite (Forall_zero_lookup _ _ _ Hvn Ev).
      rewrite nose_integrate_at_rest. reflexivity.
    - apply lookup_ge_None. apply lookup_ge_None in Ev. lia. }
  rewrite Hrows, Hvels.
  destruct s as [m vd0 ov on vv cl sq md vr uf rs dv].
  simpl in *. subst vd0. destruct vd. reflexivity.
Qed.

(** When every vertex of a loaded mesh sits at its rest position with
    zero velocity and no vertex is in reach of the probe, one step of
    either simulator returns the very same state: nothing drifts. *)
Theorem rest_pose_is_fixed_point
    (sl : Liver.State) (sn : Nose.State) (vdl vdn : GeomVertexData)
    (dt : R) (hit_p hit_n : option Vec3) :
  liver_loaded sl vdl ->
  nose_loaded sn vdn ->
  vertex vdl = Liver.original_verts sl ->
  vertex vdn = Nose.original_verts sn ->
  Forall (fun v => v = LVector3 0 0 0) (Liver.vertex_velocities sl) ->
  Forall (fun v => v = LVector3 0 0 0) (Nose.vertex_velocities sn) ->
  (forall i rest,
     Liver.original_verts sl !! i = Some rest ->
     out_of_reach (Liver.active_interaction sl) hit_p
                  (Liver.interaction_radius sl) rest) ->
  (forall i rest,
     Nose.original_verts sn !! i = Some rest ->
     out_of_reach (Nose.active_interaction sn) hit_p
                  (Nose.interaction_radius sn) rest) ->
  Liver.deform_mesh sl dt hit_p hit_n = Ok (sl, PyNone)
  /\ Nose.deform_mesh sn dt hit_p hit_n = Ok (sn, PyBool false).
Proof.
  intros Hl Hn Hpl Hpn Hvl Hvn Hol Hon. split.
  - exact (liver_rest_fixed sl vdl dt hit_p hit_n Hl Hpl Hvl Hol).
  - exact (nose_rest_fixed sn vdn dt hit_p hit_n Hn Hpn Hvn Hon).
Qed.

Lemma rest_pose_is_fixed_point_witness :
  Liver.deform_mesh liver_two (1/100) None None = Ok (liver_two, PyNone)
  /\ Nose.deform_mesh nose_two (1/100) None None = Ok (nose_two, PyBool false).
Proof.
  apply (rest_pose_is_fixed_point liver_two nose_two two_vertices two_vertices);
    try (repeat split; reflexivity);
    try (repeat constructor);
    intros i rest _; right; left; reflexivity.
Defined.

(** ** Once a mesh is loaded, no frame fails *)

Lemma liver_deform_step_loaded (s : Liver.State) (vd : GeomVertexData)
    (dt : R) (hit_p hit_n : option Vec3) :
  liver_loaded s vd ->
  exists s' vd', Liver.deform_mesh s dt hit_p hit_n = Ok (s', PyNone)
                 /\ liver_loaded s' vd'
                 /\ List.length (vertex vd') = List.length (vertex vd)
                 /\ Liver.original_verts s' = Liver.original_verts s.
Proof.
  intros Hl.
  destruct (liver_deform_mesh_spec s vd dt hit_p hit_n Hl)
    as (s' & Hrun & Hov & Hlp & Hlv & _).
  destruct Hl as (Hvd & Hlen & Hvel).
  pose proof Hrun as Hshape. unfold Liver.deform_mesh in Hshape.
  rewrite Hvd in Hshape.
  destruct (Liver.deform_loop _ _ _ _ _ _ _ _) as [[rows vels] | e];
    [| discriminate].
  injection Hshape as <-. simpl in *.
  eexists _, _. split; [exact Hrun |].
  unfold liver_loaded; simpl.
  split; [split; [reflexivity | split; simpl; lia] |].
  split; [exact Hlp | reflexivity].
Qed.

Lemma nose_deform_step_loaded (s : Nose.State) (vd : GeomVertexData)
    (dt : R) (hit_p hit_n : option Vec3) :
  nose_loaded s vd ->
  exists s' vd' flag,
    Nose.deform_mesh s dt hit_p hit_n = Ok (s', PyBool flag)
    /\ nose_loaded s' vd'
    /\ List.length (vertex vd') = List.length (vertex vd)
    /\ Nose.original_verts s' = Nose.original_verts s
    /\ Nose.original_normals s' = Nose.original_normals s.
Proof.
  intros Hl.
  destruct (nose_deform_mesh_spec s vd dt hit_p hit_n Hl)
    as (s' & flag & Hrun & Hov & Hlp & Hlv & _).
  destruct Hl as (Hvd & Hlen & Hvel).
  pose proof Hrun as Hshape. unfold Nose.deform_mesh in Hshape.
  rewrite Hvd in Hshape.
  destruct (Nose.deform_loop _ _ _ _ _ _ _ _) as [[[rows vels] fl] | e];
    [| discriminate].
  injection Hshape as <- <-. simpl in *.
  eexists _, _, _. split; [exact Hrun |].
  unfold nose_loaded; simpl.
  split; [split; [reflexivity | split; simpl; lia] |].
  split; [exact Hlp |]. split; reflexivity.
Qed.

Lemma liver_frames_loaded (frames : list (R * option Vec3 * option Vec3)) :
  forall (s : Liver.State) (vd : GeomVertexData),
    liver_loaded s vd ->
    exists s' vd', liver_frames s frames = Ok s'
                   /\ liver_loaded s' vd'
                   /\ List.length (vertex vd') = List.length (vertex vd)
                   /\ Liver.original_verts s' = Liver.original_verts s.
Proof.
  induction frames as [| [[dt hit_p] hit_n] frames IH]; intros s vd Hl.
  - exists s, vd. repeat split; try reflexivity; apply Hl.
  - destruct (liver_deform_step_loaded s vd dt hit_p hit_n Hl)
      as (s1 & vd1 & Hrun & Hl1 & Hlen1 & Hov1).
    destruct (IH s1 vd1 Hl1) as (s2 & vd2 & Hrun2 & Hl2 & Hlen2 & Hov2).
    exists s2, vd2. simpl. rewrite Hrun.
    split; [exact Hrun2 |]. split; [exact Hl2 |].
    split; congruence.
Qed.

Lemma nose_frames_loaded (frames : list (R * option Vec3 * option Vec3)) :
  forall (s : Nose.State) (vd : GeomVertexData),
    nose_loaded s vd ->
    exists s' vd', nose_frames s frames = Ok s'
                   /\ nose_loaded s' vd'
                   /\ List.length (vertex vd') = List.length (vertex vd)
                   /\ Nose.original_verts s' = Nose.original_verts s
                   /\ Nose.original_normals s' = Nose.original_normals s.
Proof.
  induction frames as [| [[dt hit_p] hit_n] frames IH]; intros s vd Hl.
  - exists s, vd. repeat split; try reflexivity; apply Hl.
  - destruct (nose_deform_step_loaded s vd dt hit_p hit_n Hl)
      as (s1 & vd1 & fl & Hrun & Hl1 & Hlen1 & Hov1 & Hon1).
    destruct (IH s1 vd1 Hl1)
      as (s2 & vd2 & Hrun2 & Hl2 & Hlen2 & Hov2 & Hon2).
    exists s2, vd2. simpl. rewrite Hrun.
    split; [exact Hrun2 |]. split; [exact Hl2 |].
    repeat split; congruence.
Qed.

(** After [extract_vertex_data] has loaded a model that has a geometry
    node, any run of frames succeeds, whatever the time steps and probes;
    the vertex count stays that of the model and the rest positions (and
    the rest normals of the nose) stay those read at load. *)
Theorem frames_after_load_never_fail
    (sl : Liver.State) (sn : Nose.State) (ml mn : NodePath)
    (vdl vdn : GeomVertexData)
    (frames : list (R * option Vec3 * option Vec3)) :
  Liver.liver_model sl = Some ml -> geom_node ml = Some vdl ->
  Nose.nose_model sn = Some mn -> geom_node mn = Some vdn ->
  (exists s1 s2,
     Liver.extract_vertex_data sl = Ok (s1, PyNone)
     /\ liver_frames s1 frames = Ok s2
     /\ Liver.original_verts s2 = vertex vdl
     /\ List.length (positions (Liver.vdata s2)) = List.length (vertex vdl)
     /\ List.length (Liver.vertex_velocities s2) = List.length (vertex vdl))
  /\ (exists s1 s2,
        Nose.extract_vertex_data sn = Ok (s1, PyNone)
        /\ nose_frames s1 frames = Ok s2
        /\ Nose.original_verts s2 = vertex vdn
        /\ Nose.original_normals s2
           = padded_normals (List.length (vertex vdn)) (normal vdn)
        /\ List.length (positions (Nose.vdata s2)) = List.length (vertex vdn)
        /\ List.length (Nose.vertex_velocities s2) = List.length (vertex vdn)).
Proof.
  intros Hml Hgl Hmn Hgn. split.
  - destruct (liver_extract_spec sl ml vdl Hml Hgl)
      as (s1 & Hrun & Hvd & Hov & Hvel).
    assert (Hl : liver_loaded s1 vdl).
    { unfold liver_loaded. rewrite Hvd, Hov, Hvel, length_replicate.
      repeat split. }
    destruct (liver_frames_loaded frames s1 vdl Hl)
      as (s2 & vd2 & Hrun2 & (Hvd2 & Hlen2 & Hvel2) & Hsame & Hov2).
    exists s1, s2. split; [exact Hrun |]. split; [exact Hrun2 |].
    rewrite Hvd2. simpl. rewrite Hov2, Hov.
    split; [reflexivity |]. split; [exact Hsame |].
    rewrite Hvel2, Hov2, Hov. reflexivity.
  - destruct (nose_extract_spec sn mn vdn Hmn Hgn)
      as (s1 & Hrun & Hvd & Hov & Hon & Hvel & _).
    assert (Hl : nose_loaded s1 vdn).
    { unfold nose_loaded. rewrite Hvd, Hov, Hvel, length_replicate.
      repeat split. }
    destruct (nose_frames_loaded frames s1 vdn Hl)
      as (s2 & vd2 & Hrun2 & (Hvd2 & Hlen2 & Hvel2) & Hsame & Hov2 & Hon2).
    exists s1, s2. split; [exact Hrun |]. split; [exact Hrun2 |].
    rewrite Hvd2. simpl. rewrite Hov2, Hov, Hon2, Hon.
    split; [reflexivity |]. split; [reflexivity |]. split; [exact Hsame |].
    rewrite Hvel2, Hov2, Hov. reflexivity.
Qed.

Lemma frames_after_load_never_fail_witness :
  let frames :=
    [ (1/100, Some (LVector3 10 0 0), Some (LVector3 0 0 1));
      (5/100, None, None);
      (2/100, Some (LVector3 1 0 0), None) ] in
  (exists s1 s2,
     Liver.extract_vertex_data (liver_install Liver.init (mkModel (Some two_vertices)))
     = Ok (s1, PyNone)
     /\ liver_frames s1 frames = Ok s2
     /\ Liver.original_verts s2 = vertex two_vertices
     /\ List.length (positions (Liver.vdata s2)) = List.length (vertex two_vertices)
     /\ List.length (Liver.vertex_velocities s2)
        = List.length (vertex two_vertices))
  /\ (exists s1 s2,
        Nose.extract_vertex_data
          (nose_install Nose.init (mkModel (Some one_normal_short)))
        = Ok (s1, PyNone)
        /\ nose_frames s1 frames = Ok s2
        /\ Nose.original_verts s2 = vertex one_normal_short
        /\ Nose.original_normals s2
           = padded_normals (List.length (vertex one_normal_short))
                            (normal one_normal_short)
        /\ List.length (positions (Nose.vdata s2))
           = List.length (vertex one_normal_short)
        /\ List.length (Nose.vertex_velocities s2)
           = List.length (vertex one_normal_short)).
Proof.
  apply (frames_after_load_never_fail
           (liver_install Liver.init (mkModel (Some two_vertices)))
           (nose_install Nose.init (mkModel (Some one_normal_short)))
           (mkModel (Some two_vertices)) (mkModel (Some one_normal_short)));
    reflexivity.
Defined.

(** ** A rest or velocity list shorter than the vertex rows *)





(** ** No contact, no external force *)

Lemma nose_untouched_no_force (s : Nose.State) (hit_p : option Vec3)
    (i : nat) (rest : Vec3) (c : bool) :
  nose_touched s hit_p rest = false ->
  Nose.ext_force s hit_p i rest c = (LVector3 0 0 0, c).
Proof.
  unfold nose_touched, Nose.ext_force.
  destruct (Nose.active_interaction s); [| reflexivity].
  destruct hit_p as [p |]; [| reflexivity]. simpl.
  intros ->. reflexivity.
Qed.

(** When a nose step on a loaded mesh reports no contact, no vertex
    received an external force in that step: the mesh moved under its
    springs and dampers alone. *)
Theorem nose_no_contact_no_force
    (s s' : Nose.State) (vd : GeomVertexData) (dt : R)
    (hit_p hit_n : option Vec3) :
  nose_loaded s vd ->
  Nose.deform_mesh s dt hit_p hit_n = Ok (s', PyBool false) ->
  forall (i : nat) (rest : Vec3) (c : bool),
    Nose.original_verts s !! i = Some rest ->
    Nose.ext_force s hit_p i rest c = (LVector3 0 0 0, c).
Proof.
  intros Hl Hrun i rest c Hr.
  destruct (nose_deform_mesh_spec s vd dt hit_p hit_n Hl)
    as (s1 & flag & Hrun1 & _ & _ & _ & _ & Hflag).
  rewrite Hrun in Hrun1. injection Hrun1 as _ <-.
  apply nose_untouched_no_force.
  destruct (nose_touched s hit_p rest) eqn:Ht; [| reflexivity].
  assert (false = true) by (apply Hflag; exists i, rest; split; assumption).
  discriminate.
Qed.

Lemma nose_two_idle_step :
  Nose.deform_mesh nose_two (1/100) None None = Ok (nose_two, PyBool false).
Proof.
  apply (nose_rest_fixed nose_two two_vertices).
  - repeat split; reflexivity.
  - reflexivity.
  - repeat constructor.
  - intros i rest _; right; left; reflexivity.
Qed.

Lemma nose_no_contact_no_force_witness :
  Nose.ext_force nose_two None 1 (LVector3 10 0 0) true
  = (LVector3 0 0 0, true).
Proof.
  apply (nose_no_contact_no_force nose_two nose_two two_vertices (1/100)
                                  None None).
  - repeat split; reflexivity.
  - exact nose_two_idle_step.
  - reflexivity.
Defined.

(** ** How strong the external force can be *)





Lemma liver_radius_pos (s : Liver.State) : 2 <= Liver.interaction_radius s.
Proof.
  unfold Liver.interaction_radius.
  destruct (String.eqb _ _), (Liver.vr_mode_active s); lra.
Qed.

Lemma nose_radius_pos (s : Nose.State) : 2 <= Nose.interaction_radius s.
Proof.
  unfold Nose.interaction_radius.
  destruct (String.eqb _ _), (Nose.vr_mode_active s); lra.
Qed.

Lemma div_nonneg (a b : R) : 0 <= a -> 0 < b -> 0 <= a / b.
Proof.
  intros Ha Hb. apply Rmult_le_pos; [exact Ha |].
  left. apply Rinv_0_lt_compat. exact Hb.
Qed.








(** ** Nearer vertices are pushed harder *)

Lemma cubic_falloff_decreasing (d1 d2 r : R) :
  0 <= d1 -> d1 < d2 -> d2 < r ->
  0 < (1 - d2 / r) ^ 3 < (1 - d1 / r) ^ 3.
Proof.
  intros H0 H12 H2r.
  assert (Hr : 0 < r) by lra.
  assert (Hinv : 0 < / r) by (apply Rinv_0_lt_compat; exact Hr).
  assert (Hlt : d1 / r < d2 / r) by (unfold Rdiv; nra).
  assert (H2 : d2 / r < 1).
  { apply (Rmult_lt_reg_r r); [exact Hr |].
    unfold Rdiv. rewrite Rmult_assoc, Rinv_l by lra. lra. }
  set (u1 := 1 - d1 / r). set (u2 := 1 - d2 / r).
  assert (Hu : 0 < u2 < u1) by (unfold u1, u2; lra).
  replace (u1 ^ 3) with (u1 * (u1 * u1)) by ring.
  replace (u2 ^ 3) with (u2 * (u2 * u2)) by ring.
  assert (0 < u2 * u2) by nra.
  assert (u2 * u2 < u1 * u1) by nra.
  split; nra.
Qed.

Lemma gaussian_falloff_decreasing (d1 d2 sigma : R) :
  0 <= d1 -> d1 < d2 -> sigma <> 0 ->
  exp (- (d2 * d2) / (2 * sigma * sigma))
  < exp (- (d1 * d1) / (2 * sigma * sigma)).
Proof.
  intros H0 H12 Hs. apply exp_increasing.
  assert (Hpos : 0 < 2 * sigma * sigma) by nra.
  assert (Hinv : 0 < / (2 * sigma * sigma))
    by (apply Rinv_0_lt_compat; exact Hpos).
  assert (Hsq : d1 * d1 < d2 * d2) by nra.
  unfold Rdiv. apply Rmult_lt_compat_r; [exact Hinv | lra].
Qed.

(** Of two vertices inside the interaction radius, the one nearer to
    the probe gets the larger push along its direction: the factor on
    the negated contact normal (liver, mouse picking) and on the negated
    rest normal (nose) strictly decreases with the distance, and stays
    positive, when the force setting is positive. *)
Theorem nearer_vertex_is_pushed_harder
    (sl : Liver.State) (sn : Nose.State) (p n : Vec3)
    (rest1 rest2 : Vec3) (i1 i2 : nat) (n1 n2 : Vec3) (c : bool) :
  Liver.vr_mode_active sl = false ->
  Liver.is_squeezing sl = true ->
  Nose.active_interaction sn = true ->
  0 < Liver.user_force sl ->
  0 < Nose.user_force sn ->
  Nose.original_normals sn !! i1 = Some n1 ->
  Nose.original_normals sn !! i2 = Some n2 ->
  LVector3.length (rest1 - p)%V < LVector3.length (rest2 - p)%V ->
  LVector3.length (rest2 - p)%V < Liver.interaction_radius sl ->
  LVector3.length (rest2 - p)%V < Nose.interaction_radius sn ->
  (exists k1 k2 : R,
     Liver.ext_force sl (Some p) (Some n) rest1 = (- n * k1)%V
     /\ Liver.ext_force sl (Some p) (Some n) rest2 = (- n * k2)%V
     /\ 0 < k2 < k1)
  /\ (exists k1 k2 : R,
        fst (Nose.ext_force sn (Some p) i1 rest1 c) = (- n1 * k1)%V
        /\ fst (Nose.ext_force sn (Some p) i2 rest2 c) = (- n2 * k2)%V
        /\ 0 < k2 < k1).
Proof.
  intros Hvr Hsq Ha HFl HFn Hn1 Hn2 H12 H2l H2n.
  pose proof (length_nonneg (rest1 - p)%V) as H0.
  split.
  - exists (Liver.user_force sl * 1.2
            * (1 - LVector3.length (rest1 - p)%V
                   / Liver.interaction_radius sl) ^ 3),
           (Liver.user_force sl * 1.2
            * (1 - LVector3.length (rest2 - p)%V
                   / Liver.interaction_radius sl) ^ 3).
    rewrite (liver_ext_force_pick sl p rest1 (Some n) Hvr Hsq) by lra.
    rewrite (liver_ext_force_pick sl p rest2 (Some n) Hvr Hsq) by lra.
    split; [apply vec_eq; simpl; ring |].
    split; [apply vec_eq; simpl; ring |].
    pose proof (cubic_falloff_decreasing _ _ _ H0 H12 H2l) as [Hk2 Hk].
    split; nra.
  - pose proof (nose_radius_pos sn) as Hr.
    exists (Nose.user_force sn * 1.5
            * exp (- (LVector3.length (rest1 - p)%V
                      * LVector3.length (rest1 - p)%V)
                   / (2 * (Nose.interaction_radius sn / 3)
                      * (Nose.interaction_radius sn / 3)))),
           (Nose.user_force sn * 1.5
            * exp (- (LVector3.length (rest2 - p)%V
                      * LVector3.length (rest2 - p)%V)
                   / (2 * (Nose.interaction_radius sn / 3)
                      * (Nose.interaction_radius sn / 3)))).
    rewrite (nose_ext_force_normal sn p rest1 n1 i1 c Ha Hn1) by lra.
    rewrite (nose_ext_force_normal sn p rest2 n2 i2 c Ha Hn2) by lra.
    cbn [fst].
    split; [apply vec_eq; simpl; ring |].
    split; [apply vec_eq; simpl; ring |].
    pose proof (gaussian_falloff_decreasing _ _ (Nose.interaction_radius sn / 3)
                  H0 H12 ltac:(lra)) as Hk.
    pose proof (exp_pos (- (LVector3.length (rest2 - p)%V
                            * LVector3.length (rest2 - p)%V)
                         / (2 * (Nose.interaction_radius sn / 3)
                            * (Nose.interaction_radius sn / 3)))) as Hk2.
    split; nra.
Qed.

Lemma nearer_vertex_is_pushed_harder_witness :
  (exists k1 k2 : R,
     Liver.ext_force liver_two (Some (LVector3 0 0 0)) (Some (LVector3 0 0 1))
                     (LVector3 0 0 0) = (- LVector3 0 0 1 * k1)%V
     /\ Liver.ext_force liver_two (Some (LVector3 0 0 0)) (Some (LVector3 0 0 1))
                        (LVector3 (-1) 0 0) = (- LVector3 0 0 1 * k2)%V
     /\ 0 < k2 < k1)
  /\ (exists k1 k2 : R,
        fst (Nose.ext_force nose_two (Some (LVector3 0 0 0)) 0
                            (LVector3 0 0 0) false) = (- LVector3 0 0 1 * k1)%V
        /\ fst (Nose.ext_force nose_two (Some (LVector3 0 0 0)) 1
                               (LVector3 (-1) 0 0) false)
           = (- LVector3 0 0 1 * k2)%V
        /\ 0 < k2 < k1).
Proof.
  assert (H1 : LVector3.length (LVector3 (-1) 0 0 - LVector3 0 0 0)%V = 1).
  { unfold LVector3.length, LVector3.length_squared; simpl.
    replace (_ + _ + _) with 1 by ring. apply sqrt_1. }
  apply (nearer_vertex_is_pushed_harder liver_two nose_two
           (LVector3 0 0 0) (LVector3 0 0 1)
           (LVector3 0 0 0) (LVector3 (-1) 0 0) 0 1
           (LVector3 0 0 1) (LVector3 0 0 1) false);
    try reflexivity;
    rewrite ?H1, ?length_sub_self;
    unfold Liver.interaction_radius, Nose.interaction_radius; simpl; lra.
Defined.

(** ** Keys *)

(** Pressing a key makes [is_pressed] true for it, releasing it makes
    [is_pressed] false, no other key is affected either way, and
    releasing a key that is not pressed changes nothing (the set's
    [discard] raises no error).  The same holds in both applications. *)
Theorem keys_round_trip
    (al : LiverApp.t) (an : NoseApp.t) (key other : string) (status : bool) :
  LiverApp.is_pressed (LiverApp.register_key al key true) key = true
  /\ LiverApp.is_pressed (LiverApp.register_key al key false) key = false
  /\ (other <> key ->
      LiverApp.is_pressed (LiverApp.register_key al key status) other
      = LiverApp.is_pressed al other)
  /\ (LiverApp.is_pressed al key = false ->
      LiverApp.keys_pressed (LiverApp.register_key al key false)
      = LiverApp.keys_pressed al)
  /\ NoseApp.is_pressed (NoseApp.register_key an key true) key = true
  /\ NoseApp.is_pressed (NoseApp.register_key an key false) key = false
  /\ (other <> key ->
      NoseApp.is_pressed (NoseApp.register_key an key status) other
      = NoseApp.is_pressed an other)
  /\ (NoseApp.is_pressed an key = false ->
      NoseApp.keys_pressed (NoseApp.register_key an key false)
      = NoseApp.keys_pressed an).
Proof.
  unfold LiverApp.is_pressed, LiverApp.register_key,
    NoseApp.is_pressed, NoseApp.register_key; simpl.
  repeat split.
  - apply bool_decide_eq_true. set_solver.
  - apply bool_decide_eq_false. set_solver.
  - intros Hne. apply bool_decide_ext. destruct status; set_solver.
  - intros Hk. apply bool_decide_eq_false in Hk. set_solver.
  - apply bool_decide_eq_true. set_solver.
  - apply bool_decide_eq_false. set_solver.
  - intros Hne. apply bool_decide_ext. destruct status; set_solver.
  - intros Hk. apply bool_decide_eq_false in Hk. set_solver.
Qed.

Lemma keys_round_trip_witness :
  LiverApp.is_pressed
    (LiverApp.register_key (LiverApp.register_key (liver_app Liver.init) "w" true)
                           "s" true) "w" = true
  /\ NoseApp.keys_pressed (NoseApp.register_key (nose_app Nose.init) "q" false)
     = NoseApp.keys_pressed (nose_app Nose.init).
Proof.
  split.
  - rewrite (proj1 (proj2 (proj2 (keys_round_trip
               (LiverApp.register_key (liver_app Liver.init) "w" true)
               (nose_app Nose.init) "s" "w" true)))).
    + apply (proj1 (keys_round_trip (liver_app Liver.init)
                                    (nose_app Nose.init) "w" "w" true)).
    + discriminate.
  - apply (proj2 (proj2 (proj2 (proj2 (proj2 (proj2 (proj2
             (keys_round_trip (liver_app Liver.init) (nose_app Nose.init)
                              "q" "q" true)))))))).
    reflexivity.
Defined.

(** ** The emulated VR hand *)




(** ** Switching the VR hand *)

(** [toggle_vr_mode] leaves the physics flag [vr_mode_active] equal to
    the hand's [active] flag, whatever the two were before, flips the
    hand, shows the hand exactly when it is active, makes the
    interaction active without any click when the hand comes on, and
    touches no vertex array; toggling twice gives the hand's flag back.
    The same holds in both applications. *)
Theorem toggle_vr_mode_flags (al : LiverApp.t) (an : NoseApp.t) :
  let al' := LiverApp.toggle_vr_mode al in
  let an' := NoseApp.toggle_vr_mode an in
  (Liver.vr_mode_active (LiverApp.sim al')
   = VRHandEmulator.active (LiverApp.vr_hand al')
   /\ VRHandEmulator.active (LiverApp.vr_hand al')
      = negb (VRHandEmulator.active (LiverApp.vr_hand al))
   /\ VRHandEmulator.hidden (LiverApp.vr_hand al')
      = negb (VRHandEmulator.active (LiverApp.vr_hand al'))
   /\ (VRHandEmulator.active (LiverApp.vr_hand al) = false ->
       Liver.active_interaction (LiverApp.sim al') = true)
   /\ Liver.vdata (LiverApp.sim al') = Liver.vdata (LiverApp.sim al)
   /\ Liver.original_verts (LiverApp.sim al')
      = Liver.original_verts (LiverApp.sim al)
   /\ Liver.vertex_velocities (LiverApp.sim al')
      = Liver.vertex_velocities (LiverApp.sim al)
   /\ Liver.vr_mode_active (LiverApp.sim (LiverApp.toggle_vr_mode al'))
      = VRHandEmulator.active (LiverApp.vr_hand al))
  /\ (Nose.vr_mode_active (NoseApp.sim an')
      = VRHandEmulator.active (NoseApp.vr_hand an')
      /\ VRHandEmulator.active (NoseApp.vr_hand an')
         = negb (VRHandEmulator.active (NoseApp.vr_hand an))
      /\ VRHandEmulator.hidden (NoseApp.vr_hand an')
         = negb (VRHandEmulator.active (NoseApp.vr_hand an'))
      /\ (VRHandEmulator.active (NoseApp.vr_hand an) = false ->
          Nose.active_interaction (NoseApp.sim an') = true)
      /\ Nose.vdata (NoseApp.sim an') = Nose.vdata (NoseApp.sim an)
      /\ Nose.original_verts (NoseApp.sim an')
         = Nose.original_verts (NoseApp.sim an)
      /\ Nose.vertex_velocities (NoseApp.sim an')
         = Nose.vertex_velocities (NoseApp.sim an)
      /\ Nose.vr_mode_active (NoseApp.sim (NoseApp.toggle_vr_mode an'))
         = VRHandEmulator.active (NoseApp.vr_hand an)).
Proof.
  cbv zeta.
  unfold LiverApp.toggle_vr_mode, NoseApp.toggle_vr_mode,
    VRHandEmulator.toggle, Liver.active_interaction, Nose.active_interaction.
  simpl.
  destruct (VRHandEmulator.active (LiverApp.vr_hand al)),
    (VRHandEmulator.active (NoseApp.vr_hand an));
    simpl; repeat split; intros; try reflexivity; try discriminate.
Qed.

(** ** Frames *)

Lemma Rmin_clamped (dt : R) : 0.05 <= dt -> Rmin dt 0.05 = 0.05.
Proof. intros H. apply Rmin_right. exact H. Qed.

(** A frame never integrates more than 0.05 of time: two frames that
    both took 0.05 or longer have exactly the same outcome, in both
    applications and whatever the other inputs. *)
Theorem long_frames_are_clamped
    (al : LiverApp.t) (an : NoseApp.t) (dt1 dt2 : R)
    (mouse : option (R * R)) (getRelativePoint : R -> R -> Vec3 -> Vec3)
    (pick : option (Vec3 * Vec3)) :
  0.05 <= dt1 ->
  0.05 <= dt2 ->
  LiverApp.update_loop al dt1 mouse getRelativePoint pick
  = LiverApp.update_loop al dt2 mouse getRelativePoint pick
  /\ NoseApp.update_loop an dt1 mouse getRelativePoint pick
     = NoseApp.update_loop an dt2 mouse getRelativePoint pick.
Proof.
  intros H1 H2. unfold LiverApp.update_loop, NoseApp.update_loop.
  rewrite (Rmin_clamped dt1 H1), (Rmin_clamped dt2 H2).
  split; reflexivity.
Qed.

Lemma long_frames_are_clamped_witness :
  LiverApp.update_loop (liver_app liver_two) 1 (Some (0, 0)) same_space None
  = LiverApp.update_loop (liver_app liver_two) (1/2) (Some (0, 0)) same_space None
  /\ NoseApp.update_loop (nose_app nose_two) 1 (Some (0, 0)) same_space None
     = NoseApp.update_loop (nose_app nose_two) (1/2) (Some (0, 0)) same_space None.
Proof.
  apply (long_frames_are_clamped (liver_app liver_two) (nose_app nose_two)
           1 (1/2) (Some (0, 0)) same_space None); lra.
Defined.



(** ** Frames that leave the mesh alone *)



(** ** The squash sound *)



(** In the liver application the sound follows the mouse button alone:
    [set_squeeze] leaves a loaded sound playing exactly when the button
    went down, and no frame ever starts or stops it, so a contact of the
    VR hand makes no sound. *)
Theorem liver_sound_follows_button
    (al al' : LiverApp.t) (status playing : bool) (frame_dt : R)
    (mouse : option (R * R)) (getRelativePoint : R -> R -> Vec3 -> Vec3)
    (pick : option (Vec3 * Vec3)) :
  LiverApp.squash_sfx al = Some playing ->
  LiverApp.update_loop al frame_dt mouse getRelativePoint pick = Ok al' ->
  LiverApp.squash_sfx (LiverApp.set_squeeze al status) = Some status
  /\ Liver.is_squeezing (LiverApp.sim (LiverApp.set_squeeze al status)) = status
  /\ LiverApp.squash_sfx al' = Some playing.
Proof.
  intros Hsfx Hrun.
  split; [| split].
  - unfold LiverApp.set_squeeze. rewrite Hsfx.
    destruct status, playing; reflexivity.
  - reflexivity.
  - unfold LiverApp.update_loop in Hrun.
    destruct mouse as [[mx my] |].
    + destruct (Liver.liver_model (LiverApp.sim al)),
        (Liver.vdata (LiverApp.sim al));
        try (injection Hrun as <-; exact Hsfx).
      destruct (Liver.interaction_source _ _ _) as [hit_p hit_n].
      destruct (Liver.deform_mesh _ _ _ _) as [[s' v] | e]; [| discriminate].
      injection Hrun as <-. exact Hsfx.
    + injection Hrun as <-. exact Hsfx.
Qed.

Lemma liver_sound_follows_button_witness :
  LiverApp.squash_sfx (LiverApp.set_squeeze (liver_app liver_two) true)
  = Some true
  /\ Liver.is_squeezing
       (LiverApp.sim (LiverApp.set_squeeze (liver_app liver_two) true)) = true
  /\ LiverApp.squash_sfx
       (LiverApp.mkApp liver_two
          (VRHandEmulator.update VRHandEmulator.init (Rmin 1 0.05)
             (LiverApp.is_pressed (liver_app liver_two)))
          ∅ false 0 0 0 0 (Some false))
     = Some false.
Proof.
  apply (liver_sound_follows_button (liver_app liver_two) _ true false 1 None
                                    same_space None);
    reflexivity.
Defined.

(** ** Squeezing with the mouse in the nose application *)

(** While the camera is not locked [set_squeeze] is ignored altogether,
    and with the VR hand off there is no active interaction, even when
    the squeeze flag was left set earlier.  While the camera is locked
    [set_squeeze] stores the status and touches nothing else of the
    mesh. *)
Theorem nose_squeeze_needs_locked_camera (an : NoseApp.t) (status : bool) :
  (Nose.camera_locked (NoseApp.sim an) = false ->
   NoseApp.set_squeeze an status = an
   /\ (Nose.vr_mode_active (NoseApp.sim an) = false ->
       Nose.active_interaction (NoseApp.sim (NoseApp.set_squeeze an status))
       = false))
  /\ (Nose.camera_locked (NoseApp.sim an) = true ->
      let an' := NoseApp.set_squeeze an status in
      Nose.is_squeezing (NoseApp.sim an') = status
      /\ (Nose.active_interaction (NoseApp.sim an')
          = Nose.vr_mode_active (NoseApp.sim an) || status)
      /\ Nose.vdata (NoseApp.sim an') = Nose.vdata (NoseApp.sim an)
      /\ Nose.original_verts (NoseApp.sim an')
         = Nose.original_verts (NoseApp.sim an)
      /\ Nose.vertex_velocities (NoseApp.sim an')
         = Nose.vertex_velocities (NoseApp.sim an)).
Proof.
  unfold NoseApp.set_squeeze, Nose.active_interaction. split.
  - intros Hcl. rewrite Hcl. simpl. split; [reflexivity |].
    intros Hvr. rewrite Hvr, Hcl. apply andb_false_r.
  - intros Hcl. rewrite Hcl. simpl.
    split; [reflexivity |]. split; [| repeat split].
    rewrite andb_true_r. reflexivity.
Qed.

Lemma nose_squeeze_needs_locked_camera_witness :
  NoseApp.set_squeeze (NoseApp.toggle_camera_lock (nose_app nose_two)) true
  = NoseApp.toggle_camera_lock (nose_app nose_two)
  /\ Nose.is_squeezing
       (NoseApp.sim (NoseApp.set_squeeze (nose_app nose_two) false)) = false.
Proof.
  split.
  - apply (proj1 (nose_squeeze_needs_locked_camera
                    (NoseApp.toggle_camera_lock (nose_app nose_two)) true)).
    reflexivity.
  - apply (proj2 (nose_squeeze_needs_locked_camera (nose_app nose_two) false)).
    reflexivity.
Defined.

(** A button release that arrives while the camera is unlocked is lost.
    Starting with the camera locked: press, unlock the camera, release,
    lock the camera again.  The release changed nothing, so the squeeze
    flag is still set and the mouse interaction is active again although
    no button is held. *)
Theorem nose_release_while_unlocked_is_lost (an : NoseApp.t) :
  Nose.camera_locked (NoseApp.sim an) = true ->
  let pressed := NoseApp.set_squeeze an true in
  let unlocked := NoseApp.toggle_camera_lock pressed in
  let released := NoseApp.set_squeeze unlocked false in
  let relocked := NoseApp.toggle_camera_lock released in
  released = unlocked
  /\ Nose.is_squeezing (NoseApp.sim relocked) = true
  /\ Nose.camera_locked (NoseApp.sim relocked) = true
  /\ Nose.active_interaction (NoseApp.sim relocked) = true
  /\ (Nose.vr_mode_active (NoseApp.sim an) = false ->
      Nose.active_interaction (NoseApp.sim unlocked) = false).
Proof.
  intros Hcl. cbv zeta.
  unfold NoseApp.set_squeeze, NoseApp.toggle_camera_lock,
    Nose.active_interaction.
  rewrite Hcl. simpl.
  split; [reflexivity |]. split; [reflexivity |]. split; [reflexivity |].
  split.
  - apply orb_true_r.
  - intros ->. reflexivity.
Qed.

Lemma nose_release_while_unlocked_is_lost_witness :
  let pressed := NoseApp.set_squeeze (nose_app nose_two) true in
  let unlocked := NoseApp.toggle_camera_lock pressed in
  let released := NoseApp.set_squeeze unlocked false in
  let relocked := NoseApp.toggle_camera_lock released in
  released = unlocked
  /\ Nose.is_squeezing (NoseApp.sim relocked) = true
  /\ Nose.camera_locked (NoseApp.sim relocked) = true
  /\ Nose.active_interaction (NoseApp.sim relocked) = true
  /\ (Nose.vr_mode_active (NoseApp.sim (nose_app nose_two)) = false ->
      Nose.active_interaction (NoseApp.sim unlocked) = false).
Proof.
  apply (nose_release_while_unlocked_is_lost (nose_app nose_two)).
  reflexivity.
Defined.

(** ** Centring and scaling an imported model *)

Lemma Rmin_affine (a b s p : R) :
  0 <= s -> Rmin (a * s + p) (b * s + p) = Rmin a b * s + p.
Proof.
  intros Hs. unfold Rmin.
  destruct (Rle_dec (a * s + p) (b * s + p)), (Rle_dec a b); nra.
Qed.

Lemma Rmax_affine (a b s p : R) :
  0 <= s -> Rmax (a * s + p) (b * s + p) = Rmax a b * s + p.
Proof.
  intros Hs. unfold Rmax.
  destruct (Rle_dec (a * s + p) (b * s + p)), (Rle_dec a b); nra.
Qed.

Lemma Rmax_scale (a b s : R) : 0 <= s -> Rmax (a * s) (b * s) = Rmax a b * s.
Proof.
  intros Hs. unfold Rmax.
  destruct (Rle_dec (a * s) (b * s)), (Rle_dec a b); nra.
Qed.

Lemma bounds_in_box (vs : list Vec3) :
  forall lo hi,
    LoadAsset.getTightBounds vs = Some (lo, hi) ->
    in_box lo hi lo /\ in_box lo hi hi
    /\ forall v, v ∈ vs -> in_box lo hi v.
Proof.
  induction vs as [| v vs IH]; intros lo hi Hb; [discriminate |].
  simpl in Hb.
  destruct (LoadAsset.getTightBounds vs) as [[lo' hi'] |] eqn:E.
  - injection Hb as <- <-.
    destruct (IH lo' hi' eq_refl) as (Hlo & Hhi & Hall).
    unfold in_box, LoadAsset.vmin, LoadAsset.vmax in *; simpl.
    assert (Hv : forall a b, Rmin a b <= a /\ Rmin a b <= b
                             /\ a <= Rmax a b /\ b <= Rmax a b).
    { intros a b. repeat split;
        [apply Rmin_l | apply Rmin_r | apply Rmax_l | apply Rmax_r]. }
    pose proof (Hv (LVector3.x v) (LVector3.x lo')).
    pose proof (Hv (LVector3.y v) (LVector3.y lo')).
    pose proof (Hv (LVector3.z v) (LVector3.z lo')).
    pose proof (Hv (LVector3.x v) (LVector3.x hi')).
    pose proof (Hv (LVector3.y v) (LVector3.y hi')).
    pose proof (Hv (LVector3.z v) (LVector3.z hi')).
    split; [| split].
    + repeat split; lra.
    + repeat split; lra.
    + intros w Hw. apply elem_of_cons in Hw as [-> | Hw].
      * repeat split; lra.
      * specialize (Hall w Hw). repeat split; lra.
  - injection Hb as <- <-.
    destruct vs as [| w vs']; [| simpl in E;
      destruct (LoadAsset.getTightBounds vs') as [[? ?] |]; discriminate].
    unfold in_box. split; [| split].
    + repeat split; lra.
    + repeat split; lra.
    + intros w Hw. apply elem_of_cons in Hw as [-> | Hw].
      * repeat split; lra.
      * apply elem_of_nil in Hw. contradiction.
Qed.

Lemma bounds_of_affine (s : R) (pos : Vec3) (vs : list Vec3) :
  0 <= s ->
  forall lo hi,
    LoadAsset.getTightBounds vs = Some (lo, hi) ->
    LoadAsset.getTightBounds (List.map (fun v => (v * s + pos)%V) vs)
    = Some ((lo * s + pos)%V, (hi * s + pos)%V).
Proof.
  intros Hs. induction vs as [| v vs IH]; intros lo hi Hb; [discriminate |].
  simpl in Hb. simpl.
  destruct (LoadAsset.getTightBounds vs) as [[lo' hi'] |] eqn:E.
  - injection Hb as <- <-. rewrite (IH lo' hi' eq_refl).
    f_equal. f_equal; apply vec_eq; simpl;
      rewrite ?Rmin_affine, ?Rmax_affine by exact Hs; reflexivity.
  - injection Hb as <- <-.
    destruct vs as [| w vs']; [reflexivity |].
    simpl in E. destruct (LoadAsset.getTightBounds vs') as [[? ?] |];
      discriminate.
Qed.

Lemma max_dim_nonneg (vs : list Vec3) (lo hi : Vec3) :
  LoadAsset.getTightBounds vs = Some (lo, hi) -> 0 <= max_dim lo hi.
Proof.
  intros Hb. destruct (bounds_in_box vs lo hi Hb) as ((Hx & _) & _).
  unfold max_dim; simpl.
  pose proof (Rmax_l (LVector3.x hi - LVector3.x lo)
                (Rmax (LVector3.y hi - LVector3.y lo)
                      (LVector3.z hi - LVector3.z lo))).
  lra.
Qed.

Lemma max_dim_affine (lo hi pos : Vec3) (s : R) :
  0 <= s -> max_dim (lo * s + pos)%V (hi * s + pos)%V = max_dim lo hi * s.
Proof.
  intros Hs. destruct lo as [lx ly lz], hi as [hx hy hz], pos as [px py pz].
  unfold max_dim; simpl.
  replace (hx * s + px - (lx * s + px)) with ((hx - lx) * s) by ring.
  replace (hy * s + py - (ly * s + py)) with ((hy - ly) * s) by ring.
  replace (hz * s + pz - (lz * s + pz)) with ((hz - lz) * s) by ring.
  rewrite !Rmax_scale by exact Hs. reflexivity.
Qed.

(** An imported model whose vertices are not all in one point is scaled
    and centred so that its bounding box is centred on the origin and
    its largest extent is exactly 10: every vertex ends up in the cube
    from (-5,-5,-5) to (5,5,5), and the vertex count is unchanged. *)
Theorem imported_model_fits_the_cube (vs : list Vec3) (lo hi : Vec3) :
  LoadAsset.getTightBounds vs = Some (lo, hi) ->
  max_dim lo hi <> 0 ->
  exists (vs' : list Vec3) (lo' hi' : Vec3),
    LoadAsset.center_and_scale vs = LoadAsset.Flattened vs'
    /\ List.length vs' = List.length vs
    /\ LoadAsset.getTightBounds vs' = Some (lo', hi')
    /\ (lo' + hi')%V = LVector3 0 0 0
    /\ max_dim lo' hi' = 10
    /\ forall v, v ∈ vs' ->
                 in_box (LVector3 (-5) (-5) (-5)) (LVector3 5 5 5) v.
Proof.
  intros Hb Hne.
  pose proof (max_dim_nonneg vs lo hi Hb) as Hge.
  assert (Hpos : 0 < max_dim lo hi) by lra.
  assert (Hs : 0 < 10 / max_dim lo hi)
    by (apply Rdiv_lt_0_compat; lra).
  set (s := 10 / max_dim lo hi) in *.
  set (pos := (- ((lo + hi) / 2) * s)%V).
  assert (Hsm : max_dim lo hi * s = 10) by (unfold s; field; lra).
  assert (Hrun : LoadAsset.center_and_scale vs
                 = LoadAsset.Flattened
                     (List.map (fun v => (v * s + pos)%V) vs)).
  { unfold LoadAsset.center_and_scale. rewrite Hb.
    fold (max_dim lo hi).
    destruct (Req_dec_T (max_dim lo hi) 0) as [E | _]; [contradiction |].
    reflexivity. }
  pose proof (bounds_of_affine s pos vs ltac:(lra) lo hi Hb) as Hb'.
  assert (Hmax : max_dim (lo * s + pos)%V (hi * s + pos)%V = 10).
  { rewrite max_dim_affine by lra. exact Hsm. }
  assert (Hsym : ((lo * s + pos) + (hi * s + pos))%V = LVector3 0 0 0).
  { unfold pos. apply vec_eq; simpl; field. }
  exists (List.map (fun v => (v * s + pos)%V) vs),
         (lo * s + pos)%V, (hi * s + pos)%V.
  split; [exact Hrun |]. split; [apply length_map |].
  split; [exact Hb' |]. split; [exact Hsym |]. split; [exact Hmax |].
  intros v Hv.
  destruct (bounds_in_box _ _ _ Hb') as ((Hx & Hy & Hz) & _ & Hall).
  specialize (Hall v Hv).
  assert (Hxs : LVector3.x (hi * s + pos)%V - LVector3.x (lo * s + pos)%V <= 10).
  { rewrite <- Hmax. unfold max_dim. simpl. apply Rmax_l. }
  assert (Hys : LVector3.y (hi * s + pos)%V - LVector3.y (lo * s + pos)%V <= 10).
  { rewrite <- Hmax. unfold max_dim. simpl.
    eapply Rle_trans; [apply Rmax_l | apply Rmax_r]. }
  assert (Hzs : LVector3.z (hi * s + pos)%V - LVector3.z (lo * s + pos)%V <= 10).
  { rewrite <- Hmax. unfold max_dim. simpl.
    eapply Rle_trans; [apply Rmax_r | apply Rmax_r]. }
  injection Hsym as Sx Sy Sz.
  unfold in_box in *. simpl in *. repeat split; lra.
Qed.

Lemma imported_model_fits_the_cube_witness :
  exists (vs' : list Vec3) (lo' hi' : Vec3),
    LoadAsset.center_and_scale [LVector3 0 0 0; LVector3 20 4 2]
    = LoadAsset.Flattened vs'
    /\ List.length vs' = 2%nat
    /\ LoadAsset.getTightBounds vs' = Some (lo', hi')
    /\ (lo' + hi')%V = LVector3 0 0 0
    /\ max_dim lo' hi' = 10
    /\ forall v, v ∈ vs' ->
                 in_box (LVector3 (-5) (-5) (-5)) (LVector3 5 5 5) v.
Proof.
  assert (Hb : LoadAsset.getTightBounds [LVector3 0 0 0; LVector3 20 4 2]
               = Some (LVector3 0 0 0, LVector3 20 4 2)).
  { simpl. unfold LoadAsset.vmin, LoadAsset.vmax; simpl.
    rewrite !Rmin_left, !Rmax_right by lra. reflexivity. }
  apply (imported_model_fits_the_cube
           [LVector3 0 0 0; LVector3 20 4 2] _ _ Hb).
  unfold max_dim; simpl.
  replace (20 - 0) with 20 by ring. replace (4 - 0) with 4 by ring.
  replace (2 - 0) with 2 by ring.
  rewrite (Rmax_left 4 2) by lra. rewrite (Rmax_left 20 4) by lra. lra.
Defined.

(** A model whose vertices all sit in one point has a largest extent of
    zero, and centring and scaling it ends in [ZeroDivisionError]; a
    model without vertices has no bounds and passes through unchanged. *)
Theorem point_model_cannot_be_scaled (v0 : Vec3) (vs : list Vec3) :
  vs <> [] ->
  Forall (fun v => v = v0) vs ->
  LoadAsset.center_and_scale vs = LoadAsset.ZeroDivisionError
  /\ LoadAsset.center_and_scale [] = LoadAsset.Flattened [].
Proof.
  intros Hne Hall. split; [| reflexivity].
  assert (Hb : LoadAsset.getTightBounds vs = Some (v0, v0)).
  { induction vs as [| v vs IH]; [contradiction |].
    apply Forall_cons in Hall as [-> Hall]. simpl.
    destruct vs as [| w vs']; [reflexivity |].
    rewrite IH by (try discriminate; exact Hall).
    unfold LoadAsset.vmin, LoadAsset.vmax.
    rewrite !Rmin_left, !Rmax_left by lra. destruct v0; reflexivity. }
  unfold LoadAsset.center_and_scale. rewrite Hb.
  destruct (Req_dec_T _ 0) as [_ | N]; [reflexivity |].
  exfalso. apply N. simpl.
  replace (LVector3.x v0 - LVector3.x v0) with 0 by ring.
  replace (LVector3.y v0 - LVector3.y v0) with 0 by ring.
  replace (LVector3.z v0 - LVector3.z v0) with 0 by ring.
  rewrite (Rmax_left 0 0) by lra. rewrite (Rmax_left 0 0) by lra.
  reflexivity.
Qed.

Lemma point_model_cannot_be_scaled_witness :
  LoadAsset.center_and_scale [LVector3 1 2 3; LVector3 1 2 3]
  = LoadAsset.ZeroDivisionError
  /\ LoadAsset.center_and_scale [] = LoadAsset.Flattened [].
Proof.
  apply (point_model_cannot_be_scaled (LVector3 1 2 3)).
  - discriminate.
  - repeat constructor.
Defined.

(** ** src/cutting.py: the cylinder mesh *)

Lemma length_flat_map_const {A B : Type} (f : A -> list B) (k : nat)
    (l : list A) :
  (forall a, List.length (f a) = k) ->
  List.length (flat_map f l) = (List.length l * k)%nat.
Proof.
  intros Hf. induction l as [| a l IH]; simpl; [reflexivity |].
  rewrite length_app, Hf, IH. lia.
Qed.

Lemma length_linspace (start stop : R) (num : nat) :
  List.length (Cutting.linspace start stop num) = num.
Proof. unfold Cutting.linspace. rewrite length_map, length_seq. reflexivity. Qed.

Lemma length_points (radius height : R) (mesh_res : nat) :
  List.length (Cutting.points radius height mesh_res)
  = (mesh_res * mesh_res)%nat.
Proof.
  unfold Cutting.points.
  rewrite (length_flat_map_const _ mesh_res).
  - rewrite length_linspace. reflexivity.
  - intros a. rewrite length_map. apply length_linspace.
Qed.

(** The cylinder mesh has [mesh_res * mesh_res] vertices, as many
    normals, and [(mesh_res - 1) * (mesh_res - 1)] faces; every face is
    a quad, and each of its four indices is the index of a vertex. *)
Theorem cylinder_faces_index_vertices (radius height : R) (mesh_res : nat) :
  let '(points, normals, faces) :=
    Cutting.generate_cylinder_mesh radius height mesh_res in
  List.length points = (mesh_res * mesh_res)%nat
  /\ List.length normals = List.length points
  /\ List.length faces = ((mesh_res - 1) * (mesh_res - 1))%nat
  /\ forall face, In face faces ->
       List.length face = 4%nat
       /\ forall idx, In idx face -> (idx < List.length points)%nat.
Proof.
  unfold Cutting.generate_cylinder_mesh.
  rewrite length_map, length_points.
  split; [reflexivity |]. split; [reflexivity |]. split.
  - unfold Cutting.faces.
    rewrite (length_flat_map_const _ (mesh_res - 1)).
    + rewrite length_seq. reflexivity.
    + intros a. rewrite length_map, length_seq. reflexivity.
  - intros face Hf. unfold Cutting.faces in Hf.
    apply in_flat_map in Hf as (r & Hr & Hf).
    apply in_map_iff in Hf as (c & <- & Hc).
    apply in_seq in Hr, Hc.
    split; [reflexivity |].
    intros idx Hi. simpl in Hi.
    destruct Hi as [<- | [<- | [<- | [<- | []]]]]; nia.
Qed.

(** The first quad of a mesh of resolution 3 joins vertices 0, 1, 4
    and 3. *)
Example faces_of_resolution_3 :
  Cutting.faces 3 = [[0; 1; 4; 3]; [1; 2; 5; 4]; [3; 4; 7; 6]; [4; 5; 8; 7]]%nat.
Proof. reflexivity. Qed.

Lemma linspace_range (stop : R) (num : nat) (z : R) :
  0 <= stop -> In z (Cutting.linspace 0 stop num) -> 0 <= z <= stop.
Proof.
  intros Hs Hz. unfold Cutting.linspace in Hz.
  apply in_map_iff in Hz as (k & <- & Hk). apply in_seq in Hk.
  replace (0 + INR k * ((stop - 0) / INR (num - 1)))
    with (INR k * (stop / INR (num - 1))) by (unfold Rdiv; ring).
  pose proof (pos_INR k) as Hk0.
  destruct (Nat.eq_dec (num - 1)%nat 0%nat) as [E | N].
  - assert (k = 0%nat) by lia. subst k. simpl. lra.
  - assert (Hn : 0 < INR (num - 1)) by (apply lt_0_INR; lia).
    assert (Hkn : INR k <= INR (num - 1)) by (apply le_INR; lia).
    assert (Hq : 0 <= stop / INR (num - 1)) by (apply div_nonneg; lra).
    split; [apply Rmult_le_pos; assumption |].
    replace stop with (INR (num - 1) * (stop / INR (num - 1))) at 2
      by (field; lra).
    apply Rmult_le_compat_r; assumption.
Qed.

Lemma sqrt_square_abs (a : R) : sqrt (a * a) = Rabs a.
Proof. fold (Rsqr a). apply sqrt_Rsqr_abs. Qed.

(** Every vertex of the cylinder mesh lies on the cylinder of the given
    radius, between height 0 and the given height.  For a radius other
    than 0 its normal is horizontal, of length 1, and points from the
    axis to the vertex; for radius 0 the normal is the zero vector (the
    zero norm is replaced by 1 and nothing is divided by 0). *)
Theorem cylinder_vertices_and_normals
    (radius height : R) (mesh_res : nat) (v : Vec3) :
  0 <= height ->
  In v (Cutting.points radius height mesh_res) ->
  LVector3.x v * LVector3.x v + LVector3.y v * LVector3.y v = radius * radius
  /\ 0 <= LVector3.z v <= height
  /\ (radius <> 0 ->
      LVector3.length (Cutting.normal_of v) = 1
      /\ LVector3.z (Cutting.normal_of v) = 0
      /\ (Cutting.normal_of v * Rabs radius)%V
         = LVector3 (LVector3.x v) (LVector3.y v) 0)
  /\ (radius = 0 -> Cutting.normal_of v = LVector3 0 0 0).
Proof.
  intros Hh Hv. unfold Cutting.points in Hv.
  apply in_flat_map in Hv as (theta & _ & Hv).
  apply in_map_iff in Hv as (z & <- & Hz). simpl.
  assert (Hcirc : radius * cos theta * (radius * cos theta)
                  + radius * sin theta * (radius * sin theta)
                  = radius * radius).
  { pose proof (sin2_cos2 theta) as H. unfold Rsqr in H. nra. }
  assert (Hnorm : LVector3.length
                    (LVector3 (radius * cos theta) (radius * sin theta) 0)
                  = Rabs radius).
  { unfold LVector3.length, LVector3.length_squared; simpl.
    replace (_ + _ + _) with (radius * radius) by lra.
    apply sqrt_square_abs. }
  split; [exact Hcirc |].
  split; [exact (linspace_range height mesh_res z Hh Hz) |].
  unfold Cutting.normal_of. simpl. rewrite Hnorm.
  split.
  - intros Hr.
    assert (Habs : 0 < Rabs radius) by (apply Rabs_pos_lt; exact Hr).
    destruct (Req_dec_T (Rabs radius) 0) as [E | _]; [lra |].
    split; [| split].
    + unfold LVector3.length, LVector3.length_squared; simpl.
      replace (_ + _ + _) with 1; [apply sqrt_1 |].
      assert (Hsq : Rabs radius * Rabs radius = radius * radius).
      { unfold Rabs. destruct (Rcase_abs radius); ring. }
      symmetry.
      transitivity
        ((radius * cos theta * (radius * cos theta)
          + radius * sin theta * (radius * sin theta))
         / (Rabs radius * Rabs radius)).
      * field. lra.
      * rewrite Hcirc, Hsq. field. exact Hr.
    + unfold Rdiv. ring.
    + apply vec_eq; simpl; field; lra.
  - intros ->. rewrite Rabs_R0.
    destruct (Req_dec_T 0 0) as [_ | N]; [| contradiction].
    apply vec_eq; simpl; lra.
Qed.

Lemma cylinder_vertices_and_normals_witness :
  let v := LVector3 (1 * cos 0) (1 * sin 0) 0 in
  LVector3.x v * LVector3.x v + LVector3.y v * LVector3.y v = 1 * 1
  /\ 0 <= LVector3.z v <= 6
  /\ (1 <> 0 ->
      LVector3.length (Cutting.normal_of v) = 1
      /\ LVector3.z (Cutting.normal_of v) = 0
      /\ (Cutting.normal_of v * Rabs 1)%V
         = LVector3 (LVector3.x v) (LVector3.y v) 0)
  /\ (1 = 0 -> Cutting.normal_of v = LVector3 0 0 0).
Proof.
  apply (cylinder_vertices_and_normals 1 6 2).
  - lra.
  - unfold Cutting.points, Cutting.linspace. simpl.
    left. f_equal.
    + f_equal. f_equal. lra.
    + f_equal. f_equal. lra.
    + lra.
Defined.

(** ** src/cutting.py: the cut *)

Section CutLoop.
Variable normals : list Vec3.
Variable cutter_pos : Vec3.
Variables cut_radius depth_factor : R.

Lemma cut_deform_loop_spec (rest : list Vec3) :
  forall (i : nat) (deformed : list Vec3) (intensities : list R),
    (i + List.length rest <= List.length normals)%nat ->
    (i + List.length rest <= List.length deformed)%nat ->
    (i + List.length rest <= List.length intensities)%nat ->
    exists (deformed' : list Vec3) (intensities' : list R),
      Cutting.deform_loop normals cutter_pos cut_radius depth_factor
                          rest i deformed intensities
      = Ok (deformed', intensities')
      /\ List.length deformed' = List.length deformed
      /\ List.length intensities' = List.length intensities
      /\ (forall j, (j < i)%nat ->
            deformed' !! j = deformed !! j
            /\ intensities' !! j = intensities !! j)
      /\ (forall j point n d0 t0,
            rest !! j = Some point ->
            normals !! (i + j)%nat = Some n ->
            deformed !! (i + j)%nat = Some d0 ->
            intensities !! (i + j)%nat = Some t0 ->
            let dist := LVector3.length (point - cutter_pos)%V in
            (dist < cut_radius ->
             deformed' !! (i + j)%nat
             = Some (d0 + n * (-1) * ((cut_radius - dist) / cut_radius)
                          * depth_factor)%V
             /\ intensities' !! (i + j)%nat
                = Some ((cut_radius - dist) / cut_radius))
            /\ (cut_radius <= dist ->
                deformed' !! (i + j)%nat = Some d0
                /\ intensities' !! (i + j)%nat = Some t0)).
Proof.
  induction rest as [| point rest' IH]; intros i deformed intensities Hn Hd Ht.
  - exists deformed, intensities. simpl.
    split; [reflexivity |]. split; [reflexivity |]. split; [reflexivity |].
    split; [intros j _; split; reflexivity |].
    intros j pt n d0 t0 Hj. rewrite lookup_nil in Hj. discriminate.
  - simpl in Hn, Hd, Ht. cbn [Cutting.deform_loop].
    destruct (Rltb _ cut_radius) eqn:Hin.
    + destruct (lookup_lt_is_Some_2 normals i) as [n0 En]; [lia |].
      rewrite En.
      destruct (IH (S i)
                  (alter (fun d => (d + n0 * (-1)
                                       * ((cut_radius
                                           - LVector3.length (point - cutter_pos)%V)
                                          / cut_radius)
                                       * depth_factor)%V) i deformed)
                  (<[i := (cut_radius - LVector3.length (point - cutter_pos)%V)
                          / cut_radius]> intensities))
        as (d' & t' & Hrun & Hld & Hlt & Hlow & Hat);
        rewrite ?length_alter, ?length_insert; try lia.
      rewrite length_alter in Hld. rewrite length_insert in Hlt.
      exists d', t'. split; [exact Hrun |].
      split; [exact Hld |]. split; [exact Hlt |]. split.
      * intros j Hj. destruct (Hlow j ltac:(lia)) as [H1 H2].
        rewrite H1, H2.
        rewrite list_lookup_alter_ne, list_lookup_insert_ne by lia.
        split; reflexivity.
      * intros [| j] pt n d0 t0 Hp Hnj Hdj Htj.
        -- simpl in Hp. injection Hp as <-. rewrite Nat.add_0_r in *.
           rewrite En in Hnj. injection Hnj as <-.
           destruct (Hlow i ltac:(lia)) as [H1 H2]. rewrite H1, H2.
           rewrite list_lookup_alter_eq, Hdj.
           rewrite list_lookup_insert_eq by (apply lookup_lt_Some in Htj; lia).
           cbv zeta. apply Rltb_true in Hin. split.
           ++ intros _. split; reflexivity.
           ++ intros Hout. lra.
        -- simpl in Hp.
           replace (i + S j)%nat with (S i + j)%nat in * by lia.
           apply (Hat j pt n d0 t0 Hp Hnj).
           ++ rewrite list_lookup_alter_ne by lia. exact Hdj.
           ++ rewrite list_lookup_insert_ne by lia. exact Htj.
    + destruct (IH (S i) deformed intensities)
        as (d' & t' & Hrun & Hld & Hlt & Hlow & Hat); try lia.
      exists d', t'. split; [exact Hrun |].
      split; [exact Hld |]. split; [exact Hlt |]. split.
      * intros j Hj. apply Hlow. lia.
      * intros [| j] pt n d0 t0 Hp Hnj Hdj Htj.
        -- simpl in Hp. injection Hp as <-. rewrite Nat.add_0_r in *.
           destruct (Hlow i ltac:(lia)) as [H1 H2]. rewrite H1, H2.
           cbv zeta. apply Rltb_false in Hin. split.
           ++ intros Hlt'. lra.
           ++ intros _. split; assumption.
        -- simpl in Hp.
           replace (i + S j)%nat with (S i + j)%nat in * by lia.
           apply (Hat j pt n d0 t0 Hp Hnj Hdj Htj).
Qed.

Lemma cut_deform_loop_short (rest : list Vec3) :
  forall (i j : nat) (point : Vec3) (deformed : list Vec3)
         (intensities : list R),
    rest !! j = Some point ->
    LVector3.length (point - cutter_pos)%V < cut_radius ->
    (List.length normals <= i + j)%nat ->
    Cutting.deform_loop normals cutter_pos cut_radius depth_factor
                        rest i deformed intensities
    = Err IndexError.
Proof.
  induction rest as [| p rest' IH];
    intros i j point deformed intensities Hj Hd Hn.
  - rewrite lookup_nil in Hj. discriminate.
  - cbn [Cutting.deform_loop].
    destruct (Rltb _ cut_radius) eqn:Hin.
    + destruct (normals !! i) as [n0 |] eqn:En; [| reflexivity].
      apply lookup_lt_Some in En.
      destruct j as [| j]; [lia |]. simpl in Hj.
      apply (IH (S i) j point); [exact Hj | exact Hd | lia].
    + destruct j as [| j].
      * simpl in Hj. injection Hj as ->.
        apply Rltb_false in Hin. lra.
      * simpl in Hj. apply (IH (S i) j point); [exact Hj | exact Hd | lia].
Qed.
End CutLoop.

(** The cut returns one deformed point and one intensity per point.  A
    point at distance [cut_radius] or more from the cutter is returned
    as it was, with intensity 0.  A point nearer than that gets an
    intensity of [(cut_radius - dist) / cut_radius], which lies in
    (0, 1], and is moved against its normal by the intensity times the
    depth factor. *)
Theorem cut_moves_points_in_reach
    (points normals : list Vec3) (cutter_pos : Vec3)
    (cut_radius depth_factor : R) :
  (List.length points <= List.length normals)%nat ->
  exists (deformed : list Vec3) (intensities : list R),
    Cutting.deform_mesh points normals cutter_pos cut_radius depth_factor
    = Ok (deformed, intensities)
    /\ List.length deformed = List.length points
    /\ List.length intensities = List.length points
    /\ forall (i : nat) (point n : Vec3),
         points !! i = Some point ->
         normals !! i = Some n ->
         let dist := LVector3.length (point - cutter_pos)%V in
         let intensity := (cut_radius - dist) / cut_radius in
         (cut_radius <= dist ->
          deformed !! i = Some point /\ intensities !! i = Some 0)
         /\ (dist < cut_radius ->
             0 < intensity <= 1
             /\ intensities !! i = Some intensity
             /\ deformed !! i
                = Some (point - n * (intensity * depth_factor))%V).
Proof.
  intros Hlen. unfold Cutting.deform_mesh.
  destruct (cut_deform_loop_spec normals cutter_pos cut_radius depth_factor
              points 0 points (replicate (List.length points) 0))
    as (d' & t' & Hrun & Hld & Hlt & _ & Hat);
    try (rewrite ?length_replicate; simpl; lia).
  rewrite length_replicate in Hlt. simpl in Hat.
  exists d', t'. split; [exact Hrun |]. split; [exact Hld |].
  split; [exact Hlt |].
  intros i point n Hp Hn.
  set (dist := LVector3.length (point - cutter_pos)%V).
  set (intensity := (cut_radius - dist) / cut_radius).
  assert (Ht0 : replicate (List.length points) 0 !! i = Some 0).
  { apply lookup_replicate_2. apply lookup_lt_Some in Hp. exact Hp. }
  destruct (Hat i point n point 0 Hp Hn Hp Ht0) as [Hin Hout].
  fold dist in Hin, Hout. split.
  - intros Hfar. exact (Hout Hfar).
  - intros Hnear. destruct (Hin Hnear) as [Hd Ht].
    pose proof (length_nonneg (point - cutter_pos)%V) as H0. fold dist in H0.
    assert (Hr : 0 < cut_radius) by lra.
    split; [| split].
    + unfold intensity. split.
      * apply Rdiv_lt_0_compat; lra.
      * apply (Rmult_le_reg_r cut_radius); [exact Hr |].
        unfold Rdiv. rewrite Rmult_assoc, Rinv_l by lra. lra.
    + exact Ht.
    + rewrite Hd. f_equal. fold intensity. apply vec_eq; simpl; ring.
Qed.

Lemma cut_moves_points_in_reach_witness :
  exists (deformed : list Vec3) (intensities : list R),
    Cutting.deform_mesh [LVector3 0 0 0; LVector3 10 0 0]
                        [LVector3 0 0 1; LVector3 0 0 1]
                        (LVector3 0 0 0) 1.5 0.8
    = Ok (deformed, intensities)
    /\ List.length deformed = 2%nat
    /\ List.length intensities = 2%nat
    /\ forall (i : nat) (point n : Vec3),
         [LVector3 0 0 0; LVector3 10 0 0] !! i = Some point ->
         [LVector3 0 0 1; LVector3 0 0 1] !! i = Some n ->
         let dist := LVector3.length (point - LVector3 0 0 0)%V in
         let intensity := (1.5 - dist) / 1.5 in
         (1.5 <= dist ->
          deformed !! i = Some point /\ intensities !! i = Some 0)
         /\ (dist < 1.5 ->
             0 < intensity <= 1
             /\ intensities !! i = Some intensity
             /\ deformed !! i = Some (point - n * (intensity * 0.8))%V).
Proof.
  apply (cut_moves_points_in_reach [LVector3 0 0 0; LVector3 10 0 0]
                                   [LVector3 0 0 1; LVector3 0 0 1]).
  simpl. lia.
Defined.

(** When a point nearer to the cutter than [cut_radius] has an index at
    or past the end of [normals], the cut raises [IndexError] and
    returns nothing. *)
Theorem cut_with_missing_normal_raises
    (points normals : list Vec3) (cutter_pos : Vec3)
    (cut_radius depth_factor : R) (i : nat) (point : Vec3) :
  points !! i = Some point ->
  LVector3.length (point - cutter_pos)%V < cut_radius ->
  (List.length normals <= i)%nat ->
  Cutting.deform_mesh points normals cutter_pos cut_radius depth_factor
  = Err IndexError.
Proof.
  intros Hp Hd Hn. unfold Cutting.deform_mesh.
  apply (cut_deform_loop_short normals cutter_pos cut_radius depth_factor
           points 0 i point); [exact Hp | exact Hd | lia].
Qed.

Lemma cut_with_missing_normal_raises_witness :
  Cutting.deform_mesh [LVector3 10 0 0; LVector3 1 0 0] [LVector3 0 0 1]
                      (LVector3 1 0 0) 1.5 0.8
  = Err IndexError.
Proof.
  apply (cut_with_missing_normal_raises _ _ _ _ _ 1 (LVector3 1 0 0)).
  - reflexivity.
  - rewrite length_sub_self. lra.
  - simpl. lia.
Defined.

(** ** src/cutting.py: the colours *)

Lemma colors_loop_spec (intensities : list R) :
  forall (i : nat) (colors : list (nat * nat * nat)),
    (i + List.length intensities <= List.length colors)%nat ->
    List.length (Cutting.colors_loop intensities i colors)
    = List.length colors
    /\ (forall j, (j < i)%nat ->
          Cutting.colors_loop intensities i colors !! j = colors !! j)
    /\ (forall j val,
          intensities !! j = Some val ->
          Cutting.colors_loop intensities i colors !! (i + j)%nat
          = Some (color_of_intensity val)).
Proof.
  induction intensities as [| v vals IH]; intros i colors Hlen.
  - simpl. split; [reflexivity |]. split; [reflexivity |].
    intros j val Hj. rewrite lookup_nil in Hj. discriminate.
  - simpl in Hlen. cbn [Cutting.colors_loop].
    fold (color_of_intensity v).
    destruct (IH (S i) (<[i := color_of_intensity v]> colors))
      as (Hl & Hlow & Hat); [rewrite length_insert; lia |].
    rewrite length_insert in Hl.
    split; [exact Hl |]. split.
    + intros j Hj. rewrite Hlow by lia.
      apply list_lookup_insert_ne. lia.
    + intros [| j] val Hj.
      * simpl in Hj. injection Hj as <-. rewrite Nat.add_0_r.
        rewrite Hlow by lia. apply list_lookup_insert_eq. lia.
      * simpl in Hj. replace (i + S j)%nat with (S i + j)%nat by lia.
        apply Hat. exact Hj.
Qed.

Lemma get_colors_is_map (intensities : list R) :
  Cutting.get_colors_based_on_depth intensities
  = List.map color_of_intensity intensities.
Proof.
  unfold Cutting.get_colors_based_on_depth.
  destruct (colors_loop_spec intensities 0
              (replicate (List.length intensities) (0, 0, 0)%nat))
    as (Hl & _ & Hat); [rewrite length_replicate; simpl; lia |].
  rewrite length_replicate in Hl.
  apply list_eq. intros i.
  change (List.map color_of_intensity intensities)
    with (color_of_intensity <$> intensities).
  rewrite list_lookup_fmap.
  destruct (intensities !! i) as [val |] eqn:E; simpl.
  - exact (Hat i val E).
  - apply lookup_ge_None. apply lookup_ge_None in E. lia.
Qed.

Lemma color_bands (cut_radius dist : R) :
  0 <= dist ->
  color_of_intensity
    (if Rltb dist cut_radius then (cut_radius - dist) / cut_radius else 0)
  = color_of_distance cut_radius dist.
Proof.
  intros H0. unfold color_of_intensity, color_of_distance.
  destruct (Rltb dist cut_radius) eqn:Hin.
  - apply Rltb_true in Hin.
    assert (Hr : 0 < cut_radius) by lra.
    assert (Hi : (cut_radius - dist) / cut_radius * cut_radius
                 = cut_radius - dist) by (field; lra).
    set (t := (cut_radius - dist) / cut_radius) in *.
    assert (H6 : Rltb 0.6 t = Rltb dist (0.4 * cut_radius)).
    { destruct (Rltb dist (0.4 * cut_radius)) eqn:E.
      - apply Rltb_true in E. apply Rltb_true. nra.
      - apply Rltb_false in E. apply Rltb_false. nra. }
    assert (H2 : Rltb 0.2 t = Rltb dist (0.8 * cut_radius)).
    { destruct (Rltb dist (0.8 * cut_radius)) eqn:E.
      - apply Rltb_true in E. apply Rltb_true. nra.
      - apply Rltb_false in E. apply Rltb_false. nra. }
    rewrite H6, H2. reflexivity.
  - apply Rltb_false in Hin.
    assert (H6 : Rltb 0.6 0 = false) by (apply Rltb_false; lra).
    assert (H2 : Rltb 0.2 0 = false) by (apply Rltb_false; lra).
    rewrite H6, H2.
    assert (E4 : Rltb dist (0.4 * cut_radius) = false)
      by (apply Rltb_false; lra).
    assert (E8 : Rltb dist (0.8 * cut_radius) = false)
      by (apply Rltb_false; lra).
    rewrite E4, E8. reflexivity.
Qed.

(** [get_colors_based_on_depth] returns one colour per intensity: bone
    above 0.6, muscle above 0.2 up to 0.6, skin otherwise.  Applied to
    the intensities of a cut, this colours the mesh in three bands by
    distance from the cutter: bone nearer than 0.4 of the cut radius,
    muscle from there up to 0.8 of the radius, and skin from 0.8 of the
    radius outwards, beyond the radius included. *)
Theorem cut_colours_by_distance
    (points normals : list Vec3) (cutter_pos : Vec3)
    (cut_radius depth_factor : R) :
  (List.length points <= List.length normals)%nat ->
  exists (deformed : list Vec3) (intensities : list R),
    Cutting.deform_mesh points normals cutter_pos cut_radius depth_factor
    = Ok (deformed, intensities)
    /\ Cutting.get_colors_based_on_depth intensities
       = List.map color_of_intensity intensities
    /\ Cutting.get_colors_based_on_depth intensities
       = List.map
           (fun point =>
              color_of_distance cut_radius
                                (LVector3.length (point - cutter_pos)%V))
           points.
Proof.
  intros Hlen.
  unfold Cutting.deform_mesh.
  destruct (cut_deform_loop_spec normals cutter_pos cut_radius depth_factor
              points 0 points (replicate (List.length points) 0))
    as (d' & t' & Hrun & Hld & Hlt & _ & Hat);
    try (rewrite ?length_replicate; simpl; lia).
  rewrite length_replicate in Hlt. simpl in Hat.
  exists d', t'. split; [exact Hrun |].
  split; [apply get_colors_is_map |].
  rewrite get_colors_is_map.
  apply list_eq. intros i.
  change (List.map color_of_intensity t') with (color_of_intensity <$> t').
  change (List.map ?f points) with (f <$> points).
  rewrite !list_lookup_fmap.
  destruct (points !! i) as [point |] eqn:Ep.
  - destruct (lookup_lt_is_Some_2 normals i) as [n En].
    { apply lookup_lt_Some in Ep. lia. }
    assert (Ht0 : replicate (List.length points) 0 !! i = Some 0).
    { apply lookup_replicate_2. apply lookup_lt_Some in Ep. exact Ep. }
    destruct (Hat i point n point 0 Ep En Ep Ht0) as [Hin Hout].
    pose proof (length_nonneg (point - cutter_pos)%V) as H0.
    cbn [fmap option_fmap option_map].
    rewrite <- (color_bands cut_radius _ H0).
    destruct (Rltb _ cut_radius) eqn:E.
    + apply Rltb_true in E. destruct (Hin E) as [_ ->]. reflexivity.
    + apply Rltb_false in E. destruct (Hout E) as [_ ->]. reflexivity.
  - simpl. replace (t' !! i) with (@None R); [reflexivity |].
    symmetry. apply lookup_ge_None. apply lookup_ge_None in Ep. lia.
Qed.

Lemma cut_colours_by_distance_witness :
  exists (deformed : list Vec3) (intensities : list R),
    Cutting.deform_mesh [LVector3 0 0 0; LVector3 10 0 0]
                        [LVector3 0 0 1; LVector3 0 0 1]
                        (LVector3 0 0 0) 1.5 0.8
    = Ok (deformed, intensities)
    /\ Cutting.get_colors_based_on_depth intensities
       = List.map color_of_intensity intensities
    /\ Cutting.get_colors_based_on_depth intensities
       = List.map
           (fun point =>
              color_of_distance 1.5
                                (LVector3.length (point - LVector3 0 0 0)%V))
           [LVector3 0 0 0; LVector3 10 0 0].
Proof.
  apply (cut_colours_by_distance [LVector3 0 0 0; LVector3 10 0 0]
                                 [LVector3 0 0 1; LVector3 0 0 1]).
  simpl. lia.
Defined.

(** ** Rotating the model with the mouse *)



(** ** hex_to_rgba *)

Lemma hex_digit_is_plain (c : ascii) :
  is_hex_digit c = true ->
  HexColor.is_space c = false
  /\ HexColor.is_int_space c = false
  /\ HexColor.is_hash c = false
  /\ HexColor.is_underscore c = false
  /\ (HexColor.code c =? 43)%Z = false
  /\ (HexColor.code c =? 45)%Z = false
  /\ (HexColor.code c =? 120)%Z = false
  /\ (HexColor.code c =? 88)%Z = false.
Proof.
  destruct c as [[] [] [] [] [] [] [] []]; vm_compute; intros H;
    try discriminate; repeat split.
Qed.

Lemma digit_value_range (c : ascii) (d : Z) :
  HexColor.digit_value c = Some d -> (0 <= d < 16)%Z.
Proof.
  unfold HexColor.digit_value.
  repeat match goal with
         | |- context [if ?b then _ else _] =>
           let E := fresh "E" in destruct b eqn:E
         end;
    intros H; try discriminate; injection H as <-;
    repeat match goal with
           | E : (_ && _)%bool = true |- _ =>
             apply andb_true_iff in E as [? ?]
           | E : (_ <=? _)%Z = true |- _ => apply Z.leb_le in E
           end;
    lia.
Qed.

Lemma two_digits_range (c0 c1 : ascii) : (0 <= two_digits c0 c1 <= 255)%Z.
Proof.
  unfold two_digits.
  destruct (HexColor.digit_value c0) as [d0 |] eqn:E0; [| lia].
  destruct (HexColor.digit_value c1) as [d1 |] eqn:E1; [| lia].
  apply digit_value_range in E0, E1. lia.
Qed.

Lemma int16_two_digits (c0 c1 : ascii) :
  is_hex_digit c0 = true -> is_hex_digit c1 = true ->
  HexColor.int16 [c0; c1] = Some (two_digits c0 c1).
Proof.
  intros H0 H1.
  destruct (hex_digit_is_plain c0 H0) as (_ & Hs0 & _ & Hu0 & Hp0 & Hm0 & _).
  destruct (hex_digit_is_plain c1 H1)
    as (_ & Hs1 & _ & Hu1 & _ & _ & Hx1 & HX1).
  unfold is_hex_digit in H0, H1. unfold two_digits.
  destruct (HexColor.digit_value c0) as [d0 |] eqn:E0; [| discriminate].
  destruct (HexColor.digit_value c1) as [d1 |] eqn:E1; [| discriminate].
  unfold HexColor.int16. cbn [HexColor.lstrip].
  rewrite Hs0, Hp0, Hm0, Hx1, HX1. rewrite andb_false_r.
  rewrite Hu0. cbn [HexColor.scan_digits].
  rewrite Hu0, E0, Hu1, E1. cbn [HexColor.lstrip].
  f_equal; lia.
Qed.

Lemma int16_empty : HexColor.int16 [] = None.
Proof. reflexivity. Qed.

Lemma lstrip_all (p : ascii -> bool) (ws rest : list ascii) :
  Forall (fun c => p c = true) ws ->
  HexColor.lstrip p (ws ++ rest) = HexColor.lstrip p rest.
Proof.
  induction 1 as [| c ws Hc _ IH]; [reflexivity |].
  simpl. rewrite Hc. exact IH.
Qed.

Lemma lstrip_stop (p : ascii -> bool) (c : ascii) (rest : list ascii) :
  p c = false -> HexColor.lstrip p (c :: rest) = c :: rest.
Proof. intros H. simpl. rewrite H. reflexivity. Qed.

(** Whitespace around the text and hash signs before it are removed,
    whatever their number, when the text starts and ends with
    characters that are neither. *)
Lemma cleaned_padded (ws1 hashes ws2 body : list ascii) (first last : ascii) :
  Forall (fun c => HexColor.is_space c = true) ws1 ->
  Forall (fun c => HexColor.is_hash c = true) hashes ->
  Forall (fun c => HexColor.is_space c = true) ws2 ->
  Forall (fun c => HexColor.is_space c = false) hashes ->
  HexColor.is_space first = false -> HexColor.is_hash first = false ->
  HexColor.is_space last = false ->
  cleaned (string_of_list_ascii
             (ws1 ++ hashes ++ (first :: body ++ [last]) ++ ws2))
  = first :: body ++ [last].
Proof.
  intros Hw1 Hh Hw2 Hhs Hf Hfh Hl.
  unfold cleaned. rewrite list_ascii_of_string_of_list_ascii.
  unfold HexColor.strip, HexColor.rstrip.
  rewrite (lstrip_all _ ws1 _ Hw1).
  assert (Hhead : HexColor.lstrip HexColor.is_space
                    (hashes ++ (first :: body ++ [last]) ++ ws2)
                  = hashes ++ (first :: body ++ [last]) ++ ws2).
  { destruct hashes as [| h hashes'].
    - simpl. rewrite Hf. reflexivity.
    - apply Forall_cons in Hhs as [Hh0 _]. simpl. rewrite Hh0. reflexivity. }
  rewrite Hhead.
  replace (rev (hashes ++ (first :: body ++ [last]) ++ ws2))
    with (rev ws2 ++ last :: rev (hashes ++ first :: body)).
  2:{ replace (hashes ++ (first :: body ++ [last]) ++ ws2)
        with ((hashes ++ first :: body) ++ [last] ++ ws2)
        by (simpl; rewrite <- !app_assoc; simpl; reflexivity).
      rewrite (rev_app_distr (hashes ++ first :: body)).
      rewrite (rev_app_distr [last] ws2). simpl.
      rewrite <- app_assoc. reflexivity. }
  rewrite lstrip_all by (apply Forall_rev; exact Hw2).
  rewrite (lstrip_stop _ last _ Hl).
  simpl. rewrite rev_involutive.
  rewrite <- app_assoc. rewrite (lstrip_all _ hashes _ Hh).
  simpl. rewrite Hfh. reflexivity.
Qed.

Lemma hash_is_no_space (c : ascii) :
  HexColor.is_hash c = true -> HexColor.is_space c = false.
Proof.
  destruct c as [[] [] [] [] [] [] [] []]; vm_compute; intros H;
    try discriminate; reflexivity.
Qed.

Lemma hex_to_rgba_cleaned (hex_str : string) (alpha : R) :
  HexColor.hex_to_rgba hex_str alpha
  = let h := cleaned hex_str in
    let h := if Nat.eqb (List.length h) 3
             then flat_map (fun c => [c; c]) h else h in
    match HexColor.int16 (HexColor.slice 0 2 h) with
    | None => HexColor.ValueError
    | Some r =>
      match HexColor.int16 (HexColor.slice 2 4 h) with
      | None => HexColor.ValueError
      | Some g =>
        match HexColor.int16 (HexColor.slice 4 6 h) with
        | None => HexColor.ValueError
        | Some b =>
          HexColor.Rgba (IZR r / 255) (IZR g / 255) (IZR b / 255) alpha
        end
      end
    end.
Proof. reflexivity. Qed.

Lemma hex_to_rgba_six (hex_str : string) (alpha : R)
    (c1 c2 c3 c4 c5 c6 : ascii) (rest : list ascii) :
  cleaned hex_str = c1 :: c2 :: c3 :: c4 :: c5 :: c6 :: rest ->
  is_hex_digit c1 = true -> is_hex_digit c2 = true ->
  is_hex_digit c3 = true -> is_hex_digit c4 = true ->
  is_hex_digit c5 = true -> is_hex_digit c6 = true ->
  HexColor.hex_to_rgba hex_str alpha
  = HexColor.Rgba (IZR (two_digits c1 c2) / 255)
                  (IZR (two_digits c3 c4) / 255)
                  (IZR (two_digits c5 c6) / 255) alpha.
Proof.
  intros Hc H1 H2 H3 H4 H5 H6.
  rewrite hex_to_rgba_cleaned, Hc. cbv zeta.
  cbn [List.length Nat.eqb HexColor.slice take drop Nat.sub].
  rewrite !int16_two_digits by assumption. reflexivity.
Qed.

Lemma hex_to_rgba_three (hex_str : string) (alpha : R) (c1 c2 c3 : ascii) :
  cleaned hex_str = [c1; c2; c3] ->
  is_hex_digit c1 = true -> is_hex_digit c2 = true ->
  is_hex_digit c3 = true ->
  HexColor.hex_to_rgba hex_str alpha
  = HexColor.Rgba (IZR (two_digits c1 c1) / 255)
                  (IZR (two_digits c2 c2) / 255)
                  (IZR (two_digits c3 c3) / 255) alpha.
Proof.
  intros Hc H1 H2 H3.
  rewrite hex_to_rgba_cleaned, Hc. cbv zeta.
  cbn [List.length Nat.eqb flat_map app HexColor.slice take drop Nat.sub].
  rewrite !int16_two_digits by assumption. reflexivity.
Qed.

Lemma component_in_unit_interval (c0 c1 : ascii) :
  0 <= IZR (two_digits c0 c1) / 255 <= 1.
Proof.
  destruct (two_digits_range c0 c1) as [Hlo Hhi].
  apply IZR_le in Hlo, Hhi. split.
  - apply div_nonneg; lra.
  - apply (Rmult_le_reg_r 255); [lra |].
    unfold Rdiv. rewrite Rmult_assoc, Rinv_l by lra. lra.
Qed.

(** A colour written as six hexadecimal digits, with any number of
    hash signs before it and any white space around the whole, is read
    as its three two-digit numbers divided by 255, each between 0 and
    1; alpha is passed through. *)
Theorem hex_colour_is_parsed (ws1 hashes ws2 : list ascii)
    (c1 c2 c3 c4 c5 c6 : ascii) (alpha : R) :
  Forall (fun c => HexColor.is_space c = true) ws1 ->
  Forall (fun c => HexColor.is_hash c = true) hashes ->
  Forall (fun c => HexColor.is_space c = true) ws2 ->
  is_hex_digit c1 = true -> is_hex_digit c2 = true ->
  is_hex_digit c3 = true -> is_hex_digit c4 = true ->
  is_hex_digit c5 = true -> is_hex_digit c6 = true ->
  HexColor.hex_to_rgba
    (string_of_list_ascii
       (ws1 ++ hashes ++ [c1; c2; c3; c4; c5; c6] ++ ws2)) alpha
  = HexColor.Rgba (IZR (two_digits c1 c2) / 255)
                  (IZR (two_digits c3 c4) / 255)
                  (IZR (two_digits c5 c6) / 255) alpha
  /\ 0 <= IZR (two_digits c1 c2) / 255 <= 1
  /\ 0 <= IZR (two_digits c3 c4) / 255 <= 1
  /\ 0 <= IZR (two_digits c5 c6) / 255 <= 1.
Proof.
  intros Hw1 Hh Hw2 H1 H2 H3 H4 H5 H6.
  split; [| repeat split; apply component_in_unit_interval].
  destruct (hex_digit_is_plain c1 H1) as (Hs1 & _ & Hh1 & _).
  destruct (hex_digit_is_plain c6 H6) as (Hs6 & _).
  apply (hex_to_rgba_six _ alpha c1 c2 c3 c4 c5 c6 []); try assumption.
  apply (cleaned_padded ws1 hashes ws2 [c2; c3; c4; c5] c1 c6);
    try assumption.
  eapply Forall_impl; [exact Hh |]. intros c Hc. simpl.
  apply hash_is_no_space. exact Hc.
Qed.

Lemma hex_colour_is_parsed_witness :
  HexColor.hex_to_rgba " ##1a2B3c  " 0.5
  = HexColor.Rgba (IZR 26 / 255) (IZR 43 / 255) (IZR 60 / 255) 0.5
  /\ 0 <= IZR 26 / 255 <= 1
  /\ 0 <= IZR 43 / 255 <= 1
  /\ 0 <= IZR 60 / 255 <= 1.
Proof.
  apply (hex_colour_is_parsed
           [" "%char] ["#"%char; "#"%char] [" "%char; " "%char]
           "1" "a" "2" "B" "3" "c" 0.5);
    repeat constructor.
Defined.

(** The three-digit shorthand stands for the colour with every
    digit doubled: both spellings are read as the same colour. *)
Theorem hex_shorthand_doubles_digits (ws1 hashes ws2 : list ascii)
    (c1 c2 c3 : ascii) (alpha : R) :
  Forall (fun c => HexColor.is_space c = true) ws1 ->
  Forall (fun c => HexColor.is_hash c = true) hashes ->
  Forall (fun c => HexColor.is_space c = true) ws2 ->
  is_hex_digit c1 = true -> is_hex_digit c2 = true ->
  is_hex_digit c3 = true ->
  HexColor.hex_to_rgba
    (string_of_list_ascii (ws1 ++ hashes ++ [c1; c2; c3] ++ ws2)) alpha
  = HexColor.hex_to_rgba
      (string_of_list_ascii
         (ws1 ++ hashes ++ [c1; c1; c2; c2; c3; c3] ++ ws2)) alpha.
Proof.
  intros Hw1 Hh Hw2 H1 H2 H3.
  destruct (hex_digit_is_plain c1 H1) as (Hs1 & _ & Hh1 & _).
  destruct (hex_digit_is_plain c3 H3) as (Hs3 & _).
  assert (Hhs : Forall (fun c => HexColor.is_space c = false) hashes).
  { eapply Forall_impl; [exact Hh |]. intros c Hc. simpl.
    apply hash_is_no_space. exact Hc. }
  rewrite (hex_to_rgba_three _ alpha c1 c2 c3); try assumption.
  - symmetry.
    apply (hex_to_rgba_six _ alpha c1 c1 c2 c2 c3 c3 []); try assumption.
    apply (cleaned_padded ws1 hashes ws2 [c1; c2; c2; c3] c1 c3);
      assumption.
  - apply (cleaned_padded ws1 hashes ws2 [c2] c1 c3); assumption.
Qed.

Lemma hex_shorthand_doubles_digits_witness :
  HexColor.hex_to_rgba "#f0A " 1 = HexColor.hex_to_rgba "#ff00AA " 1.
Proof.
  apply (hex_shorthand_doubles_digits
           [] ["#"%char] [" "%char] "f" "0" "A" 1);
    repeat constructor.
Defined.

(** Whatever follows the sixth digit is ignored: a longer text is
    read as the colour of its first six digits. *)
Theorem hex_ignores_text_after_six_digits (hashes tail : list ascii)
    (c1 c2 c3 c4 c5 c6 last : ascii) (alpha : R) :
  Forall (fun c => HexColor.is_hash c = true) hashes ->
  is_hex_digit c1 = true -> is_hex_digit c2 = true ->
  is_hex_digit c3 = true -> is_hex_digit c4 = true ->
  is_hex_digit c5 = true -> is_hex_digit c6 = true ->
  HexColor.is_space last = false ->
  HexColor.hex_to_rgba
    (string_of_list_ascii
       (hashes ++ [c1; c2; c3; c4; c5; c6] ++ tail ++ [last])) alpha
  = HexColor.hex_to_rgba
      (string_of_list_ascii (hashes ++ [c1; c2; c3; c4; c5; c6])) alpha.
Proof.
  intros Hh H1 H2 H3 H4 H5 H6 Hl.
  destruct (hex_digit_is_plain c1 H1) as (Hs1 & _ & Hh1 & _).
  destruct (hex_digit_is_plain c6 H6) as (Hs6 & _).
  assert (Hhs : Forall (fun c => HexColor.is_space c = false) hashes).
  { eapply Forall_impl; [exact Hh |]. intros c Hc. simpl.
    apply hash_is_no_space. exact Hc. }
  rewrite (hex_to_rgba_six _ alpha c1 c2 c3 c4 c5 c6 (tail ++ [last]));
    try assumption.
  - symmetry.
    apply (hex_to_rgba_six _ alpha c1 c2 c3 c4 c5 c6 []); try assumption.
    pose proof (cleaned_padded [] hashes [] [c2; c3; c4; c5] c1 c6
                  (List.Forall_nil _) Hh (List.Forall_nil _) Hhs Hs1 Hh1 Hs6) as Hc.
    simpl in Hc. rewrite ?app_nil_r in Hc. exact Hc.
  - pose proof (cleaned_padded [] hashes []
                  ([c2; c3; c4; c5; c6] ++ tail) c1 last
                  (List.Forall_nil _) Hh (List.Forall_nil _) Hhs Hs1 Hh1 Hl) as Hc.
    simpl in Hc. rewrite ?app_nil_r in Hc. exact Hc.
Qed.

Lemma hex_ignores_text_after_six_digits_witness :
  HexColor.hex_to_rgba "#1a2B3c, not a colour" 1
  = HexColor.hex_to_rgba "#1a2B3c" 1.
Proof.
  apply (hex_ignores_text_after_six_digits
           ["#"%char] (list_ascii_of_string ", not a colou")
           "1" "a" "2" "B" "3" "c" "r" 1);
    repeat constructor.
Defined.

(** A text that, once white space and hash signs are removed,
    has fewer than three characters or exactly four is refused with a
    ValueError: one of the three pairs of digits is then empty. *)
Theorem hex_too_short_is_refused (hex_str : string) (alpha : R) :
  (List.length (cleaned hex_str) < 3
   \/ List.length (cleaned hex_str) = 4)%nat ->
  HexColor.hex_to_rgba hex_str alpha = HexColor.ValueError.
Proof.
  intros Hlen. rewrite hex_to_rgba_cleaned. cbv zeta.
  destruct (cleaned hex_str) as [| a [| b [| c [| d [| e l]]]]];
    simpl in Hlen; try lia;
    cbn [List.length Nat.eqb HexColor.slice take drop Nat.sub];
    rewrite ?int16_empty;
    repeat match goal with
           | |- context [match HexColor.int16 ?s with _ => _ end] =>
             destruct (HexColor.int16 s)
           end;
    reflexivity.
Qed.

Lemma hex_too_short_is_refused_witness :
  HexColor.hex_to_rgba " #1a2B " 1 = HexColor.ValueError.
Proof.
  apply (hex_too_short_is_refused " #1a2B " 1).
  right. reflexivity.
Defined.
